(** * djongo.sql2mongo.query: the SQL to MongoDB statement dispatcher

    A shallow embedding of [src/djongo/sql2mongo/query.py]: the [Query]
    dispatcher, the [SelectQuery], [InsertQuery] and [AlterQuery] compilers,
    and the properties of them that the specification states.

    Python values are embedded as [pyval], exceptions as [exn], and code
    that talks to the database as a state-and-exception monad [M] over a
    [world] that holds the [__schema__] collection, the log of the calls
    issued to pymongo and the connection properties.  The SQL parser
    (sqlparse) and the clause converters ([converters.py]) are outside this
    file: a parsed statement is given by its tokens, and a converter by the
    values the dispatcher reads from it. *)

From Stdlib Require Import ZArith String Ascii List Lia Permutation.
From stdpp Require Import base strings gmap list pretty.

#[local] Set Warnings "-register-all,-clear-no-such-hyp".
#[local] Open Scope Z_scope.

(* ===================================================================== *)
(** * Python values and exceptions *)
(* ===================================================================== *)

Module Py.

(** The Python values that flow through the dispatcher: query parameters,
    document fields, pipeline stages.  [PDefault] is the one object bound to
    [InsertQuery.DEFAULT = object()] (query.py:346). *)
Inductive pyval :=
| PNone
| PBool (b : bool)
| PInt (z : Z)
| PStr (s : string)
| PList (l : list pyval)
| PDict (d : gmap string pyval)
| PDefault.

(** Python truth value testing, as used by [if x:] and [x or y]. *)
Definition truthy (v : pyval) : bool :=
  match v with
  | PNone => false
  | PBool b => b
  | PInt z => negb (Z.eqb z 0)
  | PStr s => negb (String.eqb s "")
  | PList l => match l with [] => false | _ => true end
  | PDict d => match map_to_list d with [] => false | _ => true end
  | PDefault => true
  end.

(** [x is not None] *)
Definition is_not_None (v : pyval) : bool :=
  match v with PNone => false | _ => true end.

(** [x == InsertQuery.DEFAULT]: equality with a bare [object()] is identity. *)
Definition is_DEFAULT (v : pyval) : bool :=
  match v with PDefault => true | _ => false end.

(** The classes of [pymongo.errors], as far as query.py tells them apart.
    [OperationFailure] and [CollectionInvalid] are the two it imports beside
    [PyMongoError]; neither is a subclass of the other.  The attribute
    [details] is defined by [OperationFailure] and by [AutoReconnect] (and
    so by their subclasses) and by no other class. *)
Inductive pymongo_class :=
| OperationFailure
| AutoReconnect
| CollectionInvalid
| OtherPyMongoError.

(** [hasattr(e, 'details')] *)
Definition has_details (c : pymongo_class) : bool :=
  match c with
  | OperationFailure | AutoReconnect => true
  | CollectionInvalid | OtherPyMongoError => false
  end.

(** The text of an [SQLDecodeError].  [FailedSQL] is the f-string built at
    the error boundary (query.py:822-827, 832-836, 871-876, 881-885):
    "FAILED SQL: {sql}\nParams: {params}\n[Pymongo error: {details}\n]Version: {version}". *)
Inductive decode_msg :=
| NoMessage
| Message (s : string)
| FailedSQL (sql : string) (params : option (list pyval))
            (pymongo_error : option pyval) (version : string).

(** The exceptions.  The [details] of a [PyMongoError] is what [e.details]
    returns when the class has the attribute, and is never read otherwise.
    [InvalidDocument] is [bson.errors.InvalidDocument], which the driver
    raises on a value it cannot encode; it is not a [PyMongoError]. *)
Inductive exn :=
| SQLDecodeError (m : decode_msg)
| MigrationError (m : string)
| NotImplementedError (m : string)
| PyMongoError (c : pymongo_class) (details : pyval)
| KeyError (key : string)
| IndexError
| TypeError
| AttributeError (name : string)
| UnboundLocalError (name : string)
| StopIteration
| InvalidDocument.

Definition is_MigrationError (e : exn) : bool :=
  match e with MigrationError _ => true | _ => false end.

Definition is_NotImplementedError (e : exn) : bool :=
  match e with NotImplementedError _ => true | _ => false end.

Definition is_SQLDecodeError (e : exn) : bool :=
  match e with SQLDecodeError _ => true | _ => false end.

(** The result of a computation that may raise. *)
Inductive result (A : Type) :=
| Ok (a : A)
| Raise (e : exn).
Arguments Ok {A} a.
Arguments Raise {A} e.

Definition rbind {A B} (r : result A) (k : A → result B) : result B :=
  match r with Ok a => k a | Raise e => Raise e end.

#[export] Instance result_ret : MRet result := @Ok.
#[export] Instance result_bind : MBind result := λ A B k r, rbind r k.

(** [d[key]] on a value: a [KeyError] on a dict without the key, a
    [TypeError] on a value that cannot be indexed by a string. *)
Definition getitem (v : pyval) (key : string) : result pyval :=
  match v with
  | PDict d => match d !! key with Some x => Ok x | None => Raise (KeyError key) end
  | _ => Raise TypeError
  end.

(** [params[i]]: [params] is [typing.Optional[tuple]]. *)
Definition params_getitem (params : option (list pyval)) (i : nat) : result pyval :=
  match params with
  | None => Raise TypeError
  | Some ps => match ps !! i with Some v => Ok v | None => Raise IndexError end
  end.

End Py.
Export Py.

(* ===================================================================== *)
(** * Positional parameter markers (Query.__init__, Query._param_index) *)
(* ===================================================================== *)

Module Markers.

(** [Query._param_index] (query.py:839-841): bump the counter, then format
    it into the keyed reference. *)
Definition _param_index (_params_index_count : Z) : Z * string :=
  let count := _params_index_count + 1 in
  (count, "%(" +:+ pretty count +:+ ")s").

(** [re.sub(r'%s', self._param_index, sql)] (query.py:787): the leftmost,
    non-overlapping occurrences of the two characters [%s] are replaced, from
    left to right, by what the callback returns; the counter is threaded
    through the calls. *)
Fixpoint re_sub (count : Z) (sql : string) : Z * string :=
  match sql with
  | EmptyString => (count, EmptyString)
  | String c rest =>
      match rest with
      | String c' rest' =>
          if Ascii.eqb c "%"%char && Ascii.eqb c' "s"%char then
            let '(count1, key) := _param_index count in
            let '(count2, out) := re_sub count1 rest' in
            (count2, key +:+ out)
          else
            let '(count2, out) := re_sub count rest in
            (count2, String c out)
      | EmptyString => (count, String c EmptyString)
      end
  end.

(** The two assignments of [Query.__init__] (query.py:786-787). *)
Definition init_sql (sql : string) : Z * string := re_sub (-1) sql.

(** A text without any marker. *)
Fixpoint has_marker (s : string) : bool :=
  match s with
  | EmptyString => false
  | String c rest =>
      match rest with
      | String c' _ => (Ascii.eqb c "%"%char && Ascii.eqb c' "s"%char) || has_marker rest
      | EmptyString => false
      end
  end.

(** [s0 m(k) s1 m(k+1) s2 ...]: the text made of the pieces [s0 :: segs]
    with a marker between two consecutive pieces, the [i]-th marker written
    [mark i]. *)
Fixpoint interleave (mark : nat → string) (k : nat) (s0 : string)
    (segs : list string) : string :=
  match segs with
  | [] => s0
  | s :: segs' => s0 +:+ mark k +:+ interleave mark (S k) s segs'
  end.

Definition positional (_ : nat) : string := "%s".
Definition keyed (k : nat) : string := "%(" +:+ pretty (Z.of_nat k) +:+ ")s".

End Markers.

(* ===================================================================== *)
(** * The document store, as the dispatcher sees it *)
(* ===================================================================== *)

Module Store.

Abbreviation document := (gmap string pyval).

(** The persisted layout of a table's entry in the [__schema__] collection:
    [{name, fields: {col: {type_code}}, auto: {seq, field_names}}]. *)
Record auto_info := { seq : Z; field_names : list string }.

Record schema_document := {
  name : string;
  fields : gmap string string;
  auto : option auto_info
}.

(** A pymongo cursor: the documents it still has to yield, the error the
    driver raises once they are consumed (if any), and its two flags. *)
Record cursor := {
  pending : list document;
  failure : option exn;
  alive : bool;
  closed : bool
}.

(** The calls query.py issues to pymongo, each with the arguments that vary:
    - [find_one_and_update_inc_seq t n] is
      [db['__schema__'].find_one_and_update({'name': t, 'auto': {'$exists': True}},
      {'$inc': {'auto.seq': n}}, return_document=ReturnDocument.AFTER)];
    - [update_rename], [update_unset] and [update_set_missing] are the
      [update(..., multi=True)] calls of [_rename_column], [_drop_column] and
      [_add_column], [schema_unset_field] and [schema_set_field] their
      updates of [__schema__];
    - [delete_many c] is [db[c].delete_many({})];
    - [refused c] stands in the log for a write [c] on which the driver
      raised: the call was issued, and what the store had applied of it by
      then is the store's affair ([insert_many(..., ordered=False)] and the
      [multi=True] updates are applied document by document). *)
Inductive store_call :=
| aggregate (collection : string) (pipeline : list pyval)
| find (collection : string) (kwargs : gmap string pyval)
| find_one_and_update_inc_seq (table : option string) (num : Z)
| insert_many (collection : string) (docs : list document)
| update_rename (collection : string) (old_name new_name : option string)
| update_unset (collection : string) (field : option string)
| update_set_missing (collection : string) (field : option string) (default : pyval)
| schema_unset_field (table : option string) (field : option string)
| schema_set_field (table : option string) (field : option string)
    (type_code : option string)
| delete_many (collection : string)
| rename (collection : string) (new_name : option string)
| create_index (collection : string) (field_dir : list (option string * Z))
    (unique : bool) (index_name : option string)
| drop_index (collection : string) (index_name : option string)
| drop_collection (table : string)
| drop_database (db_name : string)
| refused (c : store_call).

(** What the driver answers: whether a call fails, the cursor a read
    returns, the identifiers an insert generates.  The driver is external;
    its answers are part of the world the code runs in. *)
Record driver := {
  fault : store_call → option exn;
  cursor_of : store_call → cursor;
  inserted_ids : list document → list pyval
}.

(** The state the dispatcher reads and writes: the [__schema__] collection,
    the calls issued so far (oldest first), and the connection properties
    ([base.DjongoClient]: [enforce_schema], [cached_collections]). *)
Record world := {
  drv : driver;
  schema : list schema_document;
  log : list store_call;
  enforce_schema : bool;
  cached_collections : list (option string)
}.

Definition set_log (w : world) (l : list store_call) : world :=
  {| drv := drv w; schema := schema w; log := l;
     enforce_schema := enforce_schema w;
     cached_collections := cached_collections w |}.

Definition set_schema (w : world) (s : list schema_document) : world :=
  {| drv := drv w; schema := s; log := log w;
     enforce_schema := enforce_schema w;
     cached_collections := cached_collections w |}.

Definition set_cached_collections (w : world) (c : list (option string)) : world :=
  {| drv := drv w; schema := schema w; log := log w;
     enforce_schema := enforce_schema w;
     cached_collections := c |}.

(** Code that may raise and that reads and writes the world.  A raised
    exception keeps the effects that happened before it. *)
Definition M (A : Type) : Type := world → result A * world.

Definition ret {A} (a : A) : M A := λ w, (Ok a, w).
Definition raise {A} (e : exn) : M A := λ w, (Raise e, w).
Definition bind {A B} (m : M A) (k : A → M B) : M B :=
  λ w, match m w with
       | (Ok a, w') => k a w'
       | (Raise e, w') => (Raise e, w')
       end.
Definition lift {A} (r : result A) : M A := λ w, (r, w).
Definition get_world : M world := λ w, (Ok w, w).

(** [try: m except <handled>: ...]: [handler e] is [Some k] when an
    [except] clause matches [e], and [k] is then its body. *)
Definition try_except {A} (m : M A) (handler : exn → option (M A)) : M A :=
  λ w, match m w with
       | (Ok a, w') => (Ok a, w')
       | (Raise e, w') =>
           match handler e with
           | Some k => k w'
           | None => (Raise e, w')
           end
       end.

(** The two calls that only read. *)
Definition is_read (c : store_call) : bool :=
  match c with
  | aggregate _ _ | find _ _ => true
  | _ => false
  end.

(** One call to the driver.  A call that returns is recorded.  A call on
    which the driver raises leaves nothing behind when it is a read, and is
    recorded as [refused] when it is a write. *)
Definition call (c : store_call) : M unit :=
  λ w, match fault (drv w) c with
       | Some e =>
           (Raise e, if is_read c then w else set_log w (log w ++ [refused c]))
       | None => (Ok tt, set_log w (log w ++ [c]))
       end.

(** What [find_one_and_update_inc_seq table num] does to [__schema__]: the
    first document named [table] that has an [auto] entry gets its
    [auto.seq] increased by [num]; the [auto] entry of the updated document
    is returned ([ReturnDocument.AFTER]), or [None] when no document
    matches. *)
Fixpoint inc_seq (table : option string) (num : Z) (docs : list schema_document)
    : option auto_info * list schema_document :=
  match docs with
  | [] => (None, [])
  | d :: rest =>
      match auto d with
      | Some a =>
          if bool_decide (Some (name d) = table) then
            let a' := {| seq := seq a + num; field_names := field_names a |} in
            (Some a', {| name := name d; fields := fields d; auto := Some a' |} :: rest)
          else
            let '(r, rest') := inc_seq table num rest in (r, d :: rest')
      | None =>
          let '(r, rest') := inc_seq table num rest in (r, d :: rest')
      end
  end.

(** The call itself: one step of the world, read and write together.  It
    is atomic: when the driver raises, nothing was changed. *)
Definition find_one_and_update (table : option string) (num : Z)
    : M (option auto_info) :=
  λ w, let c := find_one_and_update_inc_seq table num in
       match fault (drv w) c with
       | Some e => (Raise e, w)
       | None =>
           let '(r, s') := inc_seq table num (schema w) in
           (Ok r, set_schema (set_log w (log w ++ [c])) s')
       end.

(** [db[name]]: pymongo refuses a name that is not a string. *)
Definition db_getitem (table : option string) : M string :=
  match table with
  | Some t => ret t
  | None => raise TypeError
  end.

#[export] Instance M_ret : MRet M := @ret.
#[export] Instance M_bind : MBind M := λ A B k m, bind m k.

End Store.
Export Store.


(* ===================================================================== *)
(** * SelectQuery *)
(* ===================================================================== *)

Module Select.

(** An entry of a converter's [sql_tokens]: a column of a table
    ([SQLToken]), or a computed column known by its alias. *)
Inductive sql_token :=
| SQLToken (table column : string)
| SQLFunc (alias : string).

(** The clause converters are external.  A converter is given by what
    query.py reads from it: its attributes, the result of [to_mongo()], and
    the result of [to_mongo()] once [_make_pipeline] has switched its class
    to the [Agg...Converter] variant (the [agg_] fields). *)
Record ColumnSelectConverter := {
  sql_tokens : list sql_token;
  return_const : pyval;
  has_func : bool;
  columns_to_mongo : gmap string pyval;
  columns_agg_to_mongo : list pyval
}.

Record WhereConverter := {
  where_to_mongo : gmap string pyval;
  where_agg_to_mongo : pyval
}.

Record LimitConverter := {
  limit_to_mongo : gmap string pyval;
  limit_agg_to_mongo : pyval
}.

Record OrderConverter := {
  order_to_mongo : gmap string pyval;
  order_agg_to_mongo : pyval
}.

Record OffsetConverter := {
  offset_to_mongo : gmap string pyval;
  offset_agg_to_mongo : pyval
}.

(** [InnerJoinConverter] and [OuterJoinConverter]. *)
Record JoinConverter := { join_to_mongo : list pyval }.

Record DistinctConverter := {
  distinct_sql_tokens : list sql_token;
  distinct_to_mongo : list pyval
}.

Record GroupbyConverter := { groupby_to_mongo : list pyval }.
Record HavingConverter := { having_to_mongo : pyval }.
Record NestedInQueryConverter := { nested_to_mongo : list pyval }.

(** The attributes of a [SelectQuery] (query.py:60-79, 111-125). *)
Record SelectQuery := {
  selected_columns : option ColumnSelectConverter;
  where_ : option WhereConverter;
  joins : list JoinConverter;
  order : option OrderConverter;
  offset : option OffsetConverter;
  limit : option LimitConverter;
  distinct : option DistinctConverter;
  groupby : option GroupbyConverter;
  having : option HavingConverter;
  nested_query : option NestedInQueryConverter;
  left_table : option string;
  _cursor : option cursor
}.

(** The state after [SelectQuery.__init__] and [BaseQuery.__init__], before
    [parse()] runs. *)
Definition init : SelectQuery :=
  {| selected_columns := None; where_ := None; joins := []; order := None;
     offset := None; limit := None; distinct := None; groupby := None;
     having := None; nested_query := None; left_table := None;
     _cursor := None |}.

Definition set_selected_columns q v :=
  {| selected_columns := v; where_ := where_ q; joins := joins q;
     order := order q; offset := offset q; limit := limit q;
     distinct := distinct q; groupby := groupby q; having := having q;
     nested_query := nested_query q; left_table := left_table q;
     _cursor := _cursor q |}.
Definition set_where q v :=
  {| selected_columns := selected_columns q; where_ := v; joins := joins q;
     order := order q; offset := offset q; limit := limit q;
     distinct := distinct q; groupby := groupby q; having := having q;
     nested_query := nested_query q; left_table := left_table q;
     _cursor := _cursor q |}.
Definition set_joins q v :=
  {| selected_columns := selected_columns q; where_ := where_ q; joins := v;
     order := order q; offset := offset q; limit := limit q;
     distinct := distinct q; groupby := groupby q; having := having q;
     nested_query := nested_query q; left_table := left_table q;
     _cursor := _cursor q |}.
Definition set_order q v :=
  {| selected_columns := selected_columns q; where_ := where_ q;
     joins := joins q; order := v; offset := offset q; limit := limit q;
     distinct := distinct q; groupby := groupby q; having := having q;
     nested_query := nested_query q; left_table := left_table q;
     _cursor := _cursor q |}.
Definition set_offset q v :=
  {| selected_columns := selected_columns q; where_ := where_ q;
     joins := joins q; order := order q; offset := v; limit := limit q;
     distinct := distinct q; groupby := groupby q; having := having q;
     nested_query := nested_query q; left_table := left_table q;
     _cursor := _cursor q |}.
Definition set_limit q v :=
  {| selected_columns := selected_columns q; where_ := where_ q;
     joins := joins q; order := order q; offset := offset q; limit := v;
     distinct := distinct q; groupby := groupby q; having := having q;
     nested_query := nested_query q; left_table := left_table q;
     _cursor := _cursor q |}.
Definition set_distinct q v :=
  {| selected_columns := selected_columns q; where_ := where_ q;
     joins := joins q; order := order q; offset := offset q;
     limit := limit q; distinct := v; groupby := groupby q;
     having := having q; nested_query := nested_query q;
     left_table := left_table q; _cursor := _cursor q |}.
Definition set_groupby q v :=
  {| selected_columns := selected_columns q; where_ := where_ q;
     joins := joins q; order := order q; offset := offset q;
     limit := limit q; distinct := distinct q; groupby := v;
     having := having q; nested_query := nested_query q;
     left_table := left_table q; _cursor := _cursor q |}.
Definition set_having q v :=
  {| selected_columns := selected_columns q; where_ := where_ q;
     joins := joins q; order := order q; offset := offset q;
     limit := limit q; distinct := distinct q; groupby := groupby q;
     having := v; nested_query := nested_query q;
     left_table := left_table q; _cursor := _cursor q |}.
Definition set_nested_query q v :=
  {| selected_columns := selected_columns q; where_ := where_ q;
     joins := joins q; order := order q; offset := offset q;
     limit := limit q; distinct := distinct q; groupby := groupby q;
     having := having q; nested_query := v;
     left_table := left_table q; _cursor := _cursor q |}.
Definition set_left_table q v :=
  {| selected_columns := selected_columns q; where_ := where_ q;
     joins := joins q; order := order q; offset := offset q;
     limit := limit q; distinct := distinct q; groupby := groupby q;
     having := having q; nested_query := nested_query q;
     left_table := v; _cursor := _cursor q |}.
Definition set_cursor q v :=
  {| selected_columns := selected_columns q; where_ := where_ q;
     joins := joins q; order := order q; offset := offset q;
     limit := limit q; distinct := distinct q; groupby := groupby q;
     having := having q; nested_query := nested_query q;
     left_table := left_table q; _cursor := v |}.

(** The top-level tokens that the loop of [SelectQuery.parse] meets
    (query.py:130-164).  Each keyword token comes with what the converter
    built at that keyword leaves behind: the converter itself and what it
    registers on the query ([FromConverter] sets [left_table], the column
    converter registers the [DistinctConverter] of a [SELECT DISTINCT], the
    WHERE converter registers the converter of a nested [IN (SELECT ...)]).
    [Raising kw e] is a keyword [kw] of the ten whose converter raises [e];
    [Other] is any other token. *)
Inductive clause :=
| SELECT (c : ColumnSelectConverter) (d : option DistinctConverter)
| FROM (table : string)
| LIMIT (c : LimitConverter)
| ORDER (c : OrderConverter)
| OFFSET (c : OffsetConverter)
| INNER_JOIN (c : JoinConverter)
| LEFT_OUTER_JOIN (c : JoinConverter)
| GROUP (c : GroupbyConverter)
| HAVING (c : HavingConverter)
| WHERE (c : WhereConverter) (n : option NestedInQueryConverter)
| Raising (kw : string) (e : exn)
| Other (tok : string).

(** One turn of the loop of [SelectQuery.parse]. *)
Definition parse_tok (q : SelectQuery) (tok : clause) : result SelectQuery :=
  match tok with
  | SELECT c d =>
      let q := match d with Some _ => set_distinct q d | None => q end in
      Ok (set_selected_columns q (Some c))
  | FROM t => Ok (set_left_table q (Some t))
  | LIMIT c => Ok (set_limit q (Some c))
  | ORDER c => Ok (set_order q (Some c))
  | OFFSET c => Ok (set_offset q (Some c))
  | INNER_JOIN c => Ok (set_joins q (joins q ++ [c]))
  | LEFT_OUTER_JOIN c => Ok (set_joins q (joins q ++ [c]))
  | GROUP c => Ok (set_groupby q (Some c))
  | HAVING c => Ok (set_having q (Some c))
  | WHERE c n =>
      let q := match n with Some _ => set_nested_query q n | None => q end in
      Ok (set_where q (Some c))
  | Raising _ e => Raise e
  | Other tok => Raise (SQLDecodeError (Message ("Unknown keyword: " +:+ tok)))
  end.

Fixpoint parse_from (q : SelectQuery) (statement : list clause)
    : result SelectQuery :=
  match statement with
  | [] => Ok q
  | tok :: rest => q' ← parse_tok q tok; parse_from q' rest
  end.

(** [SelectQuery(...)]: the constructor runs [parse()]. *)
Definition parse (statement : list clause) : result SelectQuery :=
  parse_from init statement.

(** The truth value of an attribute that holds a converter or [None]: the
    converters are plain objects, true whenever present. *)
Definition present {A} (o : option A) : bool :=
  match o with Some _ => true | None => false end.

(** [SelectQuery._needs_aggregation] (query.py:194-202), as the truth value
    of the [or] chain.  The chain stops at the first true operand, so
    [selected_columns] is only dereferenced when the four before it are
    false. *)
Definition _needs_aggregation (q : SelectQuery) : result bool :=
  if present (nested_query q) then Ok true
  else if match joins q with [] => false | _ => true end then Ok true
  else if present (distinct q) then Ok true
  else if present (groupby q) then Ok true
  else match selected_columns q with
       | None => Raise (AttributeError "return_const")
       | Some c => if truthy (return_const c) then Ok true else Ok (has_func c)
       end.

(** [SelectQuery._needs_column_selection] (query.py:243-244). *)
Definition _needs_column_selection (q : SelectQuery) : bool :=
  negb (present (distinct q) || present (groupby q))
  && present (selected_columns q).

(** [pipeline.extend(c.to_mongo())] and [pipeline.append(c.to_mongo())]
    under [if c:]. *)
Definition extend_if {A} (c : option A) (to_mongo : A → list pyval)
    (pipeline : list pyval) : list pyval :=
  match c with Some x => pipeline ++ to_mongo x | None => pipeline end.

Definition append_if {A} (c : option A) (to_mongo : A → pyval)
    (pipeline : list pyval) : list pyval :=
  match c with Some x => pipeline ++ [to_mongo x] | None => pipeline end.

(** [SelectQuery._make_pipeline] (query.py:204-241). *)
Definition _make_pipeline (q : SelectQuery) : list pyval :=
  let pipeline := [] in
  let pipeline :=
    fold_left (λ pipeline join, pipeline ++ join_to_mongo join) (joins q) pipeline in
  let pipeline := extend_if (nested_query q) nested_to_mongo pipeline in
  let pipeline := append_if (where_ q) where_agg_to_mongo pipeline in
  let pipeline := extend_if (groupby q) groupby_to_mongo pipeline in
  let pipeline := append_if (having q) having_to_mongo pipeline in
  let pipeline := extend_if (distinct q) distinct_to_mongo pipeline in
  let pipeline := append_if (order q) order_agg_to_mongo pipeline in
  let pipeline := append_if (offset q) offset_agg_to_mongo pipeline in
  let pipeline := append_if (limit q) limit_agg_to_mongo pipeline in
  if _needs_column_selection q then
    extend_if (selected_columns q) columns_agg_to_mongo pipeline
  else pipeline.

(** [kwargs.update(c.to_mongo())] under [if c:]; the keys of the argument
    win. *)
Definition update_if {A} (c : option A) (to_mongo : A → gmap string pyval)
    (kwargs : gmap string pyval) : gmap string pyval :=
  match c with Some x => to_mongo x ∪ kwargs | None => kwargs end.

(** The keyword arguments of the [find] call (query.py:252-266). *)
Definition find_kwargs (q : SelectQuery) : gmap string pyval :=
  let kwargs := ∅ in
  let kwargs := update_if (where_ q) where_to_mongo kwargs in
  let kwargs := update_if (selected_columns q) columns_to_mongo kwargs in
  let kwargs := update_if (limit q) limit_to_mongo kwargs in
  let kwargs := update_if (order q) order_to_mongo kwargs in
  let kwargs := update_if (offset q) offset_to_mongo kwargs in
  kwargs.

(** [SelectQuery._get_cursor] (query.py:246-271). *)
Definition _get_cursor (q : SelectQuery) : M cursor :=
  agg ← lift (_needs_aggregation q);
  if agg : bool then
    let pipeline := _make_pipeline q in
    table ← db_getitem (left_table q);
    let c := aggregate table pipeline in
    _ ← call c;
    w ← get_world;
    mret (cursor_of (drv w) c)
  else
    let kwargs := find_kwargs q in
    table ← db_getitem (left_table q);
    let c := find table kwargs in
    _ ← call c;
    w ← get_world;
    mret (cursor_of (drv w) c).

(** [except KeyError] around a subscript (query.py:283-288, 290-295). *)
Definition or_missing (enforce : bool) (column : string) (r : result pyval)
    : result pyval :=
  match r with
  | Raise (KeyError _) =>
      if enforce then Raise (MigrationError column) else Ok PNone
  | _ => r
  end.

(** The loop of [_align_results] over [sql_tokens]. *)
Fixpoint align_loop (enforce : bool) (left : option string) (doc : document)
    (sql_tokens : list sql_token) (ret : list pyval) : result (list pyval) :=
  match sql_tokens with
  | [] => Ok ret
  | selected :: rest =>
      v ← match selected with
          | SQLToken table column =>
              if bool_decide (Some table = left) then
                or_missing enforce column (getitem (PDict doc) column)
              else
                or_missing enforce column
                  (t ← getitem (PDict doc) table; getitem t column)
          | SQLFunc alias => getitem (PDict doc) alias
          end;
      align_loop enforce left doc rest (ret ++ [v])
  end.

(** The tokens [_align_results] walks (query.py:275-278). *)
Definition aligned_tokens (q : SelectQuery) : result (list sql_token) :=
  match distinct q with
  | Some d => Ok (distinct_sql_tokens d)
  | None =>
      match selected_columns q with
      | Some c => Ok (sql_tokens c)
      | None => Raise (AttributeError "sql_tokens")
      end
  end.

(** [SelectQuery._align_results] (query.py:273-299); [enforce] is
    [connection_properties.enforce_schema]. *)
Definition _align_results (enforce : bool) (q : SelectQuery) (doc : document)
    : result (list pyval) :=
  toks ← aligned_tokens q;
  align_loop enforce (left_table q) doc toks [].

(** What a generator did: the rows it yielded, in order, and the exception
    that ended it, if one did. *)
Record iteration := { yielded : list (list pyval); raised : option exn }.

(** [for doc in cursor: yield f(doc)] *)
Fixpoint for_docs (f : document → result (list pyval)) (docs : list document)
    (failure : option exn) : iteration :=
  match docs with
  | [] => {| yielded := []; raised := failure |}
  | doc :: rest =>
      match f doc with
      | Ok row =>
          let it := for_docs f rest failure in
          {| yielded := row :: yielded it; raised := raised it |}
      | Raise e => {| yielded := []; raised := Some e |}
      end
  end.

(** The documents the loop has not taken from the cursor when it ends. *)
Fixpoint left_over (f : document → result (list pyval)) (docs : list document)
    : list document :=
  match docs with
  | [] => []
  | doc :: rest =>
      match f doc with
      | Ok _ => left_over f rest
      | Raise _ => rest
      end
  end.

(** The cursor once the loop has taken [docs] down to [rest]. *)
Definition advance (cur : cursor) (rest : list document) : cursor :=
  {| pending := rest; failure := failure cur;
     alive := match rest with [] => false | _ => alive cur end;
     closed := closed cur |}.

(** [yield (doc['_const'],)] *)
Definition const_row (doc : document) : result (list pyval) :=
  v ← getitem (PDict doc) "_const"; Ok [v].

(** The body of [SelectQuery.__iter__] once the cursor is there
    (query.py:171-182): what it yields, and the cursor it leaves. *)
Definition iter_cursor (enforce : bool) (q : SelectQuery) (cur : cursor)
    : iteration * cursor :=
  match selected_columns q with
  | None =>
      ({| yielded := []; raised := Some (AttributeError "return_const") |}, cur)
  | Some c =>
      if is_not_None (return_const c) then
        if negb (alive cur) then ({| yielded := [[]]; raised := None |}, cur)
        else (for_docs const_row (pending cur) (failure cur),
              advance cur (left_over const_row (pending cur)))
      else (for_docs (_align_results enforce q) (pending cur) (failure cur),
            advance cur (left_over (_align_results enforce q) (pending cur)))
  end.

(** [SelectQuery.__iter__] (query.py:166-182), run to its end. *)
Definition __iter__ (q : SelectQuery) (w : world)
    : SelectQuery * iteration * world :=
  match _cursor q with
  | Some cur =>
      let '(it, cur') := iter_cursor (enforce_schema w) q cur in
      (set_cursor q (Some cur'), it, w)
  | None =>
      match _get_cursor q w with
      | (Ok cur, w') =>
          let '(it, cur') := iter_cursor (enforce_schema w') q cur in
          (set_cursor q (Some cur'), it, w')
      | (Raise e, w') => (q, {| yielded := []; raised := Some e |}, w')
      end
  end.

Section Counting.

(** What [count()] asks of the cursor that pymongo returned: whether it is
    a [pymongo.cursor.Cursor] (the class of what [find] returns; [aggregate]
    returns a [CommandCursor]), and [Cursor.count()], which is a call of its
    own to the store.  Both belong to the driver. *)
Variable is_BasicCursor : cursor → bool.
Variable cursor_count : cursor → M Z.

(** [SelectQuery.count] (query.py:184-192): the query as it is left, what
    is returned or raised, and the world.  [len(list(cursor))] takes every
    pending document and fails when the cursor does. *)
Definition count (q : SelectQuery) (w : world)
    : SelectQuery * result Z * world :=
  match (match _cursor q with
         | Some cur => (Ok cur, w)
         | None => _get_cursor q w
         end) with
  | (Raise e, w') => (q, Raise e, w')
  | (Ok cur, w') =>
      if is_BasicCursor cur then
        let '(r, w'') := cursor_count cur w' in
        (set_cursor q (Some cur), r, w'')
      else
        (set_cursor q (Some (advance cur [])),
         match failure cur with
         | Some e => Raise e
         | None => Ok (Z.of_nat (length (pending cur)))
         end,
         w')
  end.

End Counting.

End Select.

(* ===================================================================== *)
(** * Parsed statements (sqlparse) *)
(* ===================================================================== *)

Module Sql.

(** The token types query.py tests for, and the others. *)
Inductive ttype :=
| Keyword
| Keyword_DDL
| Keyword_DML
| Name_Builtin
| Punctuation
| Whitespace
| Other_ttype (t : string).

#[export] Instance ttype_eq_dec : EqDecision ttype.
Proof. solve_decision. Defined.

(** What [SQLToken(tok, None)] reads from an identifier. *)
Record identifier := {
  get_name : option string;
  get_real_name : option string;
  table : string;
  column : string
}.

(** A token of a parsed statement.  A leaf [Token] has its type and its
    text, upper-cased when it is a keyword ([Token.normalized]);
    [Placeholder i] is the leaf for the keyed parameter reference number
    [i].  A [Parenthesis] has its children (the two brackets included), its text,
    and what iterating [SQLToken(tok, None)] yields on it: the parameter
    index of each value of the tuple, [None] for a literal NULL. *)
Inductive token :=
| Token (t : ttype) (value : string)
| Placeholder (index : nat)
| Identifier (i : identifier)
| IdentifierList (tokens : list token)
| Parenthesis (tokens : list token) (value : string)
    (placeholders : result (list (option nat)))
| Where (tokens : list token).

(** [tok.match(ttype, values)]: the type is the very one asked for and the
    text is one of [values]. *)
Definition tok_match (tok : token) (t : ttype) (values : list string) : bool :=
  match tok with
  | Token t' v => bool_decide (t' = t) && bool_decide (v ∈ values)
  | _ => false
  end.

Definition is_whitespace (tok : token) : bool :=
  match tok with Token Whitespace _ => true | _ => false end.

Definition is_Identifier (tok : token) : bool :=
  match tok with Identifier _ => true | _ => false end.
Definition is_IdentifierList (tok : token) : bool :=
  match tok with IdentifierList _ => true | _ => false end.

(** [TokenList._token_matching]: the first token that is not whitespace, at
    position [idx] or later, with its position. *)
Fixpoint token_matching (idx : nat) (tokens : list token)
    : option nat * option token :=
  match tokens with
  | [] => (None, None)
  | tok :: rest =>
      if is_whitespace tok then token_matching (S idx) rest
      else (Some idx, Some tok)
  end.

(** [statement.token_next(idx)]: [(None, None)] for [idx = None] and past
    the last token. *)
Definition token_next (tokens : list token) (idx : option nat)
    : option nat * option token :=
  match idx with
  | None => (None, None)
  | Some i => token_matching (S i) (drop (S i) tokens)
  end.

(** The tokens that repeated [token_next] calls starting from [idx] return,
    in order: the loops [while tok_id is not None: ...;
    tok_id, tok = sm.token_next(tok_id)] run over them. *)
Definition tokens_after (idx : nat) (tokens : list token) : list token :=
  filter (λ tok, is_whitespace tok = false) (drop (S idx) tokens).

(** [tok[1]] *)
Definition token_getitem_1 (tok : token) : result token :=
  match tok with
  | Token _ _ | Placeholder _ => Raise TypeError
  | Identifier _ => Raise IndexError (* its name is its only child *)
  | IdentifierList ts | Parenthesis ts _ _ | Where ts =>
      match ts !! 1%nat with Some t => Ok t | None => Raise IndexError end
  end.

(** [tok.get_name()] and [tok.get_real_name()]: methods of the token
    groups, absent from a leaf token. *)
Definition tok_get_name (tok : token) : result (option string) :=
  match tok with
  | Token _ _ | Placeholder _ => Raise (AttributeError "get_name")
  | Identifier i => Ok (get_name i)
  | _ => Ok None
  end.

Definition tok_get_real_name (tok : token) : result (option string) :=
  match tok with
  | Token _ _ | Placeholder _ => Raise (AttributeError "get_real_name")
  | Identifier i => Ok (get_real_name i)
  | _ => Ok None
  end.

(** [SQLToken(tok, None).column] and [.table]: read from an identifier. *)
Definition sql_column (tok : token) : result string :=
  match tok with
  | Identifier i => Ok (column i)
  | _ => Raise (AttributeError "column")
  end.

Definition sql_table (tok : token) : result string :=
  match tok with
  | Identifier i => Ok (table i)
  | _ => Raise (AttributeError "table")
  end.

Definition is_separator (tok : token) : bool :=
  match tok with
  | Token Whitespace _ | Token Punctuation _ => true
  | _ => false
  end.

(** [SQLToken.placeholder_index(tok)]: the number in the text of a keyed
    parameter reference.  Without a token, reading its text fails; on
    another text, the match object is [None]. *)
Definition placeholder_index (tok : option token) : result nat :=
  match tok with
  | Some (Placeholder i) => Ok i
  | Some _ => Raise (AttributeError "group")
  | None => Raise (AttributeError "value")
  end.

(** [tok.get_identifiers()] *)
Definition get_identifiers (tokens : list token) : list token :=
  filter (λ tok, is_separator tok = false) tokens.

(** A parsed statement: its kind ([get_type()]), its text ([str(sm)]), its
    tokens, and, for a SELECT, the clauses that the loop of
    [SelectQuery.parse] meets (see [Select.clause]). *)
Record Statement := {
  get_type : string;
  text : string;
  tokens : list token;
  clauses : list Select.clause
}.

End Sql.

(* ===================================================================== *)
(** * InsertQuery *)
(* ===================================================================== *)

Module Insert.
Import Sql.

(** An [InsertQuery] once its constructor has run [parse()]. *)
Record InsertQuery := {
  left_table : option string;
  _cols : list string;
  _vals : list (list pyval);
  _cursor : option cursor
}.

Definition str_of_name (n : option string) : string :=
  match n with Some s => s | None => "None" end.

(** [InsertQuery._table] (query.py:354-363); [rest] are the tokens that
    [token_next] still has to return.  The test [collection not in
    cached_collections] is taken as membership in the names the cache
    holds; the class of the cache (in [base.py]) is outside this file, and
    what its membership test does beside answering is not modelled. *)
Definition _table (rest : list token) : M (option string * list token) :=
  match rest with
  | [] => raise (AttributeError "get_name")
  | tok :: rest' =>
      collection ← lift (tok_get_name tok);
      w ← get_world;
      _ ← (if bool_decide (collection ∈ cached_collections w) then mret tt
           else if enforce_schema w then
             raise (MigrationError
                      ("Table " +:+ str_of_name collection
                       +:+ " does not exist in database"))
           else λ w, (Ok tt, set_cached_collections w
                               (cached_collections w ++ [collection])));
      mret (collection, rest')
  end.

(** [InsertQuery._columns] (query.py:365-375). *)
Definition _columns (rest : list token) : result (list string * list token) :=
  match rest with
  | [] => Raise TypeError
  | tok :: rest' =>
      tok1 ← token_getitem_1 tok;
      cols ← match tok1 with
             | IdentifierList ts => mapM sql_column (get_identifiers ts)
             | _ => c ← sql_column tok1; Ok [c]
             end;
      Ok (cols, rest')
  end.

(** [self.params[i] if i is not None else None] *)
Definition param_or_None (params : option (list pyval)) (i : option nat)
    : result pyval :=
  match i with
  | Some i => params_getitem params i
  | None => Ok PNone
  end.

(** One turn of the loop of [InsertQuery._values] (query.py:381-398). *)
Definition _values_tok (params : option (list pyval)) (tok : token)
    (vals : list (list pyval)) : result (list (list pyval)) :=
  if tok_match tok Keyword ["VALUES"] then Ok vals
  else match tok with
       | Parenthesis _ _ placeholders =>
           tok1 ← token_getitem_1 tok;
           if is_IdentifierList tok1 then
             idx ← placeholders;
             row ← mapM (param_or_None params) idx;
             Ok (vals ++ [row])
           else if tok_match tok1 Keyword ["DEFAULT"] then
             Ok (vals ++ [[PDefault]])
           else
             idx ← placeholders;
             match idx with
             | [] => Raise StopIteration
             | i :: _ => v ← param_or_None params i; Ok (vals ++ [[v]])
             end
       | _ => Ok vals
       end.

(** [InsertQuery._values] (query.py:377-400). *)
Fixpoint _values_from (params : option (list pyval)) (rest : list token)
    (vals : list (list pyval)) : result (list (list pyval)) :=
  match rest with
  | [] => Ok vals
  | tok :: rest' =>
      vals' ← _values_tok params tok vals;
      _values_from params rest' vals'
  end.

Definition _values (params : option (list pyval)) (rest : list token)
    : result (list (list pyval)) :=
  _values_from params rest [].

(** [InsertQuery.parse] (query.py:438-442), run by the constructor. *)
Definition parse (params : option (list pyval)) (sm : list token)
    : M InsertQuery :=
  '(collection, rest) ← _table (tokens_after 2 sm);
  '(cols, rest) ← lift (_columns rest);
  vals ← lift (_values params rest);
  mret {| left_table := collection; _cols := cols; _vals := vals;
          _cursor := None |}.

(** One turn of [for name in auto['auto']['field_names']]
    (query.py:420-421). *)
Definition set_auto_field (a : auto_info) (num : Z) (i : nat) (ins : document)
    (name : string) : document :=
  <[name := PInt (seq a - num + Z.of_nat i + 1)]> ins.

(** One turn of [for fld, v in zip(self._cols, val)] (query.py:422-428). *)
Definition set_field (auto : option auto_info) (ins : document)
    (item : string * pyval) : document :=
  let '(fld, v) := item in
  if match auto with
     | Some a => bool_decide (fld ∈ field_names a) && is_DEFAULT v
     | None => false
     end
  then ins
  else <[fld := v]> ins.

(** The document built for row [i] with values [val] (query.py:418-428). *)
Definition make_doc (auto : option auto_info) (num : Z) (cols : list string)
    (i : nat) (val : list pyval) : document :=
  let ins : document := ∅ in
  let ins :=
    match auto with
    | Some a => fold_left (set_auto_field a num i) (field_names a) ins
    | None => ins
    end in
  fold_left (set_field auto) (zip cols val) ins.

(** The documents handed to [insert_many] (query.py:417-429). *)
Definition make_docs (auto : option auto_info) (cols : list string)
    (vals : list (list pyval)) : list document :=
  imap (make_doc auto (Z.of_nat (length vals)) cols) vals.

(** [InsertQuery.execute] (query.py:402-436); the value returned is the one
    stored into [self._result_ref.last_row_id]. *)
Definition execute (q : InsertQuery) : M pyval :=
  let num := Z.of_nat (length (_vals q)) in
  auto ← find_one_and_update (left_table q) num;
  let docs := make_docs auto (_cols q) (_vals q) in
  collection ← db_getitem (left_table q);
  _ ← call (insert_many collection docs);
  match auto with
  | Some a => mret (PInt (seq a))
  | None =>
      w ← get_world;
      match last (inserted_ids (drv w) docs) with
      | Some v => mret v
      | None => raise IndexError
      end
  end.

End Insert.

(* ===================================================================== *)
(** * AlterQuery *)
(* ===================================================================== *)

Module Alter.
Import Sql.

(** The method bound to [self.execute]: [BaseQuery.execute] until [parse]
    rebinds it. *)
Inductive execute_method :=
| BaseQuery_execute
| _flush
| _drop_index
| _drop_column
| lambda_None
| _rename_column
| _rename_collection
| _unique
| _index
| _fk
| _add_column.

#[export] Instance execute_method_eq_dec : EqDecision execute_method.
Proof. solve_decision. Defined.

Record AlterQuery := {
  left_table : option string;
  _iden_name : option string;
  _old_name : option string;
  _new_name : option string;
  _default : pyval;
  _type_code : option string;
  field_dir : option (list (option string * Z));
  execute : execute_method;
  _cursor : option cursor
}.

Definition init : AlterQuery :=
  {| left_table := None; _iden_name := None; _old_name := None;
     _new_name := None; _default := PNone; _type_code := None;
     field_dir := None; execute := BaseQuery_execute; _cursor := None |}.

Definition set_left_table q v :=
  {| left_table := v; _iden_name := _iden_name q; _old_name := _old_name q;
     _new_name := _new_name q; _default := _default q;
     _type_code := _type_code q; field_dir := field_dir q;
     execute := execute q; _cursor := _cursor q |}.
Definition set_iden_name q v :=
  {| left_table := left_table q; _iden_name := v; _old_name := _old_name q;
     _new_name := _new_name q; _default := _default q;
     _type_code := _type_code q; field_dir := field_dir q;
     execute := execute q; _cursor := _cursor q |}.
Definition set_old_name q v :=
  {| left_table := left_table q; _iden_name := _iden_name q; _old_name := v;
     _new_name := _new_name q; _default := _default q;
     _type_code := _type_code q; field_dir := field_dir q;
     execute := execute q; _cursor := _cursor q |}.
Definition set_new_name q v :=
  {| left_table := left_table q; _iden_name := _iden_name q;
     _old_name := _old_name q; _new_name := v; _default := _default q;
     _type_code := _type_code q; field_dir := field_dir q;
     execute := execute q; _cursor := _cursor q |}.
Definition set_default q v :=
  {| left_table := left_table q; _iden_name := _iden_name q;
     _old_name := _old_name q; _new_name := _new_name q; _default := v;
     _type_code := _type_code q; field_dir := field_dir q;
     execute := execute q; _cursor := _cursor q |}.
Definition set_type_code q v :=
  {| left_table := left_table q; _iden_name := _iden_name q;
     _old_name := _old_name q; _new_name := _new_name q;
     _default := _default q; _type_code := v; field_dir := field_dir q;
     execute := execute q; _cursor := _cursor q |}.
Definition set_field_dir q v :=
  {| left_table := left_table q; _iden_name := _iden_name q;
     _old_name := _old_name q; _new_name := _new_name q;
     _default := _default q; _type_code := _type_code q; field_dir := v;
     execute := execute q; _cursor := _cursor q |}.
Definition set_execute q v :=
  {| left_table := left_table q; _iden_name := _iden_name q;
     _old_name := _old_name q; _new_name := _new_name q;
     _default := _default q; _type_code := _type_code q;
     field_dir := field_dir q; execute := v; _cursor := _cursor q |}.

(** [s.strip(chars)] and [s.split(sep)] on the characters of a string. *)
Fixpoint lstrip (chars : list ascii) (s : list ascii) : list ascii :=
  match s with
  | [] => []
  | c :: rest => if bool_decide (c ∈ chars) then lstrip chars rest else s
  end.

Definition strip (chars : string) (s : string) : string :=
  let cs := list_ascii_of_string chars in
  string_of_list_ascii
    (rev (lstrip cs (rev (lstrip cs (list_ascii_of_string s))))).

Fixpoint split_chars (sep : ascii) (s : list ascii) : list (list ascii) :=
  match s with
  | [] => [[]]
  | c :: rest =>
      if Ascii.eqb c sep then [] :: split_chars sep rest
      else match split_chars sep rest with
           | piece :: pieces => (c :: piece) :: pieces
           | [] => [[c]]
           end
  end.

Definition split (sep : ascii) (s : string) : list string :=
  string_of_list_ascii <$> split_chars sep (list_ascii_of_string s).

(** The characters stripped from a field name (query.py:680): the space
    and the double quote (character 34). *)
Definition space_quote : string :=
  String " " (String (ascii_of_nat 34) EmptyString).

(** [AlterQuery._rename] (query.py:542-566): the loop, then the test on
    [column]. *)
Fixpoint _rename_from (rest : list token) (column to : bool) (q : AlterQuery)
    : result AlterQuery :=
  match rest with
  | [] => Ok (if column then q else set_execute q _rename_collection)
  | tok :: rest' =>
      let '(q, column) :=
        if tok_match tok Keyword ["COLUMN"]
        then (set_execute q _rename_column, true) else (q, column) in
      if tok_match tok Keyword ["TO"] then _rename_from rest' column true q
      else if is_Identifier tok then
        n ← tok_get_real_name tok;
        _rename_from rest' column to
          (if to then set_new_name q n else set_old_name q n)
      else _rename_from rest' column to q
  end.

Definition _rename (rest : list token) (q : AlterQuery) : result AlterQuery :=
  _rename_from rest false false q.

(** [AlterQuery._alter] (query.py:582-603). *)
Fixpoint _alter_from (rest : list token) (q : AlterQuery) : result AlterQuery :=
  match rest with
  | [] => Ok q
  | tok :: rest' =>
      if is_Identifier tok then _alter_from rest' q
      else if tok_match tok Keyword ["NOT NULL"; "NULL"; "COLUMN"] then
        _alter_from rest' q
      else if tok_match tok Keyword_DDL ["DROP"] then _alter_from rest' q
      else Raise (NotImplementedError "")
  end.

Definition _alter (rest : list token) (q : AlterQuery) : result AlterQuery :=
  _alter_from rest (set_execute q lambda_None).

(** [AlterQuery._drop] (query.py:616-636). *)
Fixpoint _drop (rest : list token) (q : AlterQuery) : result AlterQuery :=
  match rest with
  | [] => Ok q
  | tok :: rest' =>
      if tok_match tok Keyword ["CASCADE"] then _drop rest' q
      else if is_Identifier tok then
        n ← tok_get_real_name tok; _drop rest' (set_iden_name q n)
      else if tok_match tok Keyword ["INDEX"] then
        _drop rest' (set_execute q _drop_index)
      else if tok_match tok Keyword ["CONSTRAINT"] then _drop rest' q
      else if tok_match tok Keyword ["COLUMN"] then
        _drop rest' (set_execute q _drop_column)
      else Raise (NotImplementedError "")
  end.

(** [AlterQuery._add] (query.py:660-702).  The DEFAULT branch takes one
    more token inside the loop. *)
Fixpoint _add (params : option (list pyval)) (rest : list token)
    (q : AlterQuery) : result AlterQuery :=
  match rest with
  | [] => Ok q
  | tok :: rest' =>
      if tok_match tok Keyword
           ["CONSTRAINT"; "KEY"; "REFERENCES"; "NOT NULL"; "NULL"] then
        _add params rest' q
      else if tok_match tok Name_Builtin
                ["integer"; "bool"; "char"; "date"; "boolean"; "datetime";
                 "float"; "time"; "number"; "string"] then
        _add params rest'
          (set_type_code q
             (match tok with Token _ v => Some v | _ => None end))
      else if is_Identifier tok then
        n ← tok_get_real_name tok; _add params rest' (set_iden_name q n)
      else match tok with
      | Parenthesis _ value _ =>
          _add params rest'
            (set_field_dir q
               (Some ((λ field, (Some (strip space_quote field), 1)) <$>
                        split "," (strip "()" value))))
      | _ =>
      if tok_match tok Keyword ["DEFAULT"] then
        match rest' with
        | [] =>
            i ← placeholder_index None;
            v ← params_getitem params i;
            Ok (set_default q v)
        | tok' :: rest'' =>
            i ← placeholder_index (Some tok');
            v ← params_getitem params i;
            _add params rest'' (set_default q v)
        end
      else if tok_match tok Keyword ["UNIQUE"] then
        let q :=
          if bool_decide (execute q = _add_column)
          then set_field_dir q
                 (Some [(_iden_name q, 1)])
          else q in
        _add params rest' (set_execute q _unique)
      else if tok_match tok Keyword ["INDEX"] then
        _add params rest' (set_execute q _index)
      else if tok_match tok Keyword ["FOREIGN"] then
        _add params rest' (set_execute q _fk)
      else if tok_match tok Keyword ["COLUMN"] then
        _add params rest' (set_execute q _add_column)
      else Raise (NotImplementedError "")
      end
  end.

(** [AlterQuery.parse] (query.py:519-540), with [AlterQuery._table]
    (query.py:608-614) in its TABLE branch.  [_add], [_drop], [_alter] and
    [_rename] run to the last token, so the loop ends after them. *)
Fixpoint parse_from (params : option (list pyval)) (rest : list token)
    (q : AlterQuery) : result AlterQuery :=
  match rest with
  | [] => Ok q
  | tok :: rest' =>
      if tok_match tok Keyword ["TABLE"] then
        match rest' with
        | [] => Raise (SQLDecodeError NoMessage)
        | tok' :: rest'' =>
            t ← sql_table tok';
            parse_from params rest'' (set_left_table q (Some t))
        end
      else if tok_match tok Keyword ["ADD"] then _add params rest' q
      else if tok_match tok Keyword ["FLUSH"] then
        parse_from params rest' (set_execute q _flush)
      else if tok_match tok Keyword_DDL ["DROP"] then _drop rest' q
      else if tok_match tok Keyword_DDL ["ALTER"] then _alter rest' q
      else if tok_match tok Keyword ["RENAME"] then _rename rest' q
      else Raise (NotImplementedError "")
  end.

(** [AlterQuery(...)]: the constructor runs [parse()], which starts after
    the token at index 0. *)
Definition parse (params : option (list pyval)) (sm : list token)
    : result AlterQuery :=
  parse_from params (tokens_after 0 sm) init.

(** [query.execute()]: whatever method [parse] bound
    (query.py:568-580, 605-606, 638-658, 704-742). *)
Definition run (q : AlterQuery) : M unit :=
  match execute q with
  | BaseQuery_execute => raise (NotImplementedError "")
  | _flush => c ← db_getitem (left_table q); call (delete_many c)
  | _drop_index =>
      c ← db_getitem (left_table q); call (drop_index c (_iden_name q))
  | _drop_column =>
      c ← db_getitem (left_table q);
      _ ← call (update_unset c (_iden_name q));
      call (schema_unset_field (left_table q) (_iden_name q))
  | lambda_None => mret tt
  | _rename_column =>
      c ← db_getitem (left_table q);
      call (update_rename c (_old_name q) (_new_name q))
  | _rename_collection =>
      c ← db_getitem (left_table q); call (rename c (_new_name q))
  | _unique =>
      c ← db_getitem (left_table q);
      match field_dir q with
      | Some fd => call (create_index c fd true (_iden_name q))
      | None => raise (AttributeError "field_dir")
      end
  | _index =>
      c ← db_getitem (left_table q);
      match field_dir q with
      | Some fd => call (create_index c fd false (_iden_name q))
      | None => raise (AttributeError "field_dir")
      end
  | _fk => mret tt
  | _add_column =>
      c ← db_getitem (left_table q);
      _ ← call (update_set_missing c (_iden_name q) (_default q));
      call (schema_set_field (left_table q) (_iden_name q) (_type_code q))
  end.

End Alter.

(* ===================================================================== *)
(** * Query: the dispatcher *)
(* ===================================================================== *)

Module Dispatch.
Import Sql.

(** [UpdateQuery] and [DeleteQuery], as far as the dispatcher looks into
    them: the attributes [BaseQuery.__init__] gives them. *)
Record BaseQuery := {
  left_table : option string;
  _cursor : option cursor
}.

(** The object bound to [Query._query]. *)
Inductive compiler :=
| SelectQuery (q : Select.SelectQuery)
| UpdateQuery (q : BaseQuery)
| InsertQuery (q : Insert.InsertQuery)
| DeleteQuery (q : BaseQuery)
| AlterQuery (q : Alter.AlterQuery).

(** [self._query._cursor] *)
Definition compiler_cursor (c : compiler) : option cursor :=
  match c with
  | SelectQuery q => Select._cursor q
  | UpdateQuery q | DeleteQuery q => _cursor q
  | InsertQuery q => Insert._cursor q
  | AlterQuery q => Alter._cursor q
  end.

Definition set_compiler_cursor (c : compiler) (cur : option cursor) : compiler :=
  match c with
  | SelectQuery q => SelectQuery (Select.set_cursor q cur)
  | UpdateQuery q => UpdateQuery {| left_table := left_table q; _cursor := cur |}
  | DeleteQuery q => DeleteQuery {| left_table := left_table q; _cursor := cur |}
  | InsertQuery q =>
      InsertQuery {| Insert.left_table := Insert.left_table q;
                     Insert._cols := Insert._cols q;
                     Insert._vals := Insert._vals q;
                     Insert._cursor := cur |}
  | AlterQuery q =>
      AlterQuery {| Alter.left_table := Alter.left_table q;
                    Alter._iden_name := Alter._iden_name q;
                    Alter._old_name := Alter._old_name q;
                    Alter._new_name := Alter._new_name q;
                    Alter._default := Alter._default q;
                    Alter._type_code := Alter._type_code q;
                    Alter.field_dir := Alter.field_dir q;
                    Alter.execute := Alter.execute q;
                    Alter._cursor := cur |}
  end.

(** The attributes of a [Query] (query.py:782-791). *)
Record Query := {
  _params : option (list pyval);
  _params_index_count : Z;
  _sql : string;
  last_row_id : pyval;
  _query : option compiler
}.

(** What a handler of [FUNC_MAP] returns: the compiler (or [None]) and
    the value it leaves in [self.last_row_id]. *)
Definition handler : Type :=
  option (list pyval) → string → Statement → M (option compiler * pyval).

(** [cursor.close()] *)
Definition cursor_close (cur : cursor) : cursor :=
  {| pending := pending cur; failure := failure cur; alive := false;
     closed := true |}.

(** [Query.close] (query.py:796-798).  A compiler and a cursor are plain
    objects, true whenever they are not [None]. *)
Definition close (q : Query) : result Query :=
  match _query q with
  | Some c =>
      match compiler_cursor c with
      | Some cur =>
          Ok {| _params := _params q;
                _params_index_count := _params_index_count q;
                _sql := _sql q; last_row_id := last_row_id q;
                _query := Some (set_compiler_cursor c (Some (cursor_close cur))) |}
      | None => Ok q
      end
  | None => Ok q
  end.

(** [tok.get_name()] on what [token_next] returned. *)
Definition next_get_name (tok : option token) : result (option string) :=
  match tok with
  | Some tok => tok_get_name tok
  | None => Raise (AttributeError "get_name")
  end.

(** A name handed to pymongo where it wants a string. *)
Definition as_str (n : option string) : M string :=
  match n with Some s => mret s | None => raise TypeError end.

(** [Query._drop] (query.py:975-996).  [statement.next()] returns the
    tokens after the DROP keyword, one at a time.  In the INDEX branch the
    local [tok_id] is read (query.py:987) and was never assigned. *)
Definition _drop : handler := λ params sql sm,
  match tokens_after 0 (tokens sm) with
  | [] => raise (AttributeError "match")
  | tok :: rest =>
      if tok_match tok Keyword ["DATABASE"] then
        n ← lift (next_get_name (head rest));
        db_name ← as_str n;
        _ ← call (drop_database db_name);
        mret (None, PNone)
      else if tok_match tok Keyword ["TABLE"] then
        n ← lift (next_get_name (head rest));
        table_name ← as_str n;
        _ ← call (drop_collection table_name);
        mret (None, PNone)
      else if tok_match tok Keyword ["INDEX"] then
        tok_id ← raise (UnboundLocalError "tok_id");
        let '(tok_id, tok) := token_next (tokens sm) tok_id in
        index_name ← lift (next_get_name tok);
        let '(tok_id, tok) := token_next (tokens sm) tok_id in
        if negb (match tok with
                 | Some tok => tok_match tok Keyword ["ON"]
                 | None => false
                 end)
        then raise (SQLDecodeError (Message ("statement:" +:+ text sm)))
        else
          let '(tok_id, tok) := token_next (tokens sm) tok_id in
          collection_name ← lift (next_get_name tok);
          c ← db_getitem collection_name;
          _ ← call (drop_index c index_name);
          mret (None, PNone)
      else raise (SQLDecodeError (Message ("statement:" +:+ text sm)))
  end.

(** [Query._alter] (query.py:888-895): a [NotImplementedError] of the
    constructor is logged and dropped; [execute()] runs in the [else]
    clause, outside the [try]. *)
Definition _alter : handler := λ params sql sm,
  match Alter.parse params (tokens sm) with
  | Raise e =>
      if is_NotImplementedError e then mret (None, PNone) else raise e
  | Ok query =>
      _ ← Alter.run query;
      mret (Some (AlterQuery query), PNone)
  end.

(** [Query._insert] (query.py:1008-1011). *)
Definition _insert : handler := λ params sql sm,
  query ← Insert.parse params (tokens sm);
  last ← Insert.execute query;
  mret (Some (InsertQuery query), last).

(** [Query._select] (query.py:1013-1014). *)
Definition _select : handler := λ params sql sm,
  query ← lift (Select.parse (clauses sm));
  mret (Some (SelectQuery query), PNone).

Section Dispatcher.

(** [djongo.__version__], the SQL parser, and the three handlers that this
    file does not look into (they are built from the clause converters). *)
Variable djongo_version : string.
Variable sqlparse : string → list Statement.
Variables _update _delete _create : handler.

(** For [count()]: the two questions [SelectQuery.count] asks of its cursor
    (see [Select.count]), and [self.result.matched_count] or
    [self.result.deleted_count] of an [UpdateQuery] or a [DeleteQuery],
    [result] being what pymongo returned to its [execute()]. *)
Variable is_BasicCursor : cursor → bool.
Variable cursor_count : cursor → M Z.
Variable affected_count : BaseQuery → result Z.

(** [Query.FUNC_MAP] (query.py:1016-1024). *)
Definition FUNC_MAP (sm_type : string) : option handler :=
  if String.eqb sm_type "SELECT" then Some _select
  else if String.eqb sm_type "UPDATE" then Some _update
  else if String.eqb sm_type "INSERT" then Some _insert
  else if String.eqb sm_type "DELETE" then Some _delete
  else if String.eqb sm_type "CREATE" then Some _create
  else if String.eqb sm_type "DROP" then Some _drop
  else if String.eqb sm_type "ALTER" then Some _alter
  else None.

(** The exception built by the three [except] clauses
    (query.py:869-886, 820-837). *)
Definition failed_sql (sql : string) (params : option (list pyval))
    (pymongo_error : option pyval) : exn :=
  SQLDecodeError (FailedSQL sql params pymongo_error djongo_version).

(** The [except] clauses around the handler call (query.py:866-886). *)
Definition parse_except (sql : string) (params : option (list pyval))
    (e : exn) : exn :=
  match e with
  | MigrationError _ => e
  | PyMongoError OperationFailure details => failed_sql sql params (Some details)
  | _ => failed_sql sql params None
  end.

(** [Query.parse] (query.py:843-886); [sql] is [self._sql]. *)
Definition parse (sql : string) (params : option (list pyval))
    : M (option compiler * pyval) :=
  let statement := sqlparse sql in
  if bool_decide (1 < length statement)%nat then
    raise (SQLDecodeError (Message sql))
  else
    match statement with
    | [] => raise IndexError
    | statement :: _ =>
        let sm_type := get_type statement in
        match FUNC_MAP sm_type with
        | None =>
            raise (NotImplementedError
                     (sm_type +:+ " command not implemented for SQL " +:+ sql))
        | Some handler =>
            try_except (handler params sql statement)
              (λ e, Some (raise (parse_except sql params e)))
        end
    end.

(** [Query.__init__] (query.py:775-791). *)
Definition __init__ (sql : string) (params : option (list pyval)) : M Query :=
  let '(count, sql') := Markers.re_sub (-1) sql in
  '(query, last) ← parse sql' params;
  mret {| _params := params; _params_index_count := count; _sql := sql';
          last_row_id := last; _query := query |}.

(** The [except] clauses of [Query.__iter__] (query.py:817-837).  The
    clause for [PyMongoError] reads [e.details] (query.py:825) while it
    builds the message: on an error of a class without that attribute the
    read raises [AttributeError], which leaves the [except] body in place
    of the [SQLDecodeError]. *)
Definition iter_except (q : Query) (e : exn) : exn :=
  match e with
  | MigrationError _ => e
  | PyMongoError c details =>
      if has_details c then failed_sql (_sql q) (_params q) (Some details)
      else AttributeError "details"
  | _ => failed_sql (_sql q) (_params q) None
  end.

(** [Query.__iter__] (query.py:810-837), run to its end.  Only a
    [SelectQuery] overrides [BaseQuery.__iter__], which yields nothing. *)
Definition __iter__ (q : Query) (w : world)
    : Query * Select.iteration * world :=
  match _query q with
  | Some (SelectQuery sq) =>
      let '(sq', it, w') := Select.__iter__ sq w in
      ({| _params := _params q;
          _params_index_count := _params_index_count q;
          _sql := _sql q; last_row_id := last_row_id q;
          _query := Some (SelectQuery sq') |},
       {| Select.yielded := Select.yielded it;
          Select.raised := iter_except q <$> Select.raised it |},
       w')
  | _ => (q, {| Select.yielded := []; Select.raised := None |}, w)
  end.

(** [Query.count] (query.py:793-794): [self._query.count()], with nothing
    around it.  [InsertQuery] and [AlterQuery] have no [count], and neither
    has [None]. *)
Definition count (q : Query) (w : world) : Query * result Z * world :=
  match _query q with
  | Some (SelectQuery sq) =>
      let '(sq', r, w') := Select.count is_BasicCursor cursor_count sq w in
      ({| _params := _params q;
          _params_index_count := _params_index_count q;
          _sql := _sql q; last_row_id := last_row_id q;
          _query := Some (SelectQuery sq') |}, r, w')
  | Some (UpdateQuery b) | Some (DeleteQuery b) => (q, affected_count b, w)
  | Some (InsertQuery _) | Some (AlterQuery _) | None =>
      (q, Raise (AttributeError "count"), w)
  end.

End Dispatcher.

End Dispatch.

(* ===================================================================== *)
(** * Vocabulary of the statements below *)
(* ===================================================================== *)

Module Vocabulary.
Import Select.

(** A driver that never fails and returns empty cursors, and a world with
    nothing in it. *)
Definition quiet_driver : driver :=
  {| fault := λ _, None;
     cursor_of := λ _, {| pending := []; failure := None; alive := false;
                          closed := false |};
     inserted_ids := λ docs, (λ _, PNone) <$> docs |}.

Definition empty_world (enforce : bool) : world :=
  {| drv := quiet_driver; schema := []; log := []; enforce_schema := enforce;
     cached_collections := [] |}.

(** The keyword arguments a converter contributes to [find]. *)
Definition fragment {A} (c : option A) (to_mongo : A → gmap string pyval)
    : gmap string pyval :=
  match c with Some x => to_mongo x | None => ∅ end.

(** The last clause of a statement on which [f] answers. *)
Fixpoint find_last {A} (f : clause → option A) (statement : list clause)
    : option A :=
  match statement with
  | [] => None
  | c :: rest =>
      match find_last f rest with
      | Some x => Some x
      | None => f c
      end
  end.

Definition or_else {A} (o d : option A) : option A :=
  match o with Some x => Some x | None => d end.

(** What each kind of clause brings. *)
Definition join_of (c : clause) : option JoinConverter :=
  match c with INNER_JOIN j | LEFT_OUTER_JOIN j => Some j | _ => None end.
Definition select_of (c : clause) : option ColumnSelectConverter :=
  match c with SELECT s _ => Some s | _ => None end.
Definition distinct_of (c : clause) : option DistinctConverter :=
  match c with SELECT _ d => d | _ => None end.
Definition from_of (c : clause) : option string :=
  match c with FROM t => Some t | _ => None end.
Definition limit_of (c : clause) : option LimitConverter :=
  match c with LIMIT l => Some l | _ => None end.
Definition order_of (c : clause) : option OrderConverter :=
  match c with ORDER o => Some o | _ => None end.
Definition offset_of (c : clause) : option OffsetConverter :=
  match c with OFFSET o => Some o | _ => None end.
Definition group_of (c : clause) : option GroupbyConverter :=
  match c with GROUP g => Some g | _ => None end.
Definition having_of (c : clause) : option HavingConverter :=
  match c with HAVING h => Some h | _ => None end.
Definition where_of (c : clause) : option WhereConverter :=
  match c with WHERE w _ => Some w | _ => None end.
Definition nested_of (c : clause) : option NestedInQueryConverter :=
  match c with WHERE _ n => n | _ => None end.

(** The JOIN clauses of a statement, in source order. *)
Definition join_clauses (statement : list clause) : list JoinConverter :=
  omap join_of statement.

(** The keywords that a statement has at most once. *)
Inductive keyword :=
| kw_SELECT | kw_FROM | kw_LIMIT | kw_ORDER | kw_OFFSET | kw_GROUP
| kw_HAVING | kw_WHERE.

#[export] Instance keyword_eq_dec : EqDecision keyword.
Proof. solve_decision. Defined.

Definition keyword_of (c : clause) : option keyword :=
  match c with
  | SELECT _ _ => Some kw_SELECT
  | FROM _ => Some kw_FROM
  | LIMIT _ => Some kw_LIMIT
  | ORDER _ => Some kw_ORDER
  | OFFSET _ => Some kw_OFFSET
  | GROUP _ => Some kw_GROUP
  | HAVING _ => Some kw_HAVING
  | WHERE _ _ => Some kw_WHERE
  | _ => None
  end.

Definition each_keyword_once (statement : list clause) : Prop :=
  NoDup (omap keyword_of statement).

(** The stages a clause contributes, when the clause is there. *)
Definition stages {A} (c : option A) (to_mongo : A → list pyval) : list pyval :=
  match c with Some x => to_mongo x | None => [] end.
Definition stage {A} (c : option A) (to_mongo : A → pyval) : list pyval :=
  match c with Some x => [to_mongo x] | None => [] end.

(** The pipeline in the order the specification fixes, from the clauses of
    the statement: joins, nested query, WHERE, GROUP BY, HAVING, DISTINCT,
    ORDER BY, OFFSET, LIMIT, and the projection unless DISTINCT or GROUP BY
    is there. *)
Definition staged_pipeline (statement : list clause) : list pyval :=
  (join_clauses statement ≫= join_to_mongo)
  ++ stages (find_last nested_of statement) nested_to_mongo
  ++ stage (find_last where_of statement) where_agg_to_mongo
  ++ stages (find_last group_of statement) groupby_to_mongo
  ++ stage (find_last having_of statement) having_to_mongo
  ++ stages (find_last distinct_of statement) distinct_to_mongo
  ++ stage (find_last order_of statement) order_agg_to_mongo
  ++ stage (find_last offset_of statement) offset_agg_to_mongo
  ++ stage (find_last limit_of statement) limit_agg_to_mongo
  ++ (if present (find_last distinct_of statement)
         || present (find_last group_of statement)
      then []
      else stages (find_last select_of statement) columns_agg_to_mongo).

(** What looking a selected column up in a document finds: the field, no
    field, or, under the name of a joined table, something that is not a
    sub-document. *)
Inductive found :=
| Present (v : pyval)
| Absent
| NotADocument.

Definition field_of (left : option string) (doc : document) (t : sql_token)
    : found :=
  match t with
  | SQLToken table column =>
      if bool_decide (Some table = left) then
        match doc !! column with Some v => Present v | None => Absent end
      else
        match doc !! table with
        | None => Absent
        | Some (PDict d) =>
            match d !! column with Some v => Present v | None => Absent end
        | Some _ => NotADocument
        end
  | SQLFunc alias =>
      match doc !! alias with Some v => Present v | None => Absent end
  end.

(** The rule for one selected column: its field when it is there; when it
    is absent, NULL or a [MigrationError] naming the column for a column of
    a table, according to the enforcement, and a [KeyError] for a computed
    column; a [TypeError] when the joined table is not a sub-document. *)
Definition column_outcome (enforce : bool) (left : option string)
    (doc : document) (t : sql_token) : result pyval :=
  match field_of left doc t with
  | Present v => Ok v
  | NotADocument => Raise TypeError
  | Absent =>
      match t with
      | SQLToken _ column =>
          if enforce then Raise (MigrationError column) else Ok PNone
      | SQLFunc alias => Raise (KeyError alias)
      end
  end.

(** The pieces of a text between its markers, found from the left: the
    piece before the first marker, and the pieces after each marker. *)
Fixpoint pieces (s : string) : string * list string :=
  match s with
  | EmptyString => (EmptyString, [])
  | String c rest =>
      match rest with
      | String c' rest' =>
          if Ascii.eqb c "%" && Ascii.eqb c' "s" then
            let '(s0, segs) := pieces rest' in (EmptyString, s0 :: segs)
          else
            let '(s0, segs) := pieces rest in (String c s0, segs)
      | EmptyString => (String c EmptyString, [])
      end
  end.

(** The autoincrement entry of a table in [__schema__]: that of the first
    document with the table's name that has one. *)
Fixpoint lookup_auto (table : option string) (docs : list schema_document)
    : option auto_info :=
  match docs with
  | [] => None
  | d :: rest =>
      match auto d with
      | Some a =>
          if bool_decide (Some (name d) = table) then Some a
          else lookup_auto table rest
      | None => lookup_auto table rest
      end
  end.

Definition bump (num : Z) (a : auto_info) : auto_info :=
  {| seq := seq a + num; field_names := field_names a |}.

(** Sample statements

    [SELECT a, b FROM t WHERE a = %(0)s OFFSET 5 ORDER BY a LIMIT 10], the
    same with ORDER BY before OFFSET, and [SELECT (0) AS c FROM t]; the
    converters carry pymongo fragments of the usual shape. *)
Definition doc1 (k : string) (v : pyval) : pyval := PDict {[k := v]}.

Definition columns_ab : ColumnSelectConverter :=
  {| sql_tokens := [SQLToken "t" "a"; SQLToken "t" "b"];
     return_const := PNone; has_func := false;
     columns_to_mongo := {["projection" := PList [PStr "a"; PStr "b"]]};
     columns_agg_to_mongo :=
       [doc1 "$project" (PDict {["a" := PBool true; "b" := PBool true]})] |}.

Definition where_a : WhereConverter :=
  {| where_to_mongo := {["filter" := doc1 "a" (PInt 7)]};
     where_agg_to_mongo := doc1 "$match" (doc1 "a" (PInt 7)) |}.

Definition order_a : OrderConverter :=
  {| order_to_mongo := {["sort" := PList [PList [PStr "a"; PInt 1]]]};
     order_agg_to_mongo := doc1 "$sort" (doc1 "a" (PInt 1)) |}.

Definition offset_5 : OffsetConverter :=
  {| offset_to_mongo := {["skip" := PInt 5]};
     offset_agg_to_mongo := doc1 "$skip" (PInt 5) |}.

Definition limit_10 : LimitConverter :=
  {| limit_to_mongo := {["limit" := PInt 10]};
     limit_agg_to_mongo := doc1 "$limit" (PInt 10) |}.

Definition offset_then_order : list clause :=
  [SELECT columns_ab None; FROM "t"; WHERE where_a None; OFFSET offset_5;
   ORDER order_a; LIMIT limit_10].

Definition order_then_offset : list clause :=
  [SELECT columns_ab None; FROM "t"; WHERE where_a None; ORDER order_a;
   OFFSET offset_5; LIMIT limit_10].

Definition paged_query : SelectQuery :=
  {| selected_columns := Some columns_ab; where_ := Some where_a; joins := [];
     order := Some order_a; offset := Some offset_5; limit := Some limit_10;
     distinct := None; groupby := None; having := None; nested_query := None;
     left_table := Some "t"; _cursor := None |}.

Definition columns_const (n : Z) : ColumnSelectConverter :=
  {| sql_tokens := []; return_const := PInt n; has_func := false;
     columns_to_mongo := {["projection" := PList []]};
     columns_agg_to_mongo :=
       [doc1 "$project" (doc1 "_const" (doc1 "$literal" (PInt n)))] |}.

Definition select_const (n : Z) : list clause :=
  [SELECT (columns_const n) None; FROM "t"].

Definition const_query (n : Z) : SelectQuery :=
  {| selected_columns := Some (columns_const n); where_ := None; joins := [];
     order := None; offset := None; limit := None; distinct := None;
     groupby := None; having := None; nested_query := None;
     left_table := Some "t"; _cursor := None |}.

(** [SELECT t.a, u.b FROM t LEFT OUTER JOIN u ...] and a document without
    [a] and without the sub-document [u]; [SELECT COUNT( * ) AS n FROM t] and
    a document without [n]. *)
Definition joined_query : SelectQuery :=
  {| selected_columns :=
       Some {| sql_tokens := [SQLToken "t" "a"; SQLToken "t" "id"; SQLToken "u" "b"];
               return_const := PNone; has_func := false;
               columns_to_mongo := ∅; columns_agg_to_mongo := [] |};
     where_ := None; joins := [{| join_to_mongo := [] |}]; order := None;
     offset := None; limit := None; distinct := None; groupby := None;
     having := None; nested_query := None; left_table := Some "t";
     _cursor := None |}.

Definition sparse_document : document := {["id" := PInt 3]}.

Definition count_query : SelectQuery :=
  {| selected_columns :=
       Some {| sql_tokens := [SQLFunc "n"]; return_const := PNone;
               has_func := true; columns_to_mongo := ∅;
               columns_agg_to_mongo := [] |};
     where_ := None; joins := []; order := None; offset := None;
     limit := None; distinct := None; groupby := None; having := None;
     nested_query := None; left_table := Some "t"; _cursor := None |}.

(** A table [t] with the autoincrement field [id] at 10, a table [u]
    without autoincrement, and
    [INSERT INTO t (id, name) VALUES (DEFAULT), (%(0)s, %(1)s), (DEFAULT)]
    with parameters [(99, 'bob')], and the two statements
    [INSERT INTO "u" ("flag") VALUES (DEFAULT)] and
    [INSERT INTO "t" ("id") VALUES (DEFAULT)], their names quoted as Django
    writes them. *)
Definition sample_schema : list schema_document :=
  [{| name := "u"; fields := {["flag" := "bool"%string]}; auto := None |};
   {| name := "t"; fields := {["id" := "integer"%string; "name" := "string"%string]};
      auto := Some {| seq := 10; field_names := ["id"%string] |} |}].

Definition sample_world : world :=
  {| drv := quiet_driver; schema := sample_schema; log := [];
     enforce_schema := true; cached_collections := [Some "t"; Some "u"]%string |}.

Definition insert_three : Insert.InsertQuery :=
  {| Insert.left_table := Some "t"%string; Insert._cols := ["id"; "name"]%string;
     Insert._vals := [[PDefault]; [PInt 99; PStr "bob"]; [PDefault]];
     Insert._cursor := None |}.

Definition insert_flag : Insert.InsertQuery :=
  {| Insert.left_table := Some "u"%string; Insert._cols := ["flag"%string];
     Insert._vals := [[PDefault]]; Insert._cursor := None |}.

Definition insert_value : Insert.InsertQuery :=
  {| Insert.left_table := Some "u"%string; Insert._cols := ["flag"%string];
     Insert._vals := [[PBool true]]; Insert._cursor := None |}.

(** A name between double quotes. *)
Definition quoted (n : string) : string :=
  String (ascii_of_nat 34) (n +:+ String (ascii_of_nat 34) EmptyString).

Definition insert_flag_sql : string :=
  "INSERT INTO " +:+ quoted "u" +:+ " (" +:+ quoted "flag"
  +:+ ") VALUES (DEFAULT)".

Definition insert_id_sql : string :=
  "INSERT INTO " +:+ quoted "t" +:+ " (" +:+ quoted "id"
  +:+ ") VALUES (DEFAULT)".

(** The tokens of the two statements. *)
Definition ws : Sql.token := Sql.Token Sql.Whitespace " ".
Definition ident (n : string) : Sql.token :=
  Sql.Identifier {| Sql.get_name := Some n; Sql.get_real_name := Some n;
                    Sql.table := n; Sql.column := n |}.
Definition punct (p : string) : Sql.token := Sql.Token Sql.Punctuation p.

Definition insert_flag_tokens : list Sql.token :=
  [Sql.Token Sql.Keyword_DML "INSERT"; ws; Sql.Token Sql.Keyword "INTO"; ws;
   ident "u"; ws;
   Sql.Parenthesis [punct "("; ident "flag"; punct ")"]
     ("(" +:+ quoted "flag" +:+ ")") (Raise (SQLDecodeError NoMessage));
   ws; Sql.Token Sql.Keyword "VALUES"; ws;
   Sql.Parenthesis [punct "("; Sql.Token Sql.Keyword "DEFAULT"; punct ")"]
     "(DEFAULT)" (Raise (SQLDecodeError NoMessage))].

Definition insert_id_tokens : list Sql.token :=
  [Sql.Token Sql.Keyword_DML "INSERT"; ws; Sql.Token Sql.Keyword "INTO"; ws;
   ident "t"; ws;
   Sql.Parenthesis [punct "("; ident "id"; punct ")"]
     ("(" +:+ quoted "id" +:+ ")") (Raise (SQLDecodeError NoMessage));
   ws; Sql.Token Sql.Keyword "VALUES"; ws;
   Sql.Parenthesis [punct "("; Sql.Token Sql.Keyword "DEFAULT"; punct ")"]
     "(DEFAULT)" (Raise (SQLDecodeError NoMessage))].

(** Sample statements for the dispatcher, with the parser's answer on
    their text. *)
Definition drop_index_statement : Sql.Statement :=
  {| Sql.get_type := "DROP"; Sql.text := "DROP INDEX idx ON t";
     Sql.tokens :=
       [Sql.Token Sql.Keyword_DDL "DROP"; ws; Sql.Token Sql.Keyword "INDEX"; ws;
        ident "idx"; ws; Sql.Token Sql.Keyword "ON"; ws; ident "t"];
     Sql.clauses := [] |}.

Definition drop_table_statement : Sql.Statement :=
  {| Sql.get_type := "DROP"; Sql.text := "DROP TABLE t";
     Sql.tokens :=
       [Sql.Token Sql.Keyword_DDL "DROP"; ws; Sql.Token Sql.Keyword "TABLE"; ws;
        ident "t"];
     Sql.clauses := [] |}.

Definition alter_type_statement : Sql.Statement :=
  {| Sql.get_type := "ALTER";
     Sql.text := "ALTER TABLE t ALTER COLUMN c TYPE integer";
     Sql.tokens :=
       [Sql.Token Sql.Keyword_DDL "ALTER"; ws; Sql.Token Sql.Keyword "TABLE"; ws;
        ident "t"; ws; Sql.Token Sql.Keyword_DDL "ALTER"; ws;
        Sql.Token Sql.Keyword "COLUMN"; ws; ident "c"; ws;
        Sql.Token Sql.Keyword "TYPE"; ws; Sql.Token Sql.Name_Builtin "integer"];
     Sql.clauses := [] |}.

Definition insert_flag_statement : Sql.Statement :=
  {| Sql.get_type := "INSERT"; Sql.text := insert_flag_sql;
     Sql.tokens := insert_flag_tokens; Sql.clauses := [] |}.

Definition insert_id_statement : Sql.Statement :=
  {| Sql.get_type := "INSERT"; Sql.text := insert_id_sql;
     Sql.tokens := insert_id_tokens; Sql.clauses := [] |}.

Definition delete_statement : Sql.Statement :=
  {| Sql.get_type := "DELETE"; Sql.text := "DELETE FROM t;";
     Sql.tokens := []; Sql.clauses := [] |}.

Definition select_zero_statement : Sql.Statement :=
  {| Sql.get_type := "SELECT"; Sql.text := "SELECT (0) AS c FROM t";
     Sql.tokens := []; Sql.clauses := select_const 0 |}.

Definition sample_sqlparse (sql : string) : list Sql.Statement :=
  if String.eqb sql "DROP INDEX idx ON t" then [drop_index_statement]
  else if String.eqb sql "SELECT (0) AS c FROM t" then [select_zero_statement]
  else if String.eqb sql "ALTER TABLE t ALTER COLUMN c TYPE integer"
  then [alter_type_statement]
  else if String.eqb sql insert_flag_sql then [insert_flag_statement]
  else if String.eqb sql insert_id_sql then [insert_id_statement]
  else if String.eqb sql "DELETE FROM t; DROP TABLE t"
  then [delete_statement; drop_table_statement]
  else [].

(** A handler that is not called on the samples. *)
Definition idle_handler : Dispatch.handler :=
  λ _ _ _, Store.ret (None, PNone).

Definition sample_version : string := "1.3.6".

(** A driver that refuses every [insert_many] with an [OperationFailure]. *)
Definition duplicate_key : pyval := doc1 "code" (PInt 11000).

Definition refusing_driver : driver :=
  {| fault := λ c, match c with
                   | insert_many _ _ => Some (PyMongoError OperationFailure duplicate_key)
                   | _ => None
                   end;
     cursor_of := cursor_of quiet_driver;
     inserted_ids := inserted_ids quiet_driver |}.

(** A [Query] on the paged SELECT, before any iteration. *)
Definition paged_Query : Dispatch.Query :=
  {| Dispatch._params := Some [PInt 7]; Dispatch._params_index_count := 0;
     Dispatch._sql := "SELECT a, b FROM t WHERE a = %(0)s";
     Dispatch.last_row_id := PNone;
     Dispatch._query := Some (Dispatch.SelectQuery paged_query) |}.

(** A driver whose reads return one document, as stored. *)
Definition listing_driver : driver :=
  {| fault := λ _, None;
     cursor_of := λ _, {| pending := [{["_id" := PInt 1]}]; failure := None;
                          alive := true; closed := false |};
     inserted_ids := inserted_ids quiet_driver |}.

Definition listing_world : world :=
  {| drv := listing_driver; schema := sample_schema; log := [];
     enforce_schema := false; cached_collections := [Some "t"; Some "u"]%string |}.

Definition refusing_world : world :=
  {| drv := refusing_driver; schema := sample_schema; log := [];
     enforce_schema := true; cached_collections := [Some "t"; Some "u"]%string |}.

(** A cursor over the given documents. *)
Definition cursor_over (docs : list document) : cursor :=
  {| pending := docs; failure := None; alive := true; closed := false |}.

(** Whether a document of the batch has the DEFAULT object as the value of
    a field. *)
Definition holds_DEFAULT (docs : list document) : bool :=
  existsb (λ doc : document,
             existsb (λ kv : string * pyval, is_DEFAULT kv.2) (map_to_list doc))
    docs.

(** A driver that, as pymongo does, has no encoding for a bare [object()]:
    [insert_many] raises [InvalidDocument] on a batch that holds one. *)
Definition refuses_DEFAULT (d : driver) : Prop :=
  ∀ t docs, holds_DEFAULT docs = true →
    fault d (insert_many t docs) = Some InvalidDocument.

(** A driver that fails on nothing else. *)
Definition encoding_driver : driver :=
  {| fault := λ c, match c with
                   | insert_many _ docs =>
                       if holds_DEFAULT docs then Some InvalidDocument else None
                   | _ => None
                   end;
     cursor_of := cursor_of quiet_driver;
     inserted_ids := inserted_ids quiet_driver |}.

Definition encoding_world : world :=
  {| drv := encoding_driver; schema := sample_schema; log := [];
     enforce_schema := true; cached_collections := [Some "t"; Some "u"]%string |}.

(** A driver whose cursors fail with [e] when their first document is asked
    for, and a cursor of pymongo's [Cursor] class whose [count()] fails
    with an [OperationFailure]. *)
Definition failing_cursor (e : exn) : cursor :=
  {| pending := []; failure := Some e; alive := true; closed := false |}.

Definition failing_read_driver (e : exn) : driver :=
  {| fault := λ _, None;
     cursor_of := λ _, failing_cursor e;
     inserted_ids := inserted_ids quiet_driver |}.

Definition failing_read_world (e : exn) : world :=
  {| drv := failing_read_driver e; schema := sample_schema; log := [];
     enforce_schema := false; cached_collections := [Some "t"; Some "u"]%string |}.

Definition time_limit : pyval := doc1 "code" (PInt 50).

Definition failing_count : cursor → M Z :=
  λ _, raise (PyMongoError OperationFailure time_limit).

Definition no_result : Dispatch.BaseQuery → result Z :=
  λ _, Raise (AttributeError "matched_count").

(** [SELECT t.id, u.b FROM t LEFT OUTER JOIN u ...] and a document in
    which the joined table [u] is the array that a lookup stage leaves when
    nothing unwinds it. *)
Definition lookup_query : Select.SelectQuery :=
  {| selected_columns :=
       Some {| sql_tokens := [SQLToken "t" "id"; SQLToken "u" "b"];
               return_const := PNone; has_func := false;
               columns_to_mongo := ∅; columns_agg_to_mongo := [] |};
     where_ := None; joins := [{| join_to_mongo := [] |}]; order := None;
     offset := None; limit := None; distinct := None; groupby := None;
     having := None; nested_query := None; left_table := Some "t"%string;
     _cursor := None |}.

Definition array_document : document := {["id" := PInt 3; "u" := PList []]}.

End Vocabulary.
Export Vocabulary.

(* ===================================================================== *)
(** * UpdateQuery: what its constructor builds *)
(* ===================================================================== *)

Module Update.

(** [SetConverter], by what [UpdateQuery.parse] reads from it. *)
Record SetConverter := { set_to_mongo : gmap string pyval }.

(** The tokens that the loop of [UpdateQuery.parse] meets
    (query.py:319-331), each keyword with the converter built at it, as for
    [Select.clause]. *)
Inductive clause :=
| UPDATE (c : Select.ColumnSelectConverter)
| SET (c : SetConverter)
| WHERE (c : Select.WhereConverter)
| Raising (kw : string) (e : exn)
| Other (tok : string).

(** The attributes the loop assigns. *)
Record attributes := {
  left_table : option string;
  set_columns : option SetConverter;
  where_ : option Select.WhereConverter
}.

(** An [UpdateQuery] once its constructor has run [parse()]. *)
Record UpdateQuery := {
  attrs : attributes;
  kwargs : gmap string pyval;
  _cursor : option cursor
}.

(** [c.sql_tokens[0].table] (query.py:322). *)
Definition first_table (c : Select.ColumnSelectConverter) : result string :=
  match Select.sql_tokens c with
  | [] => Raise IndexError
  | Select.SQLToken table _ :: _ => Ok table
  | Select.SQLFunc _ :: _ => Raise (AttributeError "table")
  end.

(** One turn of the loop of [UpdateQuery.parse]. *)
Definition parse_tok (a : attributes) (tok : clause) : result attributes :=
  match tok with
  | UPDATE c =>
      t ← first_table c;
      Ok {| left_table := Some t; set_columns := set_columns a;
            where_ := where_ a |}
  | SET c =>
      Ok {| left_table := left_table a; set_columns := Some c;
            where_ := where_ a |}
  | WHERE c =>
      Ok {| left_table := left_table a; set_columns := set_columns a;
            where_ := Some c |}
  | Raising _ e => Raise e
  | Other _ => Raise (SQLDecodeError NoMessage)
  end.

Fixpoint parse_from (a : attributes) (statement : list clause)
    : result attributes :=
  match statement with
  | [] => Ok a
  | tok :: rest => a' ← parse_tok a tok; parse_from a' rest
  end.

(** [UpdateQuery.parse] (query.py:315-337): the loop, then the keyword
    arguments of [update_many]. *)
Definition parse (statement : list clause) : result UpdateQuery :=
  a ← parse_from {| left_table := None; set_columns := None; where_ := None |}
        statement;
  let kwargs : gmap string pyval := ∅ in
  let kwargs := Select.update_if (where_ a) Select.where_to_mongo kwargs in
  match set_columns a with
  | None => Raise (AttributeError "to_mongo")
  | Some s =>
      Ok {| attrs := a; kwargs := set_to_mongo s ∪ kwargs; _cursor := None |}
  end.

End Update.

(* ===================================================================== *)
(** * More vocabulary *)
(* ===================================================================== *)

Module MoreVocabulary.

(** The clauses that the loop of [SelectQuery.parse] takes, and the
    exception it raises at another one. *)
Definition accepted (c : Select.clause) : bool :=
  match c with
  | Select.Raising _ _ | Select.Other _ => false
  | _ => true
  end.

Definition refusal (c : Select.clause) : exn :=
  match c with
  | Select.Raising _ e => e
  | Select.Other tok => SQLDecodeError (Message ("Unknown keyword: " +:+ tok))
  | _ => SQLDecodeError NoMessage
  end.

(** The keyword arguments of [find] read off the clauses of a statement. *)
Definition find_arguments (statement : list Select.clause) : gmap string pyval :=
  fragment (find_last offset_of statement) Select.offset_to_mongo ∪
  (fragment (find_last order_of statement) Select.order_to_mongo ∪
   (fragment (find_last limit_of statement) Select.limit_to_mongo ∪
    (fragment (find_last select_of statement) Select.columns_to_mongo ∪
     fragment (find_last where_of statement) Select.where_to_mongo))).

(** The outcome of one call to the driver. *)
Definition called {A} (c : store_call) (a : A) (w : world) : result A * world :=
  match fault (drv w) c with
  | Some e => (Raise e, w)
  | None => (Ok a, set_log w (log w ++ [c]))
  end.

(** A parenthesised group of a statement. *)
Definition is_tuple (tok : Sql.token) : bool :=
  match tok with Sql.Parenthesis _ _ _ => true | _ => false end.

(** The last SET and WHERE clauses of an UPDATE. *)
Fixpoint last_SET (statement : list Update.clause) : option Update.SetConverter :=
  match statement with
  | [] => None
  | c :: rest =>
      match last_SET rest with
      | Some s => Some s
      | None => match c with Update.SET s => Some s | _ => None end
      end
  end.

Fixpoint last_WHERE (statement : list Update.clause)
    : option Select.WhereConverter :=
  match statement with
  | [] => None
  | c :: rest =>
      match last_WHERE rest with
      | Some s => Some s
      | None => match c with Update.WHERE s => Some s | _ => None end
      end
  end.

(** Sample statements: [SELECT a, b WHERE ...] with no FROM clause,
    [ALTER TABLE t], [INSERT INTO "v" ("flag") VALUES (DEFAULT)] on a table
    that is not known, and [UPDATE t SET a = %(0)s]. *)
Definition no_from : list Select.clause :=
  [Select.SELECT columns_ab None; Select.WHERE where_a None].

Definition alter_bare_statement : Sql.Statement :=
  {| Sql.get_type := "ALTER"; Sql.text := "ALTER TABLE t";
     Sql.tokens :=
       [Sql.Token Sql.Keyword_DDL "ALTER"; ws; Sql.Token Sql.Keyword "TABLE"; ws;
        ident "t"];
     Sql.clauses := [] |}.

Definition insert_unknown_sql : string :=
  "INSERT INTO " +:+ quoted "v" +:+ " (" +:+ quoted "flag"
  +:+ ") VALUES (DEFAULT)".

Definition insert_unknown_statement : Sql.Statement :=
  {| Sql.get_type := "INSERT"; Sql.text := insert_unknown_sql;
     Sql.tokens :=
       [Sql.Token Sql.Keyword_DML "INSERT"; ws; Sql.Token Sql.Keyword "INTO"; ws;
        ident "v"; ws;
        Sql.Parenthesis [punct "("; ident "flag"; punct ")"]
          ("(" +:+ quoted "flag" +:+ ")") (Raise (SQLDecodeError NoMessage));
        ws; Sql.Token Sql.Keyword "VALUES"; ws;
        Sql.Parenthesis [punct "("; Sql.Token Sql.Keyword "DEFAULT"; punct ")"]
          "(DEFAULT)" (Raise (SQLDecodeError NoMessage))];
     Sql.clauses := [] |}.

Definition paged_statement : Sql.Statement :=
  {| Sql.get_type := "SELECT";
     Sql.text := "SELECT a, b FROM t WHERE a = %(0)s ORDER BY a OFFSET 5 LIMIT 10";
     Sql.tokens := []; Sql.clauses := order_then_offset |}.

Definition more_sqlparse (sql : string) : list Sql.Statement :=
  if String.eqb sql "ALTER TABLE t" then [alter_bare_statement]
  else if String.eqb sql insert_unknown_sql then [insert_unknown_statement]
  else if String.eqb sql "DROP TABLE t" then [drop_table_statement]
  else if String.eqb sql
            "SELECT a, b FROM t WHERE a = %(0)s ORDER BY a OFFSET 5 LIMIT 10"
  then [paged_statement]
  else [].

Definition set_a : Update.SetConverter :=
  {| Update.set_to_mongo := {["update" := doc1 "$set" (doc1 "a" (PInt 1))]} |}.

Definition table_t : Select.ColumnSelectConverter :=
  {| Select.sql_tokens := [Select.SQLToken "t" "t"]; Select.return_const := PNone;
     Select.has_func := false; Select.columns_to_mongo := ∅;
     Select.columns_agg_to_mongo := [] |}.

(** What [UPDATE t SET a = 1 WHERE a = 7] compiles to. *)
Definition update_a : Update.UpdateQuery :=
  {| Update.attrs :=
       {| Update.left_table := Some "t"%string;
          Update.set_columns := Some set_a;
          Update.where_ := Some where_a |};
     Update.kwargs := {[ "filter" := doc1 "a" (PInt 7);
                         "update" := doc1 "$set" (doc1 "a" (PInt 1)) ]};
     Update._cursor := None |}.

End MoreVocabulary.
Export MoreVocabulary.

(* ===================================================================== *)
(** * Properties *)
(* ===================================================================== *)

(** Unfolding the monad of [Store]: [step_M] opens one bind, [run_M] the
    whole vocabulary. *)
Ltac step_M := unfold mbind, M_bind, bind.
Ltac run_M :=
  unfold mbind, M_bind, bind, lift, db_getitem, call, get_world, mret, M_ret,
    ret, raise.

(** ** Positional parameter markers *)

Section MarkerFacts.
Import Markers.

Example init_sql_two :
  init_sql "SELECT a FROM t WHERE b = %s AND c = %s"
  = (1, "SELECT a FROM t WHERE b = %(0)s AND c = %(1)s"%string).
Proof. reflexivity. Qed.

Example init_sql_percent : init_sql "x LIKE %%s" = (0, "x LIKE %%(0)s"%string).
Proof. reflexivity. Qed.

Lemma append_assoc (s1 s2 s3 : string) :
  (s1 +:+ s2) +:+ s3 = s1 +:+ (s2 +:+ s3).
Proof.
  induction s1 as [|c s1 IH]; [done|].
  change ((String c s1 +:+ s2) +:+ s3) with (String c ((s1 +:+ s2) +:+ s3)).
  change (String c s1 +:+ (s2 +:+ s3)) with (String c (s1 +:+ (s2 +:+ s3))).
  by rewrite IH.
Qed.

Lemma re_sub_cons (c c' : ascii) (s : string) (count : Z) :
  re_sub count (String c (String c' s))
  = if Ascii.eqb c "%" && Ascii.eqb c' "s"
    then (fst (re_sub (count + 1) s),
          "%(" +:+ pretty (count + 1) +:+ ")s" +:+ snd (re_sub (count + 1) s))
    else (fst (re_sub count (String c' s)),
          String c (snd (re_sub count (String c' s)))).
Proof.
  change (re_sub count (String c (String c' s)))
    with (if Ascii.eqb c "%" && Ascii.eqb c' "s"
          then let '(count1, key) := _param_index count in
               let '(count2, out) := re_sub count1 s in (count2, key +:+ out)
          else let '(count2, out) := re_sub count (String c' s) in
               (count2, String c out)).
  unfold _param_index.
  destruct (Ascii.eqb c "%" && Ascii.eqb c' "s").
  - destruct (re_sub (count + 1) s). cbn [fst snd].
    by rewrite !append_assoc.
  - by destruct (re_sub count (String c' s)).
Qed.

Lemma has_marker_cons (c c' : ascii) (s : string) :
  has_marker (String c (String c' s))
  = (Ascii.eqb c "%" && Ascii.eqb c' "s") || has_marker (String c' s).
Proof. reflexivity. Qed.

(** A text without marker is left as it is, and so is the counter. *)
Lemma re_sub_marker_free (s : string) (count : Z) :
  has_marker s = false → re_sub count s = (count, s).
Proof.
  revert count. induction s as [|c s IH]; intros count H; [done|].
  destruct s as [|c' s']; [done|].
  rewrite has_marker_cons in H. apply orb_false_iff in H as [Hc Hs].
  rewrite re_sub_cons, Hc, (IH count Hs). done.
Qed.

(** A marker-free text followed by a marker: the marker is the next one
    the scan rewrites. *)
Lemma re_sub_next_marker (s t : string) (count : Z) :
  has_marker s = false →
  re_sub count (s +:+ "%s" +:+ t)
  = (fst (re_sub (count + 1) t),
     s +:+ "%(" +:+ pretty (count + 1) +:+ ")s" +:+ snd (re_sub (count + 1) t)).
Proof.
  revert count. induction s as [|c s IH]; intros count H.
  - change ("" +:+ "%s" +:+ t) with (String "%" (String "s" t)).
    by rewrite re_sub_cons.
  - destruct s as [|c' s'].
    + change (String c "" +:+ "%s" +:+ t) with (String c (String "%" (String "s" t))).
      rewrite re_sub_cons.
      replace (Ascii.eqb "%" "s") with false by done.
      rewrite andb_false_r.
      specialize (IH count eq_refl).
      change ("" +:+ "%s" +:+ t) with (String "%" (String "s" t)) in IH.
      rewrite IH. done.
    + rewrite has_marker_cons in H. apply orb_false_iff in H as [Hc Hs].
      change (String c (String c' s') +:+ "%s" +:+ t)
        with (String c (String c' (s' +:+ "%s" +:+ t))).
      rewrite re_sub_cons, Hc.
      change (String c' (s' +:+ "%s" +:+ t)) with (String c' s' +:+ "%s" +:+ t).
      rewrite (IH count Hs). done.
Qed.

Lemma re_sub_interleave (segs : list string) (s0 : string) (k : nat) :
  has_marker s0 = false →
  Forall (λ s, has_marker s = false) segs →
  re_sub (Z.of_nat k - 1) (interleave positional k s0 segs)
  = (Z.of_nat (k + length segs) - 1, interleave keyed k s0 segs).
Proof.
  revert s0 k. induction segs as [|s segs IH]; intros s0 k H0 Hsegs.
  - cbn [interleave length]. rewrite re_sub_marker_free by done.
    f_equal. lia.
  - apply Forall_cons in Hsegs as [Hs Hsegs].
    cbn [interleave length]. unfold positional at 1.
    rewrite re_sub_next_marker by done.
    replace (Z.of_nat k - 1 + 1) with (Z.of_nat (S k) - 1) by lia.
    rewrite (IH s (S k) Hs Hsegs). cbn [fst snd].
    f_equal; [lia|]. unfold keyed at 2.
    replace (Z.of_nat (S k) - 1) with (Z.of_nat k) by lia.
    by rewrite !append_assoc.
Qed.

(** Every text is made of marker-free pieces with markers in between. *)
Lemma pieces_cons (c c' : ascii) (s : string) :
  pieces (String c (String c' s))
  = if Ascii.eqb c "%" && Ascii.eqb c' "s"
    then (EmptyString, (pieces s).1 :: (pieces s).2)
    else (String c (pieces (String c' s)).1, (pieces (String c' s)).2).
Proof.
  change (pieces (String c (String c' s)))
    with (if Ascii.eqb c "%" && Ascii.eqb c' "s"
          then let '(s0, segs) := pieces s in (EmptyString, s0 :: segs)
          else let '(s0, segs) := pieces (String c' s) in (String c s0, segs)).
  destruct (Ascii.eqb c "%" && Ascii.eqb c' "s").
  - by destruct (pieces s).
  - by destruct (pieces (String c' s)).
Qed.

Lemma interleave_positional (k : nat) (s0 : string) (segs : list string) :
  interleave positional k s0 segs = interleave positional 0 s0 segs.
Proof.
  revert k s0. induction segs as [|s segs IH]; intros k s0; [done|].
  cbn [interleave]. by rewrite (IH (S k)), (IH 1%nat).
Qed.

Lemma pieces_spec (n : nat) (s : string) :
  (String.length s ≤ n)%nat →
  s = interleave positional 0 (pieces s).1 (pieces s).2
  ∧ has_marker (pieces s).1 = false
  ∧ Forall (λ p, has_marker p = false) (pieces s).2
  ∧ (∀ c s', s = String c s' →
       (pieces s).1 = EmptyString
       ∨ ∃ p, (pieces s).1 = String c p).
Proof.
  revert s. induction n as [|n IH]; intros s Hn.
  { destruct s; [|cbn in Hn; lia]. cbn. split_and!; try done. }
  destruct s as [|c [|c' s]].
  - cbn. split_and!; done.
  - cbn. split_and!; try done. intros ? ? [= <- <-]. right. by eexists.
  - rewrite pieces_cons.
    destruct (Ascii.eqb c "%" && Ascii.eqb c' "s") eqn:Hm.
    + apply andb_true_iff in Hm as [Hc Hc'].
      apply Ascii.eqb_eq in Hc as ->. apply Ascii.eqb_eq in Hc' as ->.
      destruct (IH s) as (Hs & H0 & Hsegs & _); [cbn in Hn; lia|].
      cbn [fst snd interleave]. split_and!.
      * unfold positional at 1. rewrite interleave_positional.
        change ("" +:+ "%s" +:+ ?x) with (String "%" (String "s" x)).
        by rewrite <- Hs.
      * done.
      * by constructor.
      * intros. by left.
    + destruct (IH (String c' s)) as (Hs & H0 & Hsegs & Hhd); [cbn in *; lia|].
      cbn [fst snd]. split_and!.
      * destruct (pieces (String c' s)) as [s0 segs]. cbn [fst snd] in *.
        destruct segs as [|p segs]; cbn [interleave] in *.
        -- by rewrite <- Hs.
        -- change (String c s0 +:+ ?x) with (String c (s0 +:+ x)).
           by rewrite <- Hs.
      * destruct (Hhd c' s eq_refl) as [Hp|[p Hp]]; rewrite Hp in *; [done|].
        rewrite has_marker_cons, Hm. exact H0.
      * done.
      * intros ? ? [= <- <-]. right. by eexists.
Qed.

(** Hence, for every text, the scan keys its markers from the left. *)
Lemma init_sql_pieces (sql : string) :
  sql = interleave positional 0 (pieces sql).1 (pieces sql).2
  ∧ init_sql sql
    = (Z.of_nat (length (pieces sql).2) - 1,
       interleave keyed 0 (pieces sql).1 (pieces sql).2).
Proof.
  destruct (pieces_spec (String.length sql) sql) as (Hs & H0 & Hsegs & _); [done|].
  split; [done|]. rewrite Hs at 1. unfold init_sql.
  exact (re_sub_interleave _ _ 0 H0 Hsegs).
Qed.

(** C4. The text of a statement with n markers is [s0 %s s1 %s ... sn],
    where no piece [si] contains a marker.  [Query.__init__] turns it into
    [s0 %(0)s s1 %(1)s ... sn]: marker number k, counting from zero and
    from the left, becomes the keyed reference to index k, and the counter
    ends at n - 1. *)
Theorem markers_are_keyed_left_to_right (s0 : string) (segs : list string) :
  has_marker s0 = false →
  Forall (λ s, has_marker s = false) segs →
  init_sql (interleave positional 0 s0 segs)
  = (Z.of_nat (length segs) - 1, interleave keyed 0 s0 segs).
Proof.
  intros H0 Hsegs. unfold init_sql.
  exact (re_sub_interleave segs s0 0 H0 Hsegs).
Qed.

Lemma markers_are_keyed_left_to_right_witness :
  init_sql "INSERT INTO t (a, b, c) VALUES (%s, %s, %s)"
  = (2, "INSERT INTO t (a, b, c) VALUES (%(0)s, %(1)s, %(2)s)"%string).
Proof.
  apply (markers_are_keyed_left_to_right
           "INSERT INTO t (a, b, c) VALUES (" [", "; ", "; ")"]%string).
  - reflexivity.
  - repeat constructor.
Defined.

End MarkerFacts.

(** ** SelectQuery: the choice between [find] and [aggregate] *)

Section SelectModeFacts.
Import Select.

(** What [_needs_aggregation] computes, for a query that has its column
    converter. *)
Lemma needs_aggregation_iff (q : SelectQuery) (c : ColumnSelectConverter) :
  selected_columns q = Some c →
  _needs_aggregation q = Ok true ↔
    present (nested_query q) = true ∨ joins q ≠ [] ∨
    present (distinct q) = true ∨ present (groupby q) = true ∨
    truthy (return_const c) = true ∨ has_func c = true.
Proof.
  intros Hc. unfold _needs_aggregation. rewrite Hc.
  destruct (nested_query q), (joins q), (distinct q), (groupby q),
    (truthy (return_const c)), (has_func c); cbn;
    intuition (try congruence; try discriminate).
Qed.

Lemma needs_aggregation_total (q : SelectQuery) (c : ColumnSelectConverter) :
  selected_columns q = Some c → ∃ b, _needs_aggregation q = Ok b.
Proof.
  intros Hc. unfold _needs_aggregation. rewrite Hc.
  destruct (nested_query q), (joins q), (distinct q), (groupby q),
    (truthy (return_const c)); cbn; eauto.
Qed.

(** [_get_cursor] issues one call: [aggregate] with the pipeline when
    [_needs_aggregation] is true, [find] with the merged keyword arguments
    otherwise. *)
Lemma get_cursor_call (q : SelectQuery) (w : world) (t : string) (b : bool) :
  left_table q = Some t →
  _needs_aggregation q = Ok b →
  (∀ c, fault (drv w) c = None) →
  let c := if b then aggregate t (_make_pipeline q) else find t (find_kwargs q) in
  _get_cursor q w = (Ok (cursor_of (drv w) c), set_log w (log w ++ [c])).
Proof.
  intros Ht Hb Hf. unfold _get_cursor. run_M.
  rewrite Hb, Ht. destruct b; cbn; rewrite Hf; done.
Qed.

(** On the [find] path the keyword arguments are the fragments of the five
    converters, each under its own keys, a later fragment winning on a
    shared key. *)
Lemma find_kwargs_fragments (q : SelectQuery) :
  find_kwargs q
  = fragment (offset q) offset_to_mongo ∪
    (fragment (order q) order_to_mongo ∪
     (fragment (limit q) limit_to_mongo ∪
      (fragment (selected_columns q) columns_to_mongo ∪
       fragment (where_ q) where_to_mongo))).
Proof.
  unfold find_kwargs, update_if, fragment.
  destruct (offset q), (order q), (limit q), (selected_columns q), (where_ q);
    by rewrite ?(left_id_L ∅ (∪)), ?(right_id_L ∅ (∪)).
Qed.

Example constant_one_takes_aggregate_path :
  Select.parse (select_const 1) = Ok (const_query 1)
  ∧ _get_cursor (const_query 1) (empty_world false)
    = (Ok (cursor_of quiet_driver (aggregate "t" (columns_agg_to_mongo (columns_const 1)))),
       set_log (empty_world false)
         [aggregate "t" [doc1 "$project" (doc1 "_const" (doc1 "$literal" (PInt 1)))]]).
Proof. split; reflexivity. Qed.

(** C1, at [SELECT (0) AS c FROM t].  The column list holds a constant
    ([return_const] is not [None], and [__iter__] will read the [_const]
    field of every document), yet [_needs_aggregation] is false, because
    the constant 0 is a false value: [_get_cursor] issues [find], not
    [aggregate], and iterating over a document that [find] returns fails on
    the [_const] field that only the pipeline's projection would add. *)
Theorem constant_zero_takes_find_path :
  Select.parse (select_const 0) = Ok (const_query 0)
  ∧ is_not_None (return_const (columns_const 0)) = true
  ∧ _needs_aggregation (const_query 0) = Ok false
  ∧ _get_cursor (const_query 0) (empty_world false)
    = (Ok (cursor_of quiet_driver (find "t" (columns_to_mongo (columns_const 0)))),
       set_log (empty_world false) [find "t" {["projection" := PList []]}])
  ∧ (iter_cursor false (const_query 0) (cursor_over [{["_id" := PInt 1]}])).1
    = {| yielded := []; raised := Some (KeyError "_const") |}.
Proof. repeat split; reflexivity. Qed.

End SelectModeFacts.

(** ** SelectQuery: the order of the pipeline stages *)

Section PipelineFacts.
Import Select.

Lemma find_last_cons {A} (f : clause → option A) c statement :
  find_last f (c :: statement) = or_else (find_last f statement) (f c).
Proof. reflexivity. Qed.

Lemma or_else_assoc {A} (a b c : option A) :
  or_else a (or_else b c) = or_else (or_else a b) c.
Proof. by destruct a. Qed.

(** What the loop of [parse] leaves in each attribute: the converter of the
    last clause of the kind, or what was there before; the joins pile up in
    source order. *)
Lemma parse_from_attributes (statement : list clause) (q0 q : SelectQuery) :
  parse_from q0 statement = Ok q →
  joins q = joins q0 ++ join_clauses statement
  ∧ selected_columns q = or_else (find_last select_of statement) (selected_columns q0)
  ∧ distinct q = or_else (find_last distinct_of statement) (distinct q0)
  ∧ where_ q = or_else (find_last where_of statement) (where_ q0)
  ∧ nested_query q = or_else (find_last nested_of statement) (nested_query q0)
  ∧ groupby q = or_else (find_last group_of statement) (groupby q0)
  ∧ having q = or_else (find_last having_of statement) (having q0)
  ∧ order q = or_else (find_last order_of statement) (order q0)
  ∧ offset q = or_else (find_last offset_of statement) (offset q0)
  ∧ limit q = or_else (find_last limit_of statement) (limit q0)
  ∧ left_table q = or_else (find_last from_of statement) (left_table q0)
  ∧ _cursor q = _cursor q0.
Proof.
  revert q0. induction statement as [|c statement IH]; intros q0 H.
  - cbn in H. injection H as <-. unfold join_clauses. cbn.
    rewrite app_nil_r. repeat split; by destruct q0.
  - cbn [parse_from] in H.
    destruct (parse_tok q0 c) as [q1|e] eqn:Hc; [|discriminate].
    cbn in H. apply IH in H.
    destruct H as (Hj & Hs & Hd & Hw & Hn & Hg & Hh & Ho & Hf & Hl & Ht & Hcur).
    rewrite Hj, Hs, Hd, Hw, Hn, Hg, Hh, Ho, Hf, Hl, Ht, Hcur.
    rewrite !find_last_cons, <- !or_else_assoc. unfold join_clauses.
    destruct c as [s d| | | | | | | | |w n| |]; cbn in Hc; try discriminate;
      injection Hc as <-; try destruct d; try destruct n; cbn;
      rewrite <- ?app_assoc; repeat split; reflexivity.
Qed.

Lemma parse_attributes (statement : list clause) (q : SelectQuery) :
  Select.parse statement = Ok q →
  joins q = join_clauses statement
  ∧ selected_columns q = find_last select_of statement
  ∧ distinct q = find_last distinct_of statement
  ∧ where_ q = find_last where_of statement
  ∧ nested_query q = find_last nested_of statement
  ∧ groupby q = find_last group_of statement
  ∧ having q = find_last having_of statement
  ∧ order q = find_last order_of statement
  ∧ offset q = find_last offset_of statement
  ∧ limit q = find_last limit_of statement
  ∧ left_table q = find_last from_of statement.
Proof.
  intros H. apply parse_from_attributes in H. cbn in H.
  destruct H as (Hj & Hs & Hd & Hw & Hn & Hg & Hh & Ho & Hf & Hl & Ht & _).
  assert (Hor : ∀ A (o : option A), or_else o None = o) by (by intros A []).
  rewrite Hor in *. repeat split; done.
Qed.

Lemma fold_left_extend (js : list JoinConverter) (pipeline : list pyval) :
  fold_left (λ pipeline join, pipeline ++ join_to_mongo join) js pipeline
  = pipeline ++ (js ≫= join_to_mongo).
Proof.
  revert pipeline. induction js as [|j js IH]; intros pipeline; cbn.
  - by rewrite app_nil_r.
  - by rewrite IH, <- app_assoc.
Qed.

(** [_make_pipeline] read off the attributes of the query. *)
Lemma make_pipeline_unfold (q : SelectQuery) :
  _make_pipeline q
  = (joins q ≫= join_to_mongo)
    ++ stages (nested_query q) nested_to_mongo
    ++ stage (where_ q) where_agg_to_mongo
    ++ stages (groupby q) groupby_to_mongo
    ++ stage (having q) having_to_mongo
    ++ stages (distinct q) distinct_to_mongo
    ++ stage (order q) order_agg_to_mongo
    ++ stage (offset q) offset_agg_to_mongo
    ++ stage (limit q) limit_agg_to_mongo
    ++ (if present (distinct q) || present (groupby q) then []
        else stages (selected_columns q) columns_agg_to_mongo).
Proof.
  unfold _make_pipeline, _needs_column_selection.
  rewrite fold_left_extend. unfold extend_if, append_if, stages, stage.
  destruct (nested_query q), (where_ q), (groupby q), (having q), (distinct q),
    (order q), (offset q), (limit q), (selected_columns q);
    cbn; rewrite <- ?app_assoc, ?app_nil_r; reflexivity.
Qed.

(** Among the clauses of one keyword, at most one is there: the answer of
    [find_last] does not depend on where it stands. *)
Lemma find_last_Permutation {A} (f : clause → option A) (k : keyword)
    (statement statement' : list clause) :
  (∀ c x, f c = Some x → keyword_of c = Some k) →
  statement ≡ₚ statement' →
  each_keyword_once statement →
  find_last f statement = find_last f statement'.
Proof.
  intros Hf Hperm. unfold each_keyword_once.
  induction Hperm as [|c l l' Hperm IH|c c' l|l l' l'' H1 IH1 H2 IH2]; intros Hnd.
  - done.
  - rewrite !find_last_cons, IH; [done|].
    cbn in Hnd. destruct (keyword_of c); [by apply NoDup_cons in Hnd as [_ ?]|done].
  - rewrite !find_last_cons. destruct (find_last f l); [done|]. cbn.
    destruct (f c) as [x|] eqn:Hc, (f c') as [x'|] eqn:Hc'; try done.
    apply Hf in Hc, Hc'. cbn in Hnd. rewrite Hc, Hc' in Hnd.
    apply NoDup_cons in Hnd as [Hin _]. set_solver.
  - rewrite IH1 by done. apply IH2.
    by rewrite <- (omap_Permutation keyword_of _ _ H1).
Qed.

Lemma staged_pipeline_Permutation (statement statement' : list clause) :
  statement ≡ₚ statement' →
  join_clauses statement' = join_clauses statement →
  each_keyword_once statement →
  staged_pipeline statement' = staged_pipeline statement.
Proof.
  intros Hperm Hj Hnd. unfold staged_pipeline. rewrite Hj.
  rewrite <- (find_last_Permutation nested_of kw_WHERE statement statement'),
    <- (find_last_Permutation where_of kw_WHERE statement statement'),
    <- (find_last_Permutation group_of kw_GROUP statement statement'),
    <- (find_last_Permutation having_of kw_HAVING statement statement'),
    <- (find_last_Permutation distinct_of kw_SELECT statement statement'),
    <- (find_last_Permutation order_of kw_ORDER statement statement'),
    <- (find_last_Permutation offset_of kw_OFFSET statement statement'),
    <- (find_last_Permutation limit_of kw_LIMIT statement statement'),
    <- (find_last_Permutation select_of kw_SELECT statement statement');
    try done; by intros [] x Hx.
Qed.

Lemma make_pipeline_staged (statement : list clause) (q : SelectQuery) :
  Select.parse statement = Ok q → _make_pipeline q = staged_pipeline statement.
Proof.
  intros H. apply parse_attributes in H.
  destruct H as (Hj & Hs & Hd & Hw & Hn & Hg & Hh & Ho & Hf & Hl & _).
  rewrite make_pipeline_unfold. unfold staged_pipeline.
  by rewrite Hj, Hs, Hd, Hw, Hn, Hg, Hh, Ho, Hf, Hl.
Qed.

(** C2. The pipeline compiled for a parsed SELECT is made of the stages of
    its JOIN clauses in source order, then those of the nested query, the
    WHERE stage, the GROUP BY stages, the HAVING stage, the DISTINCT
    stages, the ORDER BY stage, the OFFSET stage, the LIMIT stage and the
    projection, which is left out exactly when DISTINCT or GROUP BY is
    there.  The order in which the clauses stand in the statement does not
    matter: a statement with the same clauses elsewhere, and its joins in
    the same order, compiles to the same pipeline. *)
Theorem pipeline_stage_order (statement statement' : list clause)
    (q q' : SelectQuery) :
  Select.parse statement = Ok q →
  Select.parse statement' = Ok q' →
  statement ≡ₚ statement' →
  join_clauses statement' = join_clauses statement →
  each_keyword_once statement →
  _make_pipeline q = staged_pipeline statement
  ∧ _make_pipeline q' = _make_pipeline q.
Proof.
  intros Hq Hq' Hperm Hj Hnd.
  rewrite (make_pipeline_staged _ _ Hq), (make_pipeline_staged _ _ Hq').
  split; [done|]. by apply staged_pipeline_Permutation.
Qed.

Lemma pipeline_stage_order_witness :
  _make_pipeline paged_query = staged_pipeline offset_then_order
  ∧ _make_pipeline paged_query = _make_pipeline paged_query.
Proof.
  apply (pipeline_stage_order offset_then_order order_then_offset
           paged_query paged_query).
  - reflexivity.
  - reflexivity.
  - unfold offset_then_order, order_then_offset.
    do 3 apply perm_skip. apply perm_swap.
  - reflexivity.
  - unfold each_keyword_once. cbn.
    refine (bool_decide_unpack (NoDup _) _). vm_compute. exact I.
Defined.

Example paged_pipeline :
  _make_pipeline paged_query
  = [doc1 "$match" (doc1 "a" (PInt 7)); doc1 "$sort" (doc1 "a" (PInt 1));
     doc1 "$skip" (PInt 5); doc1 "$limit" (PInt 10);
     doc1 "$project" (PDict {["a" := PBool true; "b" := PBool true]})].
Proof. reflexivity. Qed.

End PipelineFacts.

(** ** SelectQuery: aligning a document with the selected columns *)

Section AlignFacts.
Import Select.

(** One turn of the loop is the rule for one column. *)
Lemma align_loop_cons (enforce : bool) (left : option string) (doc : document)
    (t : sql_token) (rest : list sql_token) (ret : list pyval) :
  align_loop enforce left doc (t :: rest) ret
  = (v ← column_outcome enforce left doc t;
     align_loop enforce left doc rest (ret ++ [v])).
Proof.
  cbn [align_loop]. unfold column_outcome, field_of.
  destruct t as [table column|alias]; cbn.
  - case_bool_decide; cbn.
    + destruct (doc !! column); cbn; [done|]. by destruct enforce.
    + destruct (doc !! table) as [[| | | |l|d|]|]; cbn; try done.
      destruct (d !! column); cbn; [done|]. by destruct enforce.
  - by destruct (doc !! alias).
Qed.

Lemma align_loop_values (enforce : bool) (left : option string) (doc : document)
    (toks : list sql_token) (ret : list pyval) :
  Forall (λ t, ∃ v, column_outcome enforce left doc t = Ok v) toks →
  ∃ row, align_loop enforce left doc toks ret = Ok (ret ++ row)
    ∧ Forall2 (λ t v, column_outcome enforce left doc t = Ok v) toks row.
Proof.
  intros H. revert ret. induction H as [|t toks [v Ht] _ IH]; intros ret.
  - exists []. cbn. by rewrite app_nil_r.
  - destruct (IH (ret ++ [v])) as (row & Hrow & Hall).
    exists (v :: row). rewrite align_loop_cons, Ht. cbn.
    rewrite Hrow, <- app_assoc. split; [done|]. by constructor.
Qed.

Lemma align_loop_first_failure (enforce : bool) (left : option string)
    (doc : document) (pre : list sql_token) (t : sql_token)
    (post : list sql_token) (e : exn) (ret : list pyval) :
  Forall (λ t', ∃ v, column_outcome enforce left doc t' = Ok v) pre →
  column_outcome enforce left doc t = Raise e →
  align_loop enforce left doc (pre ++ t :: post) ret = Raise e.
Proof.
  intros Hpre Ht. revert ret.
  induction Hpre as [|t' pre [v Hv] _ IH]; intros ret.
  - cbn [app]. by rewrite align_loop_cons, Ht.
  - cbn [app]. rewrite align_loop_cons, Hv. cbn. apply IH.
Qed.

(** C5 as the code has it.  The selected columns (the DISTINCT columns when
    DISTINCT is used) are looked up from left to right, each by the rule
    of [column_outcome]: the field when it is there; for a column of a
    table whose field is absent, NULL without schema enforcement and a
    [MigrationError] naming the column with it; for a computed column
    whose field is absent, a [KeyError]; for a column of a joined table
    that is not a sub-document, a [TypeError].
    - When no column fails, the tuple has the values of the columns, one
      per column and in their order.
    - Otherwise the first column that fails ends the alignment with its
      failure, whatever the columns after it would give. *)
Theorem align_results_missing_fields (enforce : bool) (q : SelectQuery)
    (doc : document) (toks : list sql_token) :
  aligned_tokens q = Ok toks →
  (Forall (λ t, ∃ v, column_outcome enforce (left_table q) doc t = Ok v) toks →
   ∃ row, _align_results enforce q doc = Ok row
     ∧ Forall2 (λ t v, column_outcome enforce (left_table q) doc t = Ok v)
         toks row)
  ∧ (∀ pre t post e,
       toks = pre ++ t :: post →
       Forall (λ t', ∃ v, column_outcome enforce (left_table q) doc t' = Ok v)
         pre →
       column_outcome enforce (left_table q) doc t = Raise e →
       _align_results enforce q doc = Raise e).
Proof.
  intros Ht. unfold _align_results. rewrite Ht. cbn. split.
  - intros Hall.
    exact (align_loop_values enforce (left_table q) doc toks [] Hall).
  - intros pre t post e -> Hpre He.
    exact (align_loop_first_failure enforce (left_table q) doc pre t post e []
             Hpre He).
Qed.

Lemma align_results_missing_fields_witness :
  (Forall (λ t, ∃ v, column_outcome false (left_table joined_query)
                       sparse_document t = Ok v)
     [SQLToken "t" "a"; SQLToken "t" "id"; SQLToken "u" "b"] →
   ∃ row, _align_results false joined_query sparse_document = Ok row
     ∧ Forall2 (λ t v, column_outcome false (left_table joined_query)
                         sparse_document t = Ok v)
         [SQLToken "t" "a"; SQLToken "t" "id"; SQLToken "u" "b"] row)
  ∧ (∀ pre t post e,
       [SQLToken "t" "a"; SQLToken "t" "id"; SQLToken "u" "b"]
       = pre ++ t :: post →
       Forall (λ t', ∃ v, column_outcome false (left_table joined_query)
                            sparse_document t' = Ok v) pre →
       column_outcome false (left_table joined_query) sparse_document t
       = Raise e →
       _align_results false joined_query sparse_document = Raise e).
Proof.
  apply (align_results_missing_fields false joined_query sparse_document
           [SQLToken "t" "a"; SQLToken "t" "id"; SQLToken "u" "b"]).
  reflexivity.
Defined.

(** The rule at work on [SELECT t.a, t.id, u.b] and a document that has
    only [id]: NULL, the field, NULL; with schema enforcement, the first
    absent column is named. *)
Example align_results_sparse :
  _align_results false joined_query sparse_document = Ok [PNone; PInt 3; PNone].
Proof. reflexivity. Qed.

Example align_results_enforced :
  _align_results true joined_query sparse_document = Raise (MigrationError "a").
Proof. reflexivity. Qed.

(** A table column that is absent comes before a computed column that is
    absent: with schema enforcement the [MigrationError] of the first is
    what is raised, without it the [KeyError] of the second. *)
Example align_results_first_failure :
  let q := {| selected_columns :=
                Some {| sql_tokens := [SQLToken "t" "a"; SQLFunc "n"];
                        return_const := PNone; has_func := true;
                        columns_to_mongo := ∅; columns_agg_to_mongo := [] |};
              where_ := None; joins := []; order := None; offset := None;
              limit := None; distinct := None; groupby := None;
              having := None; nested_query := None; left_table := Some "t"%string;
              _cursor := None |} in
  _align_results true q ∅ = Raise (MigrationError "a")
  ∧ _align_results false q ∅ = Raise (KeyError "n").
Proof. split; reflexivity. Qed.

(** C5 fails on a computed column and on a joined table that is not a
    sub-document.  When the field of a computed column is absent the
    subscript raises [KeyError], with or without schema enforcement; when
    the document holds an array under the name of the joined table, the
    subscript of the absent column raises [TypeError], with or without
    schema enforcement.  No NULL is produced and no [MigrationError] is
    raised. *)
Lemma computed_column_missing_raises_KeyError :
  (aligned_tokens count_query = Ok [SQLFunc "n"]
   ∧ field_of (left_table count_query) sparse_document (SQLFunc "n") = Absent
   ∧ _align_results false count_query sparse_document = Raise (KeyError "n")
   ∧ _align_results false count_query sparse_document ≠ Ok [PNone]
   ∧ _align_results true count_query sparse_document = Raise (KeyError "n")
   ∧ _align_results true count_query sparse_document
     ≠ Raise (MigrationError "n"))
  ∧ (aligned_tokens lookup_query = Ok [SQLToken "t" "id"; SQLToken "u" "b"]
     ∧ field_of (left_table lookup_query) array_document (SQLToken "u" "b")
       = NotADocument
     ∧ _align_results false lookup_query array_document = Raise TypeError
     ∧ _align_results false lookup_query array_document ≠ Ok [PInt 3; PNone]
     ∧ _align_results true lookup_query array_document = Raise TypeError
     ∧ _align_results true lookup_query array_document
       ≠ Raise (MigrationError "b")).
Proof. split; split_and!; try reflexivity; discriminate. Qed.

End AlignFacts.

(** ** InsertQuery: the autoincrement block and the DEFAULT marker *)

Section InsertFacts.
Import Insert.

(** The read-modify-write on [__schema__]: what it returns and what it
    leaves. *)
Lemma inc_seq_fst (table : option string) (num : Z) (docs : list schema_document) :
  (inc_seq table num docs).1 = bump num <$> lookup_auto table docs.
Proof.
  induction docs as [|d docs IH]; [done|]. cbn.
  destruct (auto d) as [a|]; [case_bool_decide; [done|]|];
    destruct (inc_seq table num docs); exact IH.
Qed.

Lemma inc_seq_snd (table : option string) (num : Z) (docs : list schema_document) :
  lookup_auto table (inc_seq table num docs).2 = bump num <$> lookup_auto table docs.
Proof.
  induction docs as [|d docs IH]; [done|]. cbn.
  destruct (auto d) as [a|] eqn:Ha.
  - case_bool_decide as Hn.
    + cbn. by rewrite bool_decide_true.
    + destruct (inc_seq table num docs). cbn. rewrite Ha.
      by rewrite bool_decide_false.
  - destruct (inc_seq table num docs). cbn. by rewrite Ha.
Qed.

Lemma find_one_and_update_ok (table : option string) (num : Z) (w : world) :
  (∀ c, fault (drv w) c = None) →
  find_one_and_update table num w
  = (Ok (bump num <$> lookup_auto table (schema w)),
     set_schema (set_log w (log w ++ [find_one_and_update_inc_seq table num]))
       (inc_seq table num (schema w)).2).
Proof.
  intros Hf. unfold find_one_and_update. rewrite Hf.
  rewrite <- inc_seq_fst. by destruct (inc_seq table num (schema w)).
Qed.

(** The fields set from the sequence. *)
Lemma fold_set_auto_field (a : auto_info) (num : Z) (i : nat)
    (names : list string) (ins : document) (f : string) :
  fold_left (set_auto_field a num i) names ins !! f
  = if decide (f ∈ names) then Some (PInt (seq a - num + Z.of_nat i + 1))
    else ins !! f.
Proof.
  revert ins. induction names as [|n names IH]; intros ins; cbn.
  - case_decide; [set_solver|done].
  - rewrite IH. unfold set_auto_field.
    destruct (decide (f = n)) as [->|Hne].
    + rewrite lookup_insert_eq. repeat case_decide; set_solver.
    + rewrite lookup_insert_ne by done. repeat case_decide; set_solver.
Qed.

(** The fields set from the row. *)
Lemma fold_set_field_untouched (auto : option auto_info)
    (items : list (string * pyval)) (ins : document) (f : string) :
  (∀ v, (f, v) ∈ items →
        ∃ a, auto = Some a ∧ f ∈ field_names a ∧ v = PDefault) →
  fold_left (set_field auto) items ins !! f = ins !! f.
Proof.
  revert ins. induction items as [|[fld v] items IH]; intros ins H; [done|].
  cbn [fold_left]. rewrite IH by (intros v' Hv'; apply H; set_solver).
  unfold set_field. destruct (decide (fld = f)) as [->|Hne].
  - destruct (H v) as (a & -> & Hin & ->); [set_solver|].
    by rewrite bool_decide_true.
  - destruct (match auto with Some _ => _ | None => _ end); [done|].
    by rewrite lookup_insert_ne.
Qed.

Lemma fold_set_field_value (auto : option auto_info)
    (items : list (string * pyval)) (ins : document) (f : string) (v : pyval) :
  NoDup items.*1 → (f, v) ∈ items → v ≠ PDefault →
  fold_left (set_field auto) items ins !! f = Some v.
Proof.
  revert ins. induction items as [|[fld v'] items IH]; intros ins Hnd Hin Hv.
  - set_solver.
  - cbn in Hnd. apply NoDup_cons in Hnd as [Hfld Hnd]. cbn [fold_left].
    apply elem_of_cons in Hin as [Heq|Hin].
    + injection Heq as <- <-.
      rewrite fold_set_field_untouched.
      * unfold set_field.
        replace (is_DEFAULT v) with false by (by destruct v).
        destruct auto; rewrite ?andb_false_r; by rewrite lookup_insert_eq.
      * intros v' Hv'. destruct Hfld. apply list_elem_of_fmap. by exists (f, v').
    + by apply IH.
Qed.

Lemma NoDup_fst_zip {A B} (l : list A) (k : list B) :
  NoDup l → NoDup (zip l k).*1.
Proof.
  intros Hnd. revert k. induction Hnd as [|x l Hx Hnd IH]; intros [|y k]; cbn;
    try by constructor.
  constructor; [|done]. intros Hin. apply Hx.
  apply list_elem_of_fmap in Hin as [[x' y'] [-> Hin]].
  apply elem_of_zip_l in Hin. done.
Qed.

(** [execute] when the driver does not fail: the two calls, in this
    order, and the documents built from the updated counter. *)
Lemma execute_calls (q : InsertQuery) (w : world) (t : string) :
  left_table q = Some t →
  (∀ c, fault (drv w) c = None) →
  let num := Z.of_nat (length (_vals q)) in
  let auto := bump num <$> lookup_auto (Some t) (schema w) in
  let docs := make_docs auto (_cols q) (_vals q) in
  ∃ r w',
    execute q w = (r, w')
    ∧ (∀ a, auto = Some a → r = Ok (PInt (seq a)))
    ∧ log w' = log w ++ [find_one_and_update_inc_seq (Some t) num;
                         insert_many t docs]
    ∧ schema w' = (inc_seq (Some t) num (schema w)).2.
Proof.
  intros Ht Hf num auto docs. unfold execute.
  step_M. rewrite Ht, find_one_and_update_ok by done.
  fold num auto docs. cbn [db_getitem mret M_ret ret].
  unfold call. cbn [drv set_schema set_log]. rewrite Hf. cbn [log set_schema set_log].
  destruct auto as [a|] eqn:Ha.
  - eexists _, _. split; [reflexivity|]. cbn [log schema set_log set_schema].
    rewrite <- app_assoc. split_and!; try done. by intros ? [= <-].
  - unfold get_world, raise. cbn [drv set_log set_schema].
    destruct (last _); eexists _, _; (split; [reflexivity|]);
      cbn [log schema set_log set_schema]; rewrite <- app_assoc;
      split_and!; done.
Qed.

(** [execute], step by step. *)
Lemma execute_steps (q : InsertQuery) (w : world) (t : string) :
  left_table q = Some t →
  let num := Z.of_nat (length (_vals q)) in
  let auto := bump num <$> lookup_auto (Some t) (schema w) in
  let docs := make_docs auto (_cols q) (_vals q) in
  let c1 := find_one_and_update_inc_seq (Some t) num in
  let w1 := set_schema (set_log w (log w ++ [c1]))
              (inc_seq (Some t) num (schema w)).2 in
  execute q w
  = match fault (drv w) c1 with
    | Some e => (Raise e, w)
    | None =>
        match fault (drv w) (insert_many t docs) with
        | Some e => (Raise e, set_log w1 (log w1 ++ [refused (insert_many t docs)]))
        | None =>
            (match auto with
             | Some a => Ok (PInt (seq a))
             | None =>
                 match last (inserted_ids (drv w) docs) with
                 | Some v => Ok v
                 | None => Raise IndexError
                 end
             end,
             set_log w1 (log w1 ++ [insert_many t docs]))
        end
    end.
Proof.
  intros Ht. cbn zeta. unfold execute. step_M.
  rewrite Ht. unfold find_one_and_update.
  destruct (fault (drv w) _) eqn:Hf1; [done|].
  pose proof (inc_seq_fst (Some t) (Z.of_nat (length (_vals q))) (schema w)) as Hfst.
  destruct (inc_seq (Some t) _ (schema w)) as [r s'] eqn:Hinc.
  cbn [fst snd] in *. subst r.
  cbn [db_getitem ret]. unfold call. cbn [drv set_schema set_log is_read].
  destruct (fault (drv w) (insert_many t _)); [done|].
  destruct (lookup_auto (Some t) (schema w)); [done|].
  cbn [fmap option_fmap option_map]. unfold get_world.
  cbn [drv set_schema set_log]. by destruct (last _).
Qed.

(** C3. Inserting N rows into a table whose metadata document has an
    autoincrement entry: one [find_one_and_update] adds N to the counter
    and returns its new value S, which is also the last row id; then the
    rows go to one [insert_many].  In row i, counting from zero, an
    autoincrement field gets S - N + i + 1 when the row gives it no value
    or the DEFAULT marker, and keeps the value of the row when the row
    gives it one. *)
Theorem autoincrement_block (q : InsertQuery) (w : world) (t : string)
    (old : auto_info) :
  left_table q = Some t →
  lookup_auto (Some t) (schema w) = Some old →
  (∀ c, fault (drv w) c = None) →
  NoDup (_cols q) →
  let N := Z.of_nat (length (_vals q)) in
  let S := seq old + N in
  ∃ docs w',
    execute q w = (Ok (PInt S), w')
    ∧ log w' = log w ++ [find_one_and_update_inc_seq (Some t) N;
                         insert_many t docs]
    ∧ lookup_auto (Some t) (schema w')
      = Some {| seq := S; field_names := field_names old |}
    ∧ length docs = length (_vals q)
    ∧ ∀ i val f, _vals q !! i = Some val → f ∈ field_names old →
        ∃ doc, docs !! i = Some doc
          ∧ ((∀ v, (f, v) ∈ zip (_cols q) val → v = PDefault) →
             doc !! f = Some (PInt (S - N + Z.of_nat i + 1)))
          ∧ (∀ v, (f, v) ∈ zip (_cols q) val → v ≠ PDefault →
             doc !! f = Some v).
Proof.
  intros Ht Hold Hf Hnd N S.
  destruct (execute_calls q w t Ht Hf) as (r & w' & Hex & Hr & Hlog & Hsch).
  rewrite Hold in Hr, Hlog. cbn [fmap option_fmap option_map] in Hr, Hlog.
  exists (make_docs (Some (bump N old)) (_cols q) (_vals q)), w'.
  split_and!.
  - by rewrite Hex, (Hr _ eq_refl).
  - exact Hlog.
  - by rewrite Hsch, inc_seq_snd, Hold.
  - unfold make_docs. apply length_imap.
  - intros i val f Hval Hin. unfold make_docs. rewrite list_lookup_imap, Hval.
    eexists. split; [reflexivity|]. unfold make_doc. split.
    + intros Hdef. rewrite fold_set_field_untouched.
      * rewrite fold_set_auto_field. by rewrite decide_True.
      * intros v Hv. exists (bump N old). split_and!; [done..|by apply Hdef].
    + intros v Hv Hne. apply fold_set_field_value; [|done..].
      by apply NoDup_fst_zip.
Qed.

Lemma autoincrement_block_witness :
  ∃ docs w',
    execute insert_three sample_world = (Ok (PInt 13), w')
    ∧ log w' = [find_one_and_update_inc_seq (Some "t"%string) 3;
                insert_many "t" docs]
    ∧ lookup_auto (Some "t"%string) (schema w')
      = Some {| seq := 13; field_names := ["id"%string] |}
    ∧ length docs = 3%nat
    ∧ ∀ i val f, Insert._vals insert_three !! i = Some val → f ∈ ["id"%string] →
        ∃ doc, docs !! i = Some doc
          ∧ ((∀ v, (f, v) ∈ zip ["id"; "name"]%string val → v = PDefault) →
             doc !! f = Some (PInt (13 - 3 + Z.of_nat i + 1)))
          ∧ (∀ v, (f, v) ∈ zip ["id"; "name"]%string val → v ≠ PDefault →
             doc !! f = Some v).
Proof.
  apply (autoincrement_block insert_three sample_world "t"
           {| seq := 10; field_names := ["id"%string] |}).
  - reflexivity.
  - reflexivity.
  - intros c. reflexivity.
  - cbn. refine (bool_decide_unpack (NoDup _) _). vm_compute. exact I.
Defined.

Example insert_three_documents :
  make_docs (Some {| seq := 13; field_names := ["id"%string] |})
    ["id"; "name"]%string (Insert._vals insert_three)
  = [{["id" := PInt 11]};
     {["id" := PInt 99; "name" := PStr "bob"]};
     {["id" := PInt 13]}].
Proof. by vm_compute. Qed.

(** The DEFAULT marker of a VALUES tuple becomes the row [(DEFAULT,)]. *)
Lemma values_tok_DEFAULT (params : option (list pyval)) (ts : list Sql.token)
    (value : string) (ph : result (list (option nat))) (tok1 : Sql.token)
    (vals : list (list pyval)) :
  Sql.token_getitem_1 (Sql.Parenthesis ts value ph) = Ok tok1 →
  Sql.tok_match tok1 Sql.Keyword ["DEFAULT"%string] = true →
  _values_tok params (Sql.Parenthesis ts value ph) vals = Ok (vals ++ [[PDefault]]).
Proof.
  intros H1 Hm. unfold _values_tok.
  change (Sql.tok_match (Sql.Parenthesis ts value ph) Sql.Keyword ["VALUES"%string])
    with false.
  cbn match. rewrite H1. cbn [mbind result_bind rbind].
  destruct tok1; try discriminate. cbn [Sql.is_IdentifierList]. by rewrite Hm.
Qed.

Example insert_flag_parsed :
  Insert.parse None insert_flag_tokens sample_world = (Ok insert_flag, sample_world).
Proof. reflexivity. Qed.

(** A column outside the autoincrement fields for which the row gives the
    DEFAULT object, and nothing else, is mapped to that object. *)
Lemma fold_set_field_DEFAULT (auto : option auto_info)
    (items : list (string * pyval)) (ins : document) (f : string) :
  (∀ a, auto = Some a → f ∉ field_names a) →
  (∀ v, (f, v) ∈ items → v = PDefault) →
  (f, PDefault) ∈ items ∨ ins !! f = Some PDefault →
  fold_left (set_field auto) items ins !! f = Some PDefault.
Proof.
  intros Hf. revert ins.
  induction items as [|[fld v'] items IH]; intros ins Hall Hin.
  - destruct Hin as [Hin|Hin]; [set_solver|done].
  - cbn [fold_left]. apply IH; [intros v Hv; apply Hall; set_solver|].
    assert (Hset : fld = f → set_field auto ins (fld, v') !! f = Some PDefault).
    { intros ->. rewrite (Hall v') by set_solver. unfold set_field.
      destruct auto as [a|]; [|by rewrite lookup_insert_eq].
      rewrite bool_decide_false by (by apply Hf). cbn [andb].
      by rewrite lookup_insert_eq. }
    destruct Hin as [Hin|Hin].
    + apply elem_of_cons in Hin as [Heq|Hin]; [|by left].
      injection Heq as <- <-. right. by apply Hset.
    + right. destruct (decide (fld = f)) as [Heq|Hne]; [by apply Hset|].
      unfold set_field.
      destruct (match auto with Some _ => _ | None => _ end); [done|].
      by rewrite lookup_insert_ne.
Qed.

(** A batch with a document that has the DEFAULT object in a field. *)
Lemma holds_DEFAULT_lookup (docs : list document) (i : nat) (doc : document)
    (k : string) :
  docs !! i = Some doc → doc !! k = Some PDefault → holds_DEFAULT docs = true.
Proof.
  intros Hdoc Hk. unfold holds_DEFAULT. apply existsb_exists.
  exists doc. split.
  - apply list_elem_of_In. by eapply list_elem_of_lookup_2.
  - apply existsb_exists. exists (k, PDefault). split; [|done].
    apply list_elem_of_In. by apply elem_of_map_to_list.
Qed.

(** C10 as the code and the driver have it.  A VALUES tuple made of the
    DEFAULT marker becomes the row [(DEFAULT,)].  Whenever a row gives the
    DEFAULT object, and nothing else, for a column that is not an
    autoincrement field of the table (or the table has no autoincrement
    entry), the document built for that row maps the column to the DEFAULT
    object itself, and that document is in the batch handed to
    [insert_many].
    The driver has no encoding for that object: [insert_many] raises
    [InvalidDocument], which is what [execute] raises, after the counter
    update; the insert is recorded as refused. *)
Theorem default_marker_is_refused (q : InsertQuery) (w : world) (t c : string)
    (i : nat) (val : list pyval) :
  left_table q = Some t →
  _vals q !! i = Some val →
  (c, PDefault) ∈ zip (_cols q) val →
  (∀ v, (c, v) ∈ zip (_cols q) val → v = PDefault) →
  (∀ a, lookup_auto (Some t) (schema w) = Some a → c ∉ field_names a) →
  fault (drv w)
    (find_one_and_update_inc_seq (Some t) (Z.of_nat (length (_vals q)))) = None →
  refuses_DEFAULT (drv w) →
  let N := Z.of_nat (length (_vals q)) in
  let docs := make_docs (bump N <$> lookup_auto (Some t) (schema w))
                (_cols q) (_vals q) in
  (∀ params ts value ph tok1 vals,
     Sql.token_getitem_1 (Sql.Parenthesis ts value ph) = Ok tok1 →
     Sql.tok_match tok1 Sql.Keyword ["DEFAULT"%string] = true →
     _values_tok params (Sql.Parenthesis ts value ph) vals
     = Ok (vals ++ [[PDefault]]))
  ∧ (∃ doc, docs !! i = Some doc ∧ doc !! c = Some PDefault)
  ∧ ∃ w', execute q w = (Raise InvalidDocument, w')
      ∧ log w' = log w ++ [find_one_and_update_inc_seq (Some t) N;
                           refused (insert_many t docs)].
Proof.
  intros Ht Hval Hc Hall Hauto Hf1 Hbson. cbn zeta.
  set (docs := make_docs _ (_cols q) (_vals q)).
  assert (Hdoc : ∃ doc, docs !! i = Some doc ∧ doc !! c = Some PDefault).
  { subst docs. unfold make_docs. rewrite list_lookup_imap, Hval.
    eexists. split; [reflexivity|]. unfold make_doc.
    apply fold_set_field_DEFAULT; [|exact Hall|by left].
    intros a Ha. destruct (lookup_auto (Some t) (schema w)) as [a0|] eqn:Hl;
      [|done].
    injection Ha as <-. cbn [bump field_names]. by apply Hauto. }
  split; [apply values_tok_DEFAULT|]. split; [exact Hdoc|].
  destruct Hdoc as (doc & Hdoc & Hk).
  pose proof (Hbson t docs (holds_DEFAULT_lookup docs i doc c Hdoc Hk)) as Hf2.
  rewrite (execute_steps q w t Ht). fold docs. rewrite Hf1, Hf2.
  eexists. split; [reflexivity|].
  cbn [log set_log set_schema]. by rewrite <- app_assoc.
Qed.

Lemma default_marker_is_refused_witness :
  (∀ params ts value ph tok1 vals,
     Sql.token_getitem_1 (Sql.Parenthesis ts value ph) = Ok tok1 →
     Sql.tok_match tok1 Sql.Keyword ["DEFAULT"%string] = true →
     _values_tok params (Sql.Parenthesis ts value ph) vals
     = Ok (vals ++ [[PDefault]]))
  ∧ (∃ doc,
       make_docs (bump 1 <$> lookup_auto (Some "u"%string) (schema encoding_world))
         ["flag"%string] [[PDefault]] !! 0%nat = Some doc
       ∧ doc !! "flag" = Some PDefault)
  ∧ ∃ w', execute insert_flag encoding_world = (Raise InvalidDocument, w')
      ∧ log w' = log encoding_world
                 ++ [find_one_and_update_inc_seq (Some "u"%string) 1;
                     refused
                       (insert_many "u"
                          (make_docs
                             (bump 1 <$> lookup_auto (Some "u"%string)
                                           (schema encoding_world))
                             ["flag"%string] [[PDefault]]))].
Proof.
  apply (default_marker_is_refused insert_flag encoding_world "u" "flag"
           0 [PDefault]).
  - reflexivity.
  - reflexivity.
  - cbn. left.
  - cbn. intros v Hv. apply list_elem_of_singleton in Hv. by injection Hv as <-.
  - intros a Ha. discriminate Ha.
  - reflexivity.
  - intros t docs H. cbn. by rewrite H.
Defined.

(** C10 fails on [INSERT INTO "u" ("flag") VALUES (DEFAULT)], the table [u]
    having no autoincrement entry: the statement compiles to the row
    [(DEFAULT,)], the document built maps [flag] to the DEFAULT object, and
    [insert_many] raises on it.  The call does not return: the log holds
    the counter update and the refused call, and the constructor of
    [Query] raises [SQLDecodeError]. *)
Lemma default_marker_is_never_stored :
  Insert.parse None insert_flag_tokens encoding_world
  = (Ok insert_flag, encoding_world)
  ∧ make_docs None (_cols insert_flag) (_vals insert_flag)
    = [{["flag" := PDefault]}]
  ∧ execute insert_flag encoding_world
    = (Raise InvalidDocument,
       set_log encoding_world
         [find_one_and_update_inc_seq (Some "u"%string) 1;
          refused (insert_many "u" [{["flag" := PDefault]}])])
  ∧ (∀ docs, insert_many "u" docs ∉ log (execute insert_flag encoding_world).2)
  ∧ Dispatch.__init__ sample_version sample_sqlparse idle_handler idle_handler
      idle_handler insert_flag_sql None encoding_world
    = (Raise (SQLDecodeError (FailedSQL insert_flag_sql None None sample_version)),
       set_log encoding_world
         [find_one_and_update_inc_seq (Some "u"%string) 1;
          refused (insert_many "u" [{["flag" := PDefault]}])]).
Proof.
  split_and!; try by vm_compute.
  intros docs Hin. vm_compute in Hin.
  apply elem_of_cons in Hin as [Hin|Hin]; [discriminate|].
  apply elem_of_cons in Hin as [Hin|Hin]; [discriminate|].
  by apply elem_of_nil in Hin.
Qed.

End InsertFacts.

(** ** Query: the dispatcher *)

Section DispatchFacts.
Import Sql Dispatch.

Variable version : string.
Variable sqlparse : string → list Statement.
Variables _update _delete _create : handler.
Variable is_BasicCursor : cursor → bool.
Variable cursor_count : cursor → M Z.
Variable affected_count : BaseQuery → result Z.

Abbreviation FUNC_MAP := (Dispatch.FUNC_MAP _update _delete _create).
Abbreviation parse := (Dispatch.parse version sqlparse _update _delete _create).
Abbreviation __init__ := (Dispatch.__init__ version sqlparse _update _delete _create).
Abbreviation failed_sql := (Dispatch.failed_sql version).
Abbreviation count := (Dispatch.count is_BasicCursor cursor_count affected_count).

(** C6. When the text, once its markers are keyed, parses to more than one
    statement, the constructor of [Query] raises [SQLDecodeError] with that
    text; no [Query] is built, and the world is as it was: no handler ran,
    no call reached the store. *)
Theorem multi_statement_is_rejected (sql : string)
    (params : option (list pyval)) (w : world) :
  (1 < length (sqlparse (Markers.init_sql sql).2))%nat →
  __init__ sql params w
  = (Raise (SQLDecodeError (Message (Markers.init_sql sql).2)), w).
Proof.
  intros H. unfold Dispatch.__init__, Markers.init_sql in *.
  destruct (Markers.re_sub (-1) sql) as [count sql'] eqn:Hsub. cbn [snd] in H.
  step_M. unfold Dispatch.parse.
  by rewrite bool_decide_true.
Qed.

(** The handler call of [parse], for a text with one statement. *)
Lemma parse_one_statement (sql : string) (params : option (list pyval))
    (statement : Statement) (h : handler) (w : world) :
  sqlparse sql = [statement] →
  FUNC_MAP (get_type statement) = Some h →
  parse sql params w
  = match h params sql statement w with
    | (Ok r, w') => (Ok r, w')
    | (Raise e, w') => (Raise (parse_except version sql params e), w')
    end.
Proof.
  intros Hp Hh. unfold Dispatch.parse. rewrite Hp. cbn [length].
  rewrite bool_decide_false by lia. rewrite Hh. unfold try_except, raise.
  by destruct (h params sql statement w) as [[r|e] w'].
Qed.

Lemma init_one_statement (sql : string) (params : option (list pyval))
    (statement : Statement) (h : handler) (w : world) :
  let sql' := (Markers.init_sql sql).2 in
  sqlparse sql' = [statement] →
  FUNC_MAP (get_type statement) = Some h →
  __init__ sql params w
  = match h params sql' statement w with
    | (Ok (query, last), w') =>
        (Ok {| _params := params;
               _params_index_count := (Markers.init_sql sql).1;
               _sql := sql'; last_row_id := last; _query := query |}, w')
    | (Raise e, w') => (Raise (parse_except version sql' params e), w')
    end.
Proof.
  intros sql' Hp Hh. unfold Dispatch.__init__. subst sql'.
  unfold Markers.init_sql in *.
  destruct (Markers.re_sub (-1) sql) as [count sql'] eqn:Hsub. cbn [fst snd] in *.
  step_M. rewrite (parse_one_statement _ _ _ _ _ Hp Hh).
  by destruct (h params sql' statement w) as [[[query last]|e] w'].
Qed.

(** C8. [_drop] on a statement whose keyword after DROP is INDEX: the read
    of [tok_id] raises before any token is looked at. *)
Lemma drop_index_never_drops (params : option (list pyval)) (sql : string)
    (sm : Statement) (tok : token) (rest : list token) (w : world) :
  tokens_after 0 (tokens sm) = tok :: rest →
  tok_match tok Keyword ["INDEX"%string] = true →
  _drop params sql sm w = (Raise (UnboundLocalError "tok_id"), w).
Proof.
  intros Ht Hm. unfold _drop. rewrite Ht.
  destruct tok as [ty v| | | | |]; try discriminate.
  cbn in Hm. apply andb_true_iff in Hm as [Hty Hv].
  apply bool_decide_eq_true in Hty as ->.
  apply bool_decide_eq_true in Hv. apply list_elem_of_singleton in Hv as ->.
  reflexivity.
Qed.

(** C9. [close()] never raises; when the query holds a compiler with a
    cursor, that cursor is closed, otherwise nothing changes; and closing
    again changes nothing. *)
Theorem close_is_safe_and_idempotent (q : Query) :
  ∃ q', close q = Ok q'
    ∧ close q' = Ok q'
    ∧ match _query q ≫= compiler_cursor with
      | Some cur => _query q' ≫= compiler_cursor = Some (cursor_close cur)
      | None => q' = q
      end.
Proof.
  destruct q as [params count sql last [c|]]; [|by eexists].
  unfold close. cbn [Dispatch._query].
  destruct (compiler_cursor c) as [cur|] eqn:Hcur.
  - eexists. split; [reflexivity|]. cbn [Dispatch._query mbind option_bind].
    destruct c as [[]|[]|[]|[]|[]]; cbn in Hcur; subst; cbn; split; reflexivity.
  - eexists. split; [reflexivity|]. cbn [Dispatch._query mbind option_bind].
    rewrite Hcur. split; reflexivity.
Qed.

(** What the [except] clauses of [parse] make of an exception. *)
Lemma parse_except_cases (sql : string) (params : option (list pyval)) (e : exn) :
  match e with
  | MigrationError _ => parse_except version sql params e = e
  | PyMongoError OperationFailure details =>
      parse_except version sql params e = failed_sql sql params (Some details)
  | _ => parse_except version sql params e = failed_sql sql params None
  end.
Proof. destruct e as [| | |[]| | | | | | |]; cbn; eauto. Qed.

(** C7 as the code has it.
    - An exception that a handler of [FUNC_MAP] lets out while the statement
      is compiled and executed: a [MigrationError] leaves the constructor
      of [Query] as it is; any other leaves it as an [SQLDecodeError] whose
      text has the statement (its markers keyed) and the parameters, and
      also the details of the store's error when that is an
      [OperationFailure].
    - A statement whose kind is not in [FUNC_MAP] raises
      [NotImplementedError].
    - The same holds for an exception raised while the rows are iterated,
      the details being there for every pymongo error that has them;
      nothing is said of a pymongo error of a class without details.
    - A [NotImplementedError] raised while an ALTER statement is compiled
      does not leave its handler: the [Query] is built with no compiler and
      nothing is raised.
    - [count()] is outside the boundary: what the count of a SELECT raises
      leaves [Query.count] as it is, with the world as the count left it. *)
Theorem error_boundary :
  (∀ sql params w statement h e w',
     sqlparse (Markers.init_sql sql).2 = [statement] →
     FUNC_MAP (get_type statement) = Some h →
     h params (Markers.init_sql sql).2 statement w = (Raise e, w') →
     ∃ e', __init__ sql params w = (Raise e', w')
       ∧ match e with
         | MigrationError _ => e' = e
         | PyMongoError OperationFailure details =>
             e' = failed_sql (Markers.init_sql sql).2 params (Some details)
         | _ => e' = failed_sql (Markers.init_sql sql).2 params None
         end)
  ∧ (∀ sql params w statement,
       sqlparse (Markers.init_sql sql).2 = [statement] →
       FUNC_MAP (get_type statement) = None →
       __init__ sql params w
       = (Raise (NotImplementedError
                   (get_type statement +:+ " command not implemented for SQL "
                    +:+ (Markers.init_sql sql).2)), w))
  ∧ (∀ q sq w e,
       _query q = Some (SelectQuery sq) →
       Select.raised (Select.__iter__ sq w).1.2 = Some e →
       (∀ c details, e = PyMongoError c details → has_details c = true) →
       ∃ e', Select.raised (Dispatch.__iter__ version q w).1.2 = Some e'
         ∧ Select.yielded (Dispatch.__iter__ version q w).1.2
           = Select.yielded (Select.__iter__ sq w).1.2
         ∧ match e with
           | MigrationError _ => e' = e
           | PyMongoError _ details =>
               e' = failed_sql (_sql q) (_params q) (Some details)
           | _ => e' = failed_sql (_sql q) (_params q) None
           end)
  ∧ (∀ params sql sm w m,
       Alter.parse params (tokens sm) = Raise (NotImplementedError m) →
       _alter params sql sm w = (Ok (None, PNone), w))
  ∧ (∀ q sq w e,
       _query q = Some (SelectQuery sq) →
       (Select.count is_BasicCursor cursor_count sq w).1.2 = Raise e →
       (count q w).1.2 = Raise e
       ∧ (count q w).2 = (Select.count is_BasicCursor cursor_count sq w).2).
Proof.
  split_and!.
  - intros sql params w statement h e w' Hp Hh He.
    rewrite (init_one_statement sql params statement h w Hp Hh), He.
    eexists. split; [reflexivity|].
    pose proof (parse_except_cases (Markers.init_sql sql).2 params e) as Hc.
    destruct e as [| | |[]| | | | | | |]; exact Hc.
  - intros sql params w statement Hp Hh.
    unfold Dispatch.__init__, Markers.init_sql in *.
    destruct (Markers.re_sub (-1) sql) as [count' sql'].
    cbn [snd] in *. step_M. unfold Dispatch.parse.
    rewrite Hp. cbn [length]. rewrite bool_decide_false by lia.
    by rewrite Hh.
  - intros q sq w e Hq He Hd. unfold Dispatch.__iter__. rewrite Hq.
    destruct (Select.__iter__ sq w) as [[sq' it] w']. cbn [fst snd] in *.
    rewrite He. cbn [fmap option_fmap option_map Select.raised Select.yielded].
    eexists. split; [reflexivity|]. split; [reflexivity|].
    destruct e as [| | |c details| | | | | | |]; try done.
    cbn. by rewrite (Hd c details eq_refl).
  - intros params sql sm w m Hp. unfold _alter. by rewrite Hp.
  - intros q sq w e Hq He. unfold Dispatch.count. rewrite Hq.
    destruct (Select.count is_BasicCursor cursor_count sq w) as [[sq' r] w'].
    cbn [fst snd] in *. by subst r.
Qed.

End DispatchFacts.

Section DispatchSamples.
Import Sql Dispatch.

Abbreviation sample_init :=
  (Dispatch.__init__ sample_version sample_sqlparse idle_handler idle_handler
     idle_handler).

Lemma multi_statement_is_rejected_witness :
  sample_init "DELETE FROM t; DROP TABLE t" None sample_world
  = (Raise (SQLDecodeError (Message "DELETE FROM t; DROP TABLE t")), sample_world).
Proof.
  apply (multi_statement_is_rejected sample_version sample_sqlparse
           idle_handler idle_handler idle_handler
           "DELETE FROM t; DROP TABLE t" None sample_world).
  vm_compute. lia.
Defined.

(** C8, at [DROP INDEX idx ON t]: [_drop] reads its local [tok_id] before
    any assignment, so the handler raises [UnboundLocalError]; the
    dispatcher turns it into an [SQLDecodeError], and [drop_index] is never
    called: the log of the store stays empty. *)
Theorem drop_index_raises_before_dropping :
  _drop None "DROP INDEX idx ON t" drop_index_statement sample_world
  = (Raise (UnboundLocalError "tok_id"), sample_world)
  ∧ sample_init "DROP INDEX idx ON t" None sample_world
    = (Raise (SQLDecodeError
                (FailedSQL "DROP INDEX idx ON t" None None sample_version)),
       sample_world)
  ∧ log sample_world = [].
Proof. repeat split; reflexivity. Qed.

Example drop_index_is_not_issued :
  sample_init "DROP INDEX idx ON t" None sample_world
  ≠ (Ok {| _params := None; _params_index_count := -1;
           _sql := "DROP INDEX idx ON t"; last_row_id := PNone;
           _query := None |},
     set_log sample_world [drop_index "t" (Some "idx"%string)]).
Proof. discriminate. Qed.

(** [close()] before the first row is asked for, and after the rows were
    all read. *)
Example close_before_iteration : close paged_Query = Ok paged_Query.
Proof. reflexivity. Qed.

Example close_after_iteration :
  let q := (Dispatch.__iter__ sample_version paged_Query listing_world).1.1 in
  (Dispatch.__iter__ sample_version paged_Query listing_world).1.2
  = {| Select.yielded := [[PNone; PNone]]; Select.raised := None |}
  ∧ (_query q ≫= compiler_cursor)
    = Some {| pending := []; failure := None; alive := false; closed := false |}
  ∧ ∃ q', close q = Ok q' ∧ close q' = Ok q'
      ∧ (_query q' ≫= compiler_cursor)
        = Some {| pending := []; failure := None; alive := false; closed := true |}.
Proof. repeat split. eexists. repeat split. Qed.

(** [SELECT (0) AS c FROM t] through the dispatcher: the statement compiles,
    [find] is the call issued, and the iteration ends in an
    [SQLDecodeError] at the first document. *)
Example constant_zero_fails_on_iteration :
  ∃ q, sample_init "SELECT (0) AS c FROM t" None listing_world
       = (Ok q, listing_world)
    ∧ (Dispatch.__iter__ sample_version q listing_world).1.2
      = {| Select.yielded := [];
           Select.raised :=
             Some (SQLDecodeError
                     (FailedSQL "SELECT (0) AS c FROM t" None None
                        sample_version)) |}
    ∧ log (Dispatch.__iter__ sample_version q listing_world).2
      = [find "t" {["projection" := PList []]}].
Proof. eexists. repeat split; reflexivity. Qed.

(** C7 fails in three places.
    - On [ALTER TABLE t ALTER COLUMN c TYPE integer]: compiling it raises
      [NotImplementedError] at the keyword TYPE, and the constructor of
      [Query] raises nothing: it returns a [Query] without compiler.
    - On [count()]: when the count of the cursor fails with an
      [OperationFailure], that error is what [Query.count] raises, not an
      [SQLDecodeError].
    - On a pymongo error of a class without [details] raised while the rows
      are iterated: [Query.__iter__] ends with an [AttributeError]. *)
Lemma error_boundary_has_gaps :
  (Alter.parse None (tokens alter_type_statement) = Raise (NotImplementedError "")
   ∧ sample_init "ALTER TABLE t ALTER COLUMN c TYPE integer" None sample_world
     = (Ok {| _params := None; _params_index_count := -1;
              _sql := "ALTER TABLE t ALTER COLUMN c TYPE integer";
              last_row_id := PNone; _query := None |},
        sample_world)
   ∧ ∀ m, (sample_init "ALTER TABLE t ALTER COLUMN c TYPE integer" None
             sample_world).1
          ≠ Raise (SQLDecodeError m))
  ∧ ((Dispatch.count (λ _, true) failing_count no_result paged_Query
        listing_world).1.2
     = Raise (PyMongoError OperationFailure time_limit)
     ∧ ∀ m, (Dispatch.count (λ _, true) failing_count no_result paged_Query
               listing_world).1.2
            ≠ Raise (SQLDecodeError m))
  ∧ (Select.raised
       (Select.__iter__ paged_query
          (failing_read_world (PyMongoError OtherPyMongoError PNone))).1.2
     = Some (PyMongoError OtherPyMongoError PNone)
     ∧ Select.raised
         (Dispatch.__iter__ sample_version paged_Query
            (failing_read_world (PyMongoError OtherPyMongoError PNone))).1.2
       = Some (AttributeError "details")).
Proof.
  split_and!; try reflexivity; intros m; discriminate.
Qed.

Lemma error_boundary_witness :
  ∃ e', sample_init insert_id_sql None refusing_world
        = (Raise e',
           (_insert None insert_id_sql insert_id_statement refusing_world).2)
    ∧ e' = SQLDecodeError
             (FailedSQL insert_id_sql None (Some duplicate_key) sample_version).
Proof.
  apply (proj1 (error_boundary sample_version sample_sqlparse idle_handler
                  idle_handler idle_handler (λ _, true) failing_count no_result)
           insert_id_sql None refusing_world insert_id_statement _insert
           (PyMongoError OperationFailure duplicate_key)).
  - reflexivity.
  - reflexivity.
  - by vm_compute.
Defined.

(** What the refused INSERT leaves: the counter of [t] moved from 10 to 11,
    and the two calls, the second one refused. *)
Example refused_insert_world :
  let w := (_insert None insert_id_sql insert_id_statement refusing_world).2 in
  lookup_auto (Some "t"%string) (schema w)
  = Some {| seq := 11; field_names := ["id"%string] |}
  ∧ log w = [find_one_and_update_inc_seq (Some "t"%string) 1;
             refused (insert_many "t" [{["id" := PInt 11]}])].
Proof. split; by vm_compute. Qed.

End DispatchSamples.

(** ** SelectQuery: parsing, the single read, and its reuse *)

Section MoreSelectFacts.
Import Select.

Lemma parse_from_accepted (statement : list clause) (q0 : SelectQuery) :
  Forall (λ c, accepted c = true) statement →
  ∃ q, parse_from q0 statement = Ok q.
Proof.
  revert q0. induction statement as [|c statement IH]; intros q0 H.
  - by eexists.
  - apply Forall_cons in H as [Hc H]. cbn [parse_from].
    destruct c; try discriminate; cbn; apply IH, H.
Qed.

Lemma parse_from_app (pre post : list clause) (q0 : SelectQuery) :
  parse_from q0 (pre ++ post) = (q ← parse_from q0 pre; parse_from q post).
Proof.
  revert q0. induction pre as [|c pre IH]; intros q0; [done|].
  cbn [app parse_from]. destruct (parse_tok q0 c); cbn; [apply IH|done].
Qed.

(** The loop of [parse] stops at the first token it does not know, or whose
    converter raises, whatever follows; a statement made of known clauses
    always parses. *)
Theorem select_parse_fails_fast (pre post : list clause) (c : clause) :
  Forall (λ c, accepted c = true) pre →
  (∃ q, Select.parse pre = Ok q)
  ∧ (accepted c = false → Select.parse (pre ++ c :: post) = Raise (refusal c)).
Proof.
  intros Hpre. destruct (parse_from_accepted pre init Hpre) as [q Hq].
  split; [by exists q|]. intros Hc. unfold Select.parse.
  rewrite parse_from_app, Hq. cbn. by destruct c.
Qed.

Lemma select_parse_fails_fast_witness :
  (∃ q, Select.parse [SELECT columns_ab None; FROM "t"] = Ok q)
  ∧ (accepted (Other "UNION") = false →
     Select.parse ([SELECT columns_ab None; FROM "t"]
                   ++ Other "UNION" :: [LIMIT limit_10])
     = Raise (SQLDecodeError (Message "Unknown keyword: UNION"))).
Proof.
  apply (select_parse_fails_fast [SELECT columns_ab None; FROM "t"]
           [LIMIT limit_10] (Other "UNION")).
  repeat constructor.
Defined.

(** For a parsed statement with a FROM clause, [_get_cursor] makes exactly
    one call to the store: [aggregate] with the staged pipeline when
    [_needs_aggregation] is true, [find] otherwise, with the fragments of
    the statement's WHERE, column, LIMIT, ORDER BY and OFFSET clauses as
    keyword arguments.  When the driver refuses the call, its error comes
    out and nothing is recorded. *)
Theorem get_cursor_calls_once (statement : list clause) (q : SelectQuery)
    (t : string) (w : world) :
  Select.parse statement = Ok q →
  find_last from_of statement = Some t →
  is_Some (find_last select_of statement) →
  ∃ b, _needs_aggregation q = Ok b
    ∧ let c := if b then aggregate t (staged_pipeline statement)
               else find t (find_arguments statement) in
      _get_cursor q w = called c (cursor_of (drv w) c) w.
Proof.
  intros Hq Ht [sc Hs].
  pose proof (make_pipeline_staged _ _ Hq) as Hpipe.
  pose proof (find_kwargs_fragments q) as Hkw.
  apply parse_attributes in Hq.
  destruct Hq as (Hj & Hsel & Hd & Hw & Hn & Hg & Hh & Ho & Hf & Hl & Hleft).
  rewrite Ht in Hleft.
  destruct (needs_aggregation_total q sc) as [b Hb]; [congruence|].
  exists b. split; [done|]. cbn zeta.
  unfold _get_cursor, called. run_M. rewrite Hb, Hleft.
  rewrite Hkw, Hpipe, Hw, Hsel, Ho, Hf, Hl. fold (find_arguments statement).
  destruct b; cbn; by destruct (fault (drv w) _).
Qed.

Lemma get_cursor_calls_once_witness :
  ∃ b, _needs_aggregation paged_query = Ok b
    ∧ let c := if b then aggregate "t" (staged_pipeline order_then_offset)
               else find "t" (find_arguments order_then_offset) in
      _get_cursor paged_query (empty_world false)
      = called c (cursor_of (drv (empty_world false)) c) (empty_world false).
Proof.
  apply (get_cursor_calls_once order_then_offset paged_query "t"
           (empty_world false)).
  - reflexivity.
  - reflexivity.
  - by eexists.
Defined.

Example paged_find_call :
  (_get_cursor paged_query (empty_world false)).2.(log)
  = [find "t" {[ "filter" := doc1 "a" (PInt 7);
                 "projection" := PList [PStr "a"; PStr "b"];
                 "limit" := PInt 10;
                 "sort" := PList [PList [PStr "a"; PInt 1]];
                 "skip" := PInt 5 ]}].
Proof. by vm_compute. Qed.

(** A statement without FROM clause leaves [left_table] at [None]:
    [db[None]] raises [TypeError] before any call is made. *)
Theorem get_cursor_without_from (statement : list clause) (q : SelectQuery)
    (w : world) :
  Select.parse statement = Ok q →
  find_last from_of statement = None →
  is_Some (find_last select_of statement) →
  _get_cursor q w = (Raise TypeError, w).
Proof.
  intros Hq Ht [sc Hs]. apply parse_attributes in Hq.
  destruct Hq as (_ & Hsel & _ & _ & _ & _ & _ & _ & _ & _ & Hleft).
  rewrite Hs in Hsel. rewrite Ht in Hleft.
  destruct (needs_aggregation_total q sc Hsel) as [b Hb].
  unfold _get_cursor. run_M. rewrite Hb, Hleft. by destruct b.
Qed.

Lemma get_cursor_without_from_witness :
  _get_cursor
    {| selected_columns := Some columns_ab; where_ := Some where_a; joins := [];
       order := None; offset := None; limit := None; distinct := None;
       groupby := None; having := None; nested_query := None;
       left_table := None; _cursor := None |}
    (empty_world false)
  = (Raise TypeError, empty_world false).
Proof.
  apply (get_cursor_without_from no_from).
  - reflexivity.
  - reflexivity.
  - by eexists.
Defined.

(** Once [__iter__] has obtained its cursor, the query keeps it: iterating
    again makes no call to the store.  When [_get_cursor] raised, no cursor
    is kept. *)
Theorem iteration_reads_once (q : SelectQuery) (w : world) :
  _cursor q = None →
  match _get_cursor q w with
  | (Ok cur, w1) =>
      (Select.__iter__ q w).2 = w1
      ∧ is_Some (_cursor (Select.__iter__ q w).1.1)
      ∧ (Select.__iter__ (Select.__iter__ q w).1.1 w1).2 = w1
  | (Raise e, w1) =>
      Select.__iter__ q w = (q, {| yielded := []; raised := Some e |}, w1)
  end.
Proof.
  intros Hc.
  assert (Select.__iter__ q w
          = match _get_cursor q w with
            | (Ok cur, w') =>
                let '(it, cur') := iter_cursor (enforce_schema w') q cur in
                (set_cursor q (Some cur'), it, w')
            | (Raise e, w') => (q, {| yielded := []; raised := Some e |}, w')
            end) as Heq
    by (unfold Select.__iter__; by rewrite Hc).
  rewrite !Heq. clear Heq.
  destruct (_get_cursor q w) as [[cur|e] w1]; [|done].
  destruct (iter_cursor (enforce_schema w1) q cur) as [it cur'] eqn:Hit.
  cbn [fst snd]. split_and!; [done|by eexists|].
  unfold Select.__iter__. cbn [_cursor set_cursor].
  by destruct (iter_cursor _ _ cur').
Qed.

Lemma iteration_reads_once_witness :
  match _get_cursor paged_query listing_world with
  | (Ok cur, w1) =>
      (Select.__iter__ paged_query listing_world).2 = w1
      ∧ is_Some (_cursor (Select.__iter__ paged_query listing_world).1.1)
      ∧ (Select.__iter__ (Select.__iter__ paged_query listing_world).1.1 w1).2 = w1
  | (Raise e, w1) =>
      Select.__iter__ paged_query listing_world
      = (paged_query, {| yielded := []; raised := Some e |}, w1)
  end.
Proof. apply (iteration_reads_once paged_query listing_world). reflexivity. Defined.

End MoreSelectFacts.

(** ** InsertQuery: the rows and the counter *)

Section MoreInsertFacts.
Import Insert.

(** [_values] builds one row for each parenthesised group after the column
    list, in order; every other token is passed over. *)
Lemma values_from_length (params : option (list pyval)) (rest : list Sql.token)
    (vals0 vals : list (list pyval)) :
  _values_from params rest vals0 = Ok vals →
  length vals = (length vals0 + length (filter (λ tok, is_tuple tok = true) rest))%nat.
Proof.
  revert vals0. induction rest as [|tok rest IH]; intros vals0 H.
  - cbn in *. injection H as <-. lia.
  - cbn [_values_from] in H.
    destruct (_values_tok params tok vals0) as [vals1|e] eqn:Htok; [|done].
    cbn in H. apply IH in H. rewrite H. clear H IH.
    unfold _values_tok in Htok.
    destruct tok as [ty v|i|i|ts|ts v ph|ts]; cbn in Htok.
    1: destruct (bool_decide (ty = Sql.Keyword) && _) in Htok.
    all: try (injection Htok as <-; rewrite filter_cons; cbn;
              case_decide; try done; lia).
    rewrite filter_cons. cbn. rewrite decide_True by done. cbn.
    destruct (ts !! 1%nat) as [tok1|]; [|done]. cbn in Htok.
    destruct (Sql.is_IdentifierList tok1).
    + destruct ph as [idx|]; [|done]. cbn in Htok.
      destruct (mapM _ idx); [|done]. cbn in Htok. injection Htok as <-.
      rewrite length_app. cbn. lia.
    + destruct (Sql.tok_match tok1 Sql.Keyword _).
      * injection Htok as <-. rewrite length_app. cbn. lia.
      * destruct ph as [[|i idx]|]; try done. cbn in Htok.
        destruct (param_or_None params i); [|done]. cbn in Htok.
        injection Htok as <-. rewrite length_app. cbn. lia.
Qed.

Theorem values_one_row_per_tuple (params : option (list pyval))
    (rest : list Sql.token) (vals : list (list pyval)) :
  _values params rest = Ok vals →
  length vals = length (filter (λ tok, is_tuple tok = true) rest).
Proof. intros H. by apply values_from_length in H. Qed.

Lemma values_one_row_per_tuple_witness :
  length [[PDefault]]
  = length (filter (λ tok, is_tuple tok = true)
              (drop 2 (Sql.tokens_after 2 insert_flag_tokens))).
Proof.
  apply (values_one_row_per_tuple None
           (drop 2 (Sql.tokens_after 2 insert_flag_tokens)) [[PDefault]]).
  reflexivity.
Defined.

Lemma inc_seq_other (table table' : option string) (num : Z)
    (docs : list schema_document) :
  table ≠ table' →
  lookup_auto table' (inc_seq table num docs).2 = lookup_auto table' docs.
Proof.
  intros Hne. induction docs as [|d docs IH]; [done|]. cbn.
  destruct (auto d) as [a|] eqn:Ha.
  - case_bool_decide as Hn.
    + cbn. rewrite bool_decide_false by congruence.
      destruct (bool_decide (Some (name d) = table')) eqn:Hb; [|done].
      apply bool_decide_eq_true in Hb. congruence.
    + destruct (inc_seq table num docs). cbn in *. rewrite Ha.
      by case_bool_decide.
  - destruct (inc_seq table num docs). cbn in *. by rewrite Ha.
Qed.

Lemma inc_seq_columns (table : option string) (num : Z)
    (docs : list schema_document) :
  (λ d, (name d, fields d)) <$> (inc_seq table num docs).2
  = (λ d, (name d, fields d)) <$> docs.
Proof.
  induction docs as [|d docs IH]; [done|]. cbn.
  destruct (auto d) as [a|]; [case_bool_decide; [done|]|];
    destruct (inc_seq table num docs); cbn in *; by rewrite IH.
Qed.

Lemma inc_seq_none (table : option string) (num : Z)
    (docs : list schema_document) :
  lookup_auto table docs = None → (inc_seq table num docs).2 = docs.
Proof.
  induction docs as [|d docs IH]; [done|]. cbn.
  destruct (auto d) as [a|]; [case_bool_decide; [done|]|];
    intros Hnone; destruct (inc_seq table num docs); cbn in *; by rewrite IH.
Qed.

(** What an INSERT into [t] leaves alone, whether it succeeds or fails: the
    counters of the other tables, the names and declared columns of all
    tables, the driver and the connection properties. *)
Theorem insert_leaves_other_tables (q : InsertQuery) (w : world) (t t' : string) :
  left_table q = Some t → t' ≠ t →
  let w' := (execute q w).2 in
  lookup_auto (Some t') (schema w') = lookup_auto (Some t') (schema w)
  ∧ (λ d, (name d, fields d)) <$> schema w'
    = (λ d, (name d, fields d)) <$> schema w
  ∧ drv w' = drv w ∧ enforce_schema w' = enforce_schema w
  ∧ cached_collections w' = cached_collections w.
Proof.
  intros Ht Hne. cbn zeta. rewrite (execute_steps q w t Ht).
  destruct (fault (drv w) _); [done|].
  destruct (fault (drv w) (insert_many _ _)); cbn [snd schema set_schema set_log];
    (split_and!; [apply inc_seq_other; congruence|apply inc_seq_columns|done..]).
Qed.

Lemma insert_leaves_other_tables_witness :
  let w' := (execute insert_three sample_world).2 in
  lookup_auto (Some "u"%string) (schema w')
  = lookup_auto (Some "u"%string) (schema sample_world)
  ∧ (λ d, (name d, fields d)) <$> schema w'
    = (λ d, (name d, fields d)) <$> schema sample_world
  ∧ drv w' = drv sample_world ∧ enforce_schema w' = enforce_schema sample_world
  ∧ cached_collections w' = cached_collections sample_world.
Proof.
  apply (insert_leaves_other_tables insert_three sample_world "t" "u").
  - reflexivity.
  - discriminate.
Defined.

Lemma execute_ok (q : InsertQuery) (w : world) (t : string) (old : auto_info) :
  left_table q = Some t →
  lookup_auto (Some t) (schema w) = Some old →
  (∀ c, fault (drv w) c = None) →
  let N := Z.of_nat (length (_vals q)) in
  ∃ w', execute q w = (Ok (PInt (seq old + N)), w')
    ∧ log w' = log w ++ [find_one_and_update_inc_seq (Some t) N;
                         insert_many t (make_docs (Some (bump N old))
                                          (_cols q) (_vals q))]
    ∧ lookup_auto (Some t) (schema w') = Some (bump N old)
    ∧ drv w' = drv w.
Proof.
  intros Ht Hold Hf. cbn zeta. rewrite (execute_steps q w t Ht).
  rewrite !Hf, Hold. cbn [fmap option_fmap option_map].
  eexists. split; [reflexivity|]. cbn [log schema drv set_log set_schema].
  split_and!; [by rewrite <- app_assoc|by rewrite inc_seq_snd, Hold|done].
Qed.

(** Two INSERTs in a row into the same table get adjacent blocks of the
    sequence: the first ends at S1, the second at S1 + N2, so its rows get
    S1 + 1, ..., S1 + N2. *)
Theorem consecutive_inserts (q1 q2 : InsertQuery) (w : world) (t : string)
    (old : auto_info) :
  left_table q1 = Some t → left_table q2 = Some t →
  lookup_auto (Some t) (schema w) = Some old →
  (∀ c, fault (drv w) c = None) →
  let N1 := Z.of_nat (length (_vals q1)) in
  let N2 := Z.of_nat (length (_vals q2)) in
  ∃ w1 w2,
    execute q1 w = (Ok (PInt (seq old + N1)), w1)
    ∧ execute q2 w1 = (Ok (PInt (seq old + N1 + N2)), w2)
    ∧ lookup_auto (Some t) (schema w2)
      = Some {| seq := seq old + N1 + N2; field_names := field_names old |}
    ∧ ∃ docs1 docs2,
        log w2 = log w ++ [find_one_and_update_inc_seq (Some t) N1;
                           insert_many t docs1;
                           find_one_and_update_inc_seq (Some t) N2;
                           insert_many t docs2]
        ∧ docs1 = make_docs (Some (bump N1 old)) (_cols q1) (_vals q1)
        ∧ docs2 = make_docs (Some (bump N2 (bump N1 old))) (_cols q2) (_vals q2).
Proof.
  intros Ht1 Ht2 Hold Hf N1 N2.
  destruct (execute_ok q1 w t old Ht1 Hold Hf) as (w1 & H1 & Hlog1 & Hold1 & Hdrv1).
  assert (Hf1 : ∀ c, fault (drv w1) c = None) by (by rewrite Hdrv1).
  destruct (execute_ok q2 w1 t _ Ht2 Hold1 Hf1) as (w2 & H2 & Hlog2 & Hold2 & _).
  exists w1, w2. split_and!; [exact H1|exact H2|exact Hold2|].
  eexists _, _. split; [|split; reflexivity].
  rewrite Hlog2, Hlog1. by rewrite <- !app_assoc.
Qed.

Lemma consecutive_inserts_witness :
  ∃ w1 w2,
    execute insert_three sample_world = (Ok (PInt (10 + 3)), w1)
    ∧ execute insert_three w1 = (Ok (PInt (10 + 3 + 3)), w2)
    ∧ lookup_auto (Some "t"%string) (schema w2)
      = Some {| seq := 10 + 3 + 3; field_names := ["id"%string] |}
    ∧ ∃ docs1 docs2,
        log w2 = log sample_world
                 ++ [find_one_and_update_inc_seq (Some "t"%string) 3;
                     insert_many "t" docs1;
                     find_one_and_update_inc_seq (Some "t"%string) 3;
                     insert_many "t" docs2]
        ∧ docs1 = make_docs (Some (bump 3 {| seq := 10; field_names := ["id"%string] |}))
                    ["id"; "name"]%string (_vals insert_three)
        ∧ docs2 = make_docs
                    (Some (bump 3 (bump 3 {| seq := 10; field_names := ["id"%string] |})))
                    ["id"; "name"]%string (_vals insert_three).
Proof.
  apply (consecutive_inserts insert_three insert_three sample_world "t"
           {| seq := 10; field_names := ["id"%string] |}).
  - reflexivity.
  - reflexivity.
  - reflexivity.
  - intros c. reflexivity.
Defined.

(** The counter is not given back: when [insert_many] raises, the block
    reserved by [find_one_and_update] stays consumed.  The two calls were
    issued in this order, and the second is recorded as refused: how many
    of its rows the store had written by then is not said. *)
Theorem failed_insert_keeps_the_block (q : InsertQuery) (w : world) (t : string)
    (e : exn) :
  left_table q = Some t →
  let N := Z.of_nat (length (_vals q)) in
  let auto := bump N <$> lookup_auto (Some t) (schema w) in
  fault (drv w) (find_one_and_update_inc_seq (Some t) N) = None →
  fault (drv w) (insert_many t (make_docs auto (_cols q) (_vals q))) = Some e →
  ∃ w', execute q w = (Raise e, w')
    ∧ log w' = log w ++ [find_one_and_update_inc_seq (Some t) N;
                         refused (insert_many t
                                    (make_docs auto (_cols q) (_vals q)))]
    ∧ lookup_auto (Some t) (schema w') = auto.
Proof.
  intros Ht N auto Hf1 Hf2. rewrite (execute_steps q w t Ht).
  fold N auto. rewrite Hf1, Hf2. eexists. split; [reflexivity|].
  cbn [log schema set_log set_schema]. split; [by rewrite <- app_assoc|].
  apply inc_seq_snd.
Qed.

Lemma failed_insert_keeps_the_block_witness :
  ∃ w', execute insert_three refusing_world
        = (Raise (PyMongoError OperationFailure duplicate_key), w')
    ∧ log w' = log refusing_world
               ++ [find_one_and_update_inc_seq (Some "t"%string) 3;
                   refused
                     (insert_many "t"
                        (make_docs
                           (bump 3 <$> lookup_auto (Some "t"%string)
                                         (schema refusing_world))
                           (_cols insert_three) (_vals insert_three)))]
    ∧ lookup_auto (Some "t"%string) (schema w')
      = bump 3 <$> lookup_auto (Some "t"%string) (schema refusing_world).
Proof.
  apply (failed_insert_keeps_the_block insert_three refusing_world "t"
           (PyMongoError OperationFailure duplicate_key)).
  - reflexivity.
  - reflexivity.
  - reflexivity.
Defined.

(** Without autoincrement entry a row is stored as it stands. *)
Lemma fold_set_field_None (items : list (string * pyval)) (ins : document) :
  NoDup items.*1 →
  fold_left (set_field None) items ins = list_to_map items ∪ ins.
Proof.
  revert ins. induction items as [|[k v] items IH]; intros ins Hnd.
  - cbn. by rewrite (left_id_L ∅ (∪)).
  - cbn in Hnd. apply NoDup_cons in Hnd as [Hk Hnd].
    cbn [fold_left set_field list_to_map foldr]. rewrite IH by done.
    change (uncurry insert (k, v) ?m) with (<[k:=v]> m).
    rewrite <- insert_union_l.
    by rewrite insert_union_r by (by apply not_elem_of_list_to_map_1).
Qed.

Lemma make_docs_None (cols : list string) (vals : list (list pyval)) :
  NoDup cols →
  make_docs None cols vals
  = (λ val, list_to_map (zip cols val) : document) <$> vals.
Proof.
  intros Hnd. unfold make_docs.
  rewrite <- (imap_const (λ val, list_to_map (zip cols val) : document)).
  apply imap_ext. intros i val _. unfold make_doc.
  rewrite fold_set_field_None by (by apply NoDup_fst_zip).
  by rewrite (right_id_L ∅ (∪)).
Qed.

(** An INSERT into a table without autoincrement entry leaves [__schema__]
    as it is, and hands to [insert_many] one document per row that maps each
    column paired with a value to that value, and nothing else; the last
    row id is the last identifier the store generated. *)
Theorem insert_without_autoincrement (q : InsertQuery) (w : world) (t : string) :
  left_table q = Some t →
  lookup_auto (Some t) (schema w) = None →
  (∀ c, fault (drv w) c = None) →
  NoDup (_cols q) →
  let docs := (λ val, list_to_map (zip (_cols q) val) : document) <$> _vals q in
  ∃ w', execute q w
        = (match last (inserted_ids (drv w) docs) with
           | Some v => Ok v
           | None => Raise IndexError
           end, w')
    ∧ schema w' = schema w
    ∧ log w' = log w ++ [find_one_and_update_inc_seq (Some t)
                           (Z.of_nat (length (_vals q)));
                         insert_many t docs].
Proof.
  intros Ht Hnone Hf Hnd. cbn zeta. rewrite (execute_steps q w t Ht).
  rewrite !Hf, Hnone. cbn [fmap option_fmap option_map].
  rewrite make_docs_None by done.
  eexists. split; [reflexivity|]. cbn [log schema set_log set_schema].
  split; [by apply inc_seq_none|by rewrite <- app_assoc].
Qed.

Lemma insert_without_autoincrement_witness :
  let docs := (λ val, list_to_map (zip ["flag"%string] val) : document)
                <$> [[PBool true]] in
  ∃ w', execute insert_value sample_world
        = (match last (inserted_ids (drv sample_world) docs) with
           | Some v => Ok v
           | None => Raise IndexError
           end, w')
    ∧ schema w' = schema sample_world
    ∧ log w' = log sample_world
               ++ [find_one_and_update_inc_seq (Some "u"%string) 1;
                   insert_many "u" docs].
Proof.
  apply (insert_without_autoincrement insert_value sample_world "u").
  - reflexivity.
  - reflexivity.
  - intros c. reflexivity.
  - cbn. refine (bool_decide_unpack (NoDup _) _). vm_compute. exact I.
Defined.

(** A document has no other field than the autoincrement fields and the
    columns that [zip] pairs with a value of the row: a column past the
    last value of the row is absent. *)
Lemma zip_fst_take {A B} (l : list A) (k : list B) :
  (zip l k).*1 = take (length k) l.
Proof.
  revert k. induction l as [|x l IH]; intros [|y k]; cbn; try done.
  by rewrite <- IH.
Qed.

Lemma fold_set_field_absent (auto : option auto_info)
    (items : list (string * pyval)) (ins : document) (k : string) :
  k ∉ items.*1 → fold_left (set_field auto) items ins !! k = ins !! k.
Proof.
  revert ins. induction items as [|[fld v] items IH]; intros ins Hk; [done|].
  cbn in Hk. apply not_elem_of_cons in Hk as [Hne Hk].
  cbn [fold_left]. rewrite IH by done. unfold set_field.
  destruct (match auto with Some _ => _ | None => _ end); [done|].
  by rewrite lookup_insert_ne.
Qed.

Theorem document_fields (auto : option auto_info) (num : Z)
    (cols : list string) (i : nat) (val : list pyval) (k : string) :
  is_Some (make_doc auto num cols i val !! k) →
  (∃ a, auto = Some a ∧ k ∈ field_names a) ∨ k ∈ take (length val) cols.
Proof.
  intros Hk. destruct (decide (k ∈ take (length val) cols)) as [|Hno]; [by right|].
  left. unfold make_doc in Hk.
  rewrite fold_set_field_absent in Hk by (by rewrite zip_fst_take).
  destruct auto as [a|]; [|by destruct Hk].
  exists a. split; [done|]. rewrite fold_set_auto_field in Hk.
  case_decide; [done|]. by destruct Hk.
Qed.

Lemma document_fields_witness :
  (∃ a, Some {| seq := 13; field_names := ["id"%string] |} = Some a
        ∧ "id"%string ∈ field_names a)
  ∨ "id"%string ∈ take (length [PDefault]) ["id"; "name"]%string.
Proof.
  apply (document_fields (Some {| seq := 13; field_names := ["id"%string] |})
           3 ["id"; "name"]%string 0 [PDefault] "id").
  exists (PInt 11). vm_compute. reflexivity.
Defined.

End MoreInsertFacts.

(** ** AlterQuery and UpdateQuery *)

Section MoreCompilerFacts.
Import Sql.

Lemma rename_from_spec (rest : list token) (column to : bool)
    (q : Alter.AlterQuery) :
  (column = true → Alter.execute q = Alter._rename_column) →
  ∃ q', Alter._rename_from rest column to q = Ok q'
    ∧ Alter.execute q'
      = (if column || existsb (λ tok, tok_match tok Keyword ["COLUMN"%string]) rest
         then Alter._rename_column
         else Alter._rename_collection)
    ∧ Alter.left_table q' = Alter.left_table q
    ∧ Alter._iden_name q' = Alter._iden_name q.
Proof.
  revert column to q. induction rest as [|tok rest IH]; intros column to q Hinv.
  - cbn. rewrite orb_false_r. destruct column; eexists; split_and!; eauto.
  - cbn [Alter._rename_from existsb].
    destruct (tok_match tok Keyword ["COLUMN"%string]) eqn:Hcol.
    + destruct tok as [ty v| | | | |]; try discriminate.
      rewrite orb_true_r.
      destruct (tok_match (Token ty v) Keyword ["TO"%string]).
      * destruct (IH true true (Alter.set_execute q Alter._rename_column))
          as (q' & -> & He & Hl & Hi); [done|]. by exists q'.
      * cbn [is_Identifier].
        destruct (IH true to (Alter.set_execute q Alter._rename_column))
          as (q' & -> & He & Hl & Hi); [done|]. by exists q'.
    + rewrite orb_false_l.
      destruct (tok_match tok Keyword ["TO"%string]).
      * destruct (IH column true q Hinv) as (q' & -> & He & Hl & Hi).
        by exists q'.
      * destruct tok as [ty v|i|i|ts|ts v ph|ts]; cbn [is_Identifier].
        3: { cbn. destruct to.
             - destruct (IH column true (Alter.set_new_name q (get_real_name i)))
                 as (q' & -> & He & Hl & Hi); [done|]. by exists q'.
             - destruct (IH column false (Alter.set_old_name q (get_real_name i)))
                 as (q' & -> & He & Hl & Hi); [done|]. by exists q'. }
        all: destruct (IH column to q Hinv) as (q' & -> & He & Hl & Hi);
          by exists q'.
Qed.

(** [_rename] never fails: tokens it does not know are passed over.  It
    binds [_rename_column] when a COLUMN keyword is among the tokens, and
    [_rename_collection] otherwise; the table and the identifier name
    stay. *)
Theorem rename_never_fails (rest : list token) (q : Alter.AlterQuery) :
  ∃ q', Alter._rename rest q = Ok q'
    ∧ Alter.execute q'
      = (if existsb (λ tok, tok_match tok Keyword ["COLUMN"%string]) rest
         then Alter._rename_column
         else Alter._rename_collection)
    ∧ Alter.left_table q' = Alter.left_table q
    ∧ Alter._iden_name q' = Alter._iden_name q.
Proof. apply (rename_from_spec rest false false q). discriminate. Qed.

Lemma update_parse_from (statement : list Update.clause)
    (a a' : Update.attributes) :
  Update.parse_from a statement = Ok a' →
  Update.set_columns a' = or_else (last_SET statement) (Update.set_columns a)
  ∧ Update.where_ a' = or_else (last_WHERE statement) (Update.where_ a).
Proof.
  revert a. induction statement as [|c statement IH]; intros a H.
  - cbn in H. injection H as <-. done.
  - cbn [Update.parse_from] in H.
    destruct (Update.parse_tok a c) as [a1|e] eqn:Hc; [|done].
    cbn in H. apply IH in H as [-> ->]. cbn [last_SET last_WHERE].
    destruct c as [col|s|wh| |]; cbn in Hc; try discriminate.
    + destruct (Update.first_table col); [|done]. injection Hc as <-.
      by destruct (last_SET statement), (last_WHERE statement).
    + injection Hc as <-.
      by destruct (last_SET statement), (last_WHERE statement).
    + injection Hc as <-.
      by destruct (last_SET statement), (last_WHERE statement).
Qed.

(** The keyword arguments of [update_many] are the fragment of the last
    SET clause over the fragment of the last WHERE clause (none when the
    statement has no WHERE); a statement without SET clause never gives an
    [UpdateQuery]. *)
Theorem update_needs_set (statement : list Update.clause) :
  (∀ q, Update.parse statement = Ok q →
     ∃ s, last_SET statement = Some s
       ∧ Update.kwargs q
         = Update.set_to_mongo s
           ∪ fragment (last_WHERE statement) Select.where_to_mongo)
  ∧ (last_SET statement = None → ∃ e, Update.parse statement = Raise e).
Proof.
  unfold Update.parse. split.
  - intros q H.
    destruct (Update.parse_from _ statement) as [a|e] eqn:Ha; [|done].
    apply update_parse_from in Ha as [Hs Hw]. cbn in *.
    rewrite Hs, Hw in H.
    destruct (last_SET statement) as [s|]; [|done]. cbn in H.
    injection H as <-. exists s. split; [done|]. cbn.
    destruct (last_WHERE statement); cbn; [|done].
    by rewrite (right_id_L ∅ (∪)).
  - intros Hnone.
    destruct (Update.parse_from _ statement) as [a|e] eqn:Ha; [|by eexists].
    apply update_parse_from in Ha as [Hs _]. cbn in *.
    rewrite Hs, Hnone. by eexists.
Qed.

Lemma update_needs_set_witness :
  ∃ s, last_SET [Update.UPDATE table_t; Update.SET set_a; Update.WHERE where_a]
       = Some s
    ∧ Update.kwargs update_a
      = Update.set_to_mongo s
        ∪ fragment (last_WHERE [Update.UPDATE table_t; Update.SET set_a;
                                Update.WHERE where_a]) Select.where_to_mongo.
Proof.
  apply (proj1 (update_needs_set [Update.UPDATE table_t; Update.SET set_a;
                                  Update.WHERE where_a]) update_a).
  vm_compute. reflexivity.
Defined.

End MoreCompilerFacts.

(** ** Query: what the dispatcher does around the compilers *)

Section MoreDispatchFacts.
Import Sql Dispatch.

Variable version : string.
Variable sqlparse : string → list Statement.
Variables _update _delete _create : handler.

Abbreviation __init__' := (Dispatch.__init__ version sqlparse _update _delete _create).
Abbreviation failed_sql' := (Dispatch.failed_sql version).

(** A text in which the parser finds no statement: [statement[0]] raises
    [IndexError], which is outside the [try] and comes out as it is; no
    call reaches the store. *)
Theorem empty_input_raises_IndexError (sql : string)
    (params : option (list pyval)) (w : world) :
  sqlparse (Markers.init_sql sql).2 = [] →
  __init__' sql params w = (Raise IndexError, w).
Proof.
  intros H. unfold Dispatch.__init__, Markers.init_sql in *.
  destruct (Markers.re_sub (-1) sql) as [count sql']. cbn [snd] in H.
  step_M. unfold Dispatch.parse. rewrite H. done.
Qed.

(** Building the [Query] of a SELECT makes no call to the store and changes
    nothing: the compiler it holds has no cursor yet, the read waits for
    the first iteration.  A failure of the clause loop comes out through
    the [except] clauses. *)
Theorem select_is_lazy (sql : string) (params : option (list pyval))
    (sm : Statement) (w : world) :
  sqlparse (Markers.init_sql sql).2 = [sm] →
  get_type sm = "SELECT"%string →
  match Select.parse (clauses sm) with
  | Ok sq =>
      Select._cursor sq = None
      ∧ __init__' sql params w
        = (Ok {| _params := params;
                 _params_index_count := (Markers.init_sql sql).1;
                 _sql := (Markers.init_sql sql).2; last_row_id := PNone;
                 _query := Some (SelectQuery sq) |}, w)
  | Raise e =>
      __init__' sql params w
      = (Raise (parse_except version (Markers.init_sql sql).2 params e), w)
  end.
Proof.
  intros Hp Hty.
  rewrite (init_one_statement version sqlparse _update _delete _create
             sql params sm _select w Hp) by (by rewrite Hty).
  unfold _select. run_M.
  destruct (Select.parse (clauses sm)) as [sq|e] eqn:Hsq; [|done].
  split; [|done]. apply parse_from_attributes in Hsq.
  by destruct Hsq as (_ & _ & _ & _ & _ & _ & _ & _ & _ & _ & _ & ->).
Qed.

(** An INSERT into a table that is not known, with the schema enforced:
    the [MigrationError] of [_table] leaves the dispatcher as it is, and
    neither the counter nor the collection has been touched. *)
Theorem insert_into_unknown_table (sql : string) (params : option (list pyval))
    (sm : Statement) (tok : token) (rest : list token) (n : option string)
    (w : world) :
  sqlparse (Markers.init_sql sql).2 = [sm] →
  get_type sm = "INSERT"%string →
  tokens_after 2 (tokens sm) = tok :: rest →
  tok_get_name tok = Ok n →
  n ∉ cached_collections w →
  enforce_schema w = true →
  __init__' sql params w
  = (Raise (MigrationError ("Table " +:+ Insert.str_of_name n
                            +:+ " does not exist in database")), w).
Proof.
  intros Hp Hty Htok Hn Hin He.
  rewrite (init_one_statement version sqlparse _update _delete _create
             sql params sm _insert w Hp) by (by rewrite Hty).
  unfold _insert, Insert.parse, Insert._table. rewrite Htok. run_M.
  rewrite Hn, bool_decide_false, He by done. done.
Qed.

(** An ALTER statement that names no action: the constructor succeeds,
    [execute] is still [BaseQuery.execute], and its [NotImplementedError]
    is raised outside the [try] of [_alter], so the dispatcher turns it
    into an [SQLDecodeError]; no call reaches the store. *)
Theorem alter_without_action (sql : string) (params : option (list pyval))
    (sm : Statement) (q : Alter.AlterQuery) (w : world) :
  sqlparse (Markers.init_sql sql).2 = [sm] →
  get_type sm = "ALTER"%string →
  Alter.parse params (tokens sm) = Ok q →
  Alter.execute q = Alter.BaseQuery_execute →
  __init__' sql params w
  = (Raise (failed_sql' (Markers.init_sql sql).2 params None), w).
Proof.
  intros Hp Hty Hq Hex.
  rewrite (init_one_statement version sqlparse _update _delete _create
             sql params sm _alter w Hp) by (by rewrite Hty).
  unfold _alter. rewrite Hq. unfold Alter.run. rewrite Hex. done.
Qed.

End MoreDispatchFacts.

Section MoreDropFacts.
Import Sql Dispatch.

(** DROP TABLE makes one call, [drop_collection]; the table's entry in
    [__schema__] and the cache of known collections stay as they were, so
    the table check of a later INSERT into that table still passes. *)
Theorem drop_table_keeps_metadata (params : option (list pyval)) (sql : string)
    (sm : Statement) (kw tok : token) (rest : list token) (n : string)
    (w : world) :
  tokens_after 0 (tokens sm) = kw :: tok :: rest →
  tok_match kw Keyword ["TABLE"%string] = true →
  tok_get_name tok = Ok (Some n) →
  fault (drv w) (drop_collection n) = None →
  ∃ w', _drop params sql sm w = (Ok (None, PNone), w')
    ∧ log w' = log w ++ [drop_collection n]
    ∧ schema w' = schema w
    ∧ cached_collections w' = cached_collections w
    ∧ (Some n ∈ cached_collections w →
       ∀ rest', Insert._table (tok :: rest') w' = (Ok (Some n, rest'), w')).
Proof.
  intros Ht Hkw Hn Hf. unfold _drop. rewrite Ht.
  destruct kw as [ty v| | | | |]; try discriminate.
  cbn in Hkw. apply andb_true_iff in Hkw as [Hty Hv].
  apply bool_decide_eq_true in Hty as ->.
  apply bool_decide_eq_true in Hv. apply list_elem_of_singleton in Hv as ->.
  cbn [tok_match]. rewrite bool_decide_true by done.
  replace (bool_decide ("TABLE"%string ∈ ["DATABASE"%string])) with false
    by (symmetry; apply bool_decide_eq_false; set_solver).
  rewrite bool_decide_true by set_solver. cbn [andb head next_get_name].
  run_M. rewrite Hn. cbn. rewrite Hf.
  eexists. split; [reflexivity|]. split_and!; try done.
  intros Hin rest'. unfold Insert._table. run_M. rewrite Hn.
  cbn [cached_collections set_log]. by rewrite bool_decide_true.
Qed.

End MoreDropFacts.

Section MoreDispatchSamples.
Import Sql Dispatch.

Abbreviation more_init :=
  (Dispatch.__init__ sample_version more_sqlparse idle_handler idle_handler
     idle_handler).

Lemma empty_input_raises_IndexError_witness :
  more_init "" None sample_world = (Raise IndexError, sample_world).
Proof.
  apply (empty_input_raises_IndexError sample_version more_sqlparse
           idle_handler idle_handler idle_handler "" None sample_world).
  reflexivity.
Defined.

Lemma select_is_lazy_witness :
  match Select.parse (clauses paged_statement) with
  | Ok sq =>
      Select._cursor sq = None
      ∧ more_init "SELECT a, b FROM t WHERE a = %s ORDER BY a OFFSET 5 LIMIT 10"
          (Some [PInt 7]) listing_world
        = (Ok {| _params := Some [PInt 7];
                 _params_index_count :=
                   (Markers.init_sql
                      "SELECT a, b FROM t WHERE a = %s ORDER BY a OFFSET 5 LIMIT 10").1;
                 _sql :=
                   (Markers.init_sql
                      "SELECT a, b FROM t WHERE a = %s ORDER BY a OFFSET 5 LIMIT 10").2;
                 last_row_id := PNone;
                 _query := Some (SelectQuery sq) |}, listing_world)
  | Raise e =>
      more_init "SELECT a, b FROM t WHERE a = %s ORDER BY a OFFSET 5 LIMIT 10"
        (Some [PInt 7]) listing_world
      = (Raise (parse_except sample_version
                  (Markers.init_sql
                     "SELECT a, b FROM t WHERE a = %s ORDER BY a OFFSET 5 LIMIT 10").2
                  (Some [PInt 7]) e), listing_world)
  end.
Proof.
  apply (select_is_lazy sample_version more_sqlparse idle_handler idle_handler
           idle_handler
           "SELECT a, b FROM t WHERE a = %s ORDER BY a OFFSET 5 LIMIT 10"
           (Some [PInt 7]) paged_statement listing_world).
  - reflexivity.
  - reflexivity.
Defined.

Lemma insert_into_unknown_table_witness :
  more_init insert_unknown_sql None sample_world
  = (Raise (MigrationError "Table v does not exist in database"), sample_world).
Proof.
  apply (insert_into_unknown_table sample_version more_sqlparse idle_handler
           idle_handler idle_handler insert_unknown_sql
           None insert_unknown_statement (ident "v")
           (drop 1 (tokens_after 2 (tokens insert_unknown_statement)))
           (Some "v"%string) sample_world).
  - reflexivity.
  - reflexivity.
  - reflexivity.
  - reflexivity.
  - vm_compute. intros H. by repeat (apply elem_of_cons in H as [H|H]; [discriminate|]);
      apply elem_of_nil in H.
  - reflexivity.
Defined.

Lemma alter_without_action_witness :
  more_init "ALTER TABLE t" None sample_world
  = (Raise (SQLDecodeError (FailedSQL "ALTER TABLE t" None None sample_version)),
     sample_world).
Proof.
  apply (alter_without_action sample_version more_sqlparse idle_handler
           idle_handler idle_handler "ALTER TABLE t" None alter_bare_statement
           (Alter.set_left_table Alter.init (Some "t"%string)) sample_world).
  - reflexivity.
  - reflexivity.
  - reflexivity.
  - reflexivity.
Defined.

Lemma drop_table_keeps_metadata_witness :
  ∃ w', _drop None "DROP TABLE t" drop_table_statement sample_world
        = (Ok (None, PNone), w')
    ∧ log w' = log sample_world ++ [drop_collection "t"]
    ∧ schema w' = schema sample_world
    ∧ cached_collections w' = cached_collections sample_world
    ∧ (Some "t"%string ∈ cached_collections sample_world →
       ∀ rest', Insert._table (ident "t" :: rest') w' = (Ok (Some "t"%string, rest'), w')).
Proof.
  apply (drop_table_keeps_metadata None "DROP TABLE t" drop_table_statement
           (Token Keyword "TABLE") (ident "t") [] "t" sample_world).
  - reflexivity.
  - reflexivity.
  - reflexivity.
  - reflexivity.
Defined.

End MoreDispatchSamples.
